(** * soloscanner: the price scraper ([scraper/scraper.py])

    A shallow embedding of the scraper: JSON values as Python sees them
    after [response.json()], the dotted-path extractor, the five retailer
    adapters, the registry, and the orchestration loop of [main].

    Conventions.
    - Python objects that come out of [json.load] are values of [value].
      Floats are IEEE binary64 numbers, written with the Standard
      Library's [spec_float] at precision 53.
    - A string is the UTF-8 encoding of the Python [str].  [int()] and
      [float()] classify characters as CPython 3.11 does (Unicode 14.0):
      beyond ASCII they read the decimal digits of every script and the
      Unicode white space.
    - Code that can raise returns an [outcome]; code that also talks to
      the outside (network, clock, environment, log, data file) runs in
      the monad [M] over an explicit [world]. *)

From Stdlib Require Import ZArith String Ascii List Bool Lia QArith Qabs Permutation.
From Stdlib Require Import SpecFloat.
Import ListNotations.

Local Open Scope string_scope.
Local Open Scope Z_scope.

Set Warnings "-register-all".

(* ===================================================================== *)
(** * Exceptions and outcomes *)
(* ===================================================================== *)

(** The exception classes that the scraper's code paths can raise.
    [ValueError] carries the message given at the [raise] statement; for
    a [ValueError] raised by a built-in conversion the message is the
    constant part of CPython's text. *)
Inductive exn : Type :=
| ValueError (msg : string)
| TypeError
| AttributeError
| IndexError
| ZeroDivisionError
| OverflowError
| ConnectionError                (* [session.get] / [session.post] failed *)
| HTTPError (status : Z)         (* [response.raise_for_status()] *)
| JSONDecodeError.               (* [response.json()] *)

Inductive outcome (A : Type) : Type :=
| Ok (a : A)
| Raise (e : exn).
Arguments Ok {A} a.
Arguments Raise {A} e.

Definition obind {A B} (c : outcome A) (k : A -> outcome B) : outcome B :=
  match c with
  | Ok a => k a
  | Raise e => Raise e
  end.

Declare Scope py_scope.
Delimit Scope py_scope with py.
Notation "x <~ c ;; k" := (obind c (fun x => k))
  (at level 61, c at next level, right associativity) : py_scope.

Definition is_ok {A} (c : outcome A) : bool :=
  match c with Ok _ => true | Raise _ => false end.

(* ===================================================================== *)
(** * Floats (binary64) *)
(* ===================================================================== *)

Module Float.

Definition prec : Z := 53.
Definition emax : Z := 1024.

Definition float := spec_float.

(** Nearest binary64 number to the integer [z] (ties to even);
    an infinity when [z] is out of range. *)
Definition of_Z (z : Z) : float := binary_normalize prec emax z 0 false.

(** Nearest binary64 number to [(-1)^s * n / d] for positive integers
    [n] and [d].  This is the division of [SpecFloat] applied to the two
    integers, whose core works for mantissas of any size. *)
Definition of_ratio (s : bool) (n d : positive) : float :=
  SFdiv prec emax (S754_finite s n 0) (S754_finite false d 0).

Definition div (x y : float) : float := SFdiv prec emax x y.

Definition is_zero (x : float) : bool :=
  match x with S754_zero _ => true | _ => false end.

Definition is_finite (x : float) : bool :=
  match x with S754_zero _ | S754_finite _ _ _ => true | _ => false end.

(** The exact value of a finite float. *)
Definition to_Q (x : float) : Q :=
  match x with
  | S754_finite s m e =>
      let v := match e with
               | Zneg p => Zpos m # (2 ^ p)
               | _ => inject_Z (Zpos m * 2 ^ e)
               end in
      if s then Qopp v else v
  | _ => 0%Q
  end.

(** [Z.div] and [Z.modulo] give the floor; [round_half_even n d] is the
    integer nearest to [n / d], the even one in a tie ([0 < d]). *)
Definition round_half_even (n d : Z) : Z :=
  let q := n / d in
  let r := n mod d in
  match 2 * r ?= d with
  | Lt => q
  | Gt => q + 1
  | Eq => if Z.even q then q else q + 1
  end.

(** Python's [round(x, 2)] on a float.  CPython prints [x] correctly
    rounded to two decimals (round-half-even on the exact binary value)
    and reads the decimal string back, correctly rounded: the result is
    the float nearest to [k / 100], where [k] is the integer nearest to
    [100 * x].  The sign of [x] is kept; NaN and the infinities round
    to themselves. *)
Definition round2 (x : float) : float :=
  match x with
  | S754_finite s m e =>
      let k := match e with
               | Zneg p => round_half_even (100 * Zpos m) (Zpos (2 ^ p))
               | _ => 100 * Zpos m * 2 ^ e
               end in
      match k with
      | Zpos kp => of_ratio s kp 100
      | _ => S754_zero s
      end
  | _ => x
  end.

End Float.

(* ===================================================================== *)
(** * Strings: [str.split], [int(str)], [float(str)] *)
(* ===================================================================== *)

Module Str.

(** [s.split('.')]: the pieces between the dots; never empty. *)
Fixpoint split_dot (s : string) : list string :=
  match s with
  | EmptyString => [EmptyString]
  | String c s' =>
      if Ascii.eqb c "."
      then EmptyString :: split_dot s'
      else match split_dot s' with
           | p :: ps => String c p :: ps
           | [] => [String c EmptyString]
           end
  end.

(** ** Characters beyond ASCII

    [code_points] decodes UTF-8 into the code points of the text.  Bytes
    that encode no text stand for no Python string; such a byte is read
    as the replacement character U+FFFD ([bad] below). *)
Definition continuation (c : ascii) : option N :=
  let n := N_of_ascii c in
  if ((128 <=? n) && (n <? 192))%N then Some (n - 128)%N else None.

(** A decoded code point has to need the number of bytes it was written
    with, and to be a code point at all. *)
Definition in_range (low : N) (n : N) : option N :=
  if ((low <=? n) && (n <=? 0x10ffff))%N then Some n else None.

Fixpoint code_points (s : string) : list N :=
  match s with
  | EmptyString => []
  | String c0 s0 =>
      let n := N_of_ascii c0 in
      let bad := fun _ : unit => (0xfffd :: code_points s0)%N in
      if (n <? 128)%N then n :: code_points s0
      else if (n <? 192)%N then bad tt
      else if (n <? 224)%N then
        match s0 with
        | String c1 s1 =>
            match continuation c1 with
            | Some a =>
                match in_range 128 ((n - 192) * 64 + a) with
                | Some cp => cp :: code_points s1
                | None => bad tt
                end
            | None => bad tt
            end
        | _ => bad tt
        end
      else if (n <? 240)%N then
        match s0 with
        | String c1 (String c2 s2) =>
            match continuation c1, continuation c2 with
            | Some a, Some b =>
                match in_range 2048 (((n - 224) * 64 + a) * 64 + b) with
                | Some cp => cp :: code_points s2
                | None => bad tt
                end
            | _, _ => bad tt
            end
        | _ => bad tt
        end
      else if (n <? 248)%N then
        match s0 with
        | String c1 (String c2 (String c3 s3)) =>
            match continuation c1, continuation c2, continuation c3 with
            | Some a, Some b, Some c =>
                match in_range 65536 ((((n - 240) * 64 + a) * 64 + b) * 64 + c) with
                | Some cp => cp :: code_points s3
                | None => bad tt
                end
            | _, _, _ => bad tt
            end
        | _ => bad tt
        end
      else bad tt
  end.

(** The white space beyond ASCII ([str.isspace]). *)
Definition unicode_space (n : N) : bool :=
  ((n =? 0x85) || (n =? 0xa0) || (n =? 0x1680) || ((0x2000 <=? n) && (n <=? 0x200a))
   || (n =? 0x2028) || (n =? 0x2029) || (n =? 0x202f) || (n =? 0x205f) || (n =? 0x3000))%N.

(** The decimal digits beyond ASCII come in runs of ten, from the zero
    of a script to its nine; these are the zeros. *)
Definition decimal_zeros : list N :=
  [
   0x660; 0x6f0; 0x7c0; 0x966; 0x9e6; 0xa66; 0xae6; 0xb66;
   0xbe6; 0xc66; 0xce6; 0xd66; 0xde6; 0xe50; 0xed0; 0xf20;
   0x1040; 0x1090; 0x17e0; 0x1810; 0x1946; 0x19d0; 0x1a80; 0x1a90;
   0x1b50; 0x1bb0; 0x1c40; 0x1c50; 0xa620; 0xa8d0; 0xa900; 0xa9d0;
   0xa9f0; 0xaa50; 0xabf0; 0xff10; 0x104a0; 0x10d30; 0x11066; 0x110f0;
   0x11136; 0x111d0; 0x112f0; 0x11450; 0x114d0; 0x11650; 0x116c0; 0x11730;
   0x118e0; 0x11950; 0x11c50; 0x11d50; 0x11da0; 0x16a60; 0x16ac0; 0x16b50;
   0x1d7ce; 0x1d7d8; 0x1d7e2; 0x1d7ec; 0x1d7f6; 0x1e140; 0x1e2f0; 0x1e950;
   0x1fbf0
  ]%N.

Definition unicode_decimal (n : N) : option N :=
  option_map (fun z => (n - z)%N)
             (find (fun z => ((z <=? n) && (n <? z + 10))%N) decimal_zeros).

(** What [int()] and [float()] parse in place of the text: an ASCII
    character is kept, a white space character beyond ASCII becomes a
    space, a decimal digit beyond ASCII its ASCII digit.  At the first
    character that is none of these the text is cut and a question mark
    put in its place, which no number contains. *)
Definition ascii_of_code_point (n : N) : option ascii :=
  if (n <? 128)%N then Some (ascii_of_N n)
  else if unicode_space n then Some " "%char
  else option_map (fun d => ascii_of_N (48 + d)) (unicode_decimal n).

Fixpoint to_ascii (cps : list N) : string :=
  match cps with
  | [] => EmptyString
  | n :: rest =>
      match ascii_of_code_point n with
      | Some c => String c (to_ascii rest)
      | None => "?"
      end
  end.

Definition ascii_form (s : string) : string := to_ascii (code_points s).

(** ** Parsing the ASCII form

    White space as the parsers strip it from both ends: TAB, LF, VT,
    FF, CR and the space. *)
Definition is_space (c : ascii) : bool :=
  let n := N_of_ascii c in
  (((9 <=? n) && (n <=? 13)) || (n =? 32))%N.

Definition digit_of (c : ascii) : option Z :=
  let n := Z.of_N (N_of_ascii c) in
  if (48 <=? n) && (n <=? 57) then Some (n - 48) else None.

Definition is_digit (c : ascii) : bool :=
  match digit_of c with Some _ => true | None => false end.

Fixpoint lstrip (s : string) : string :=
  match s with
  | String c s' => if is_space c then lstrip s' else s
  | EmptyString => EmptyString
  end.

Fixpoint rstrip (s : string) : string :=
  match s with
  | String c s' =>
      match rstrip s' with
      | EmptyString => if is_space c then EmptyString else String c EmptyString
      | r => String c r
      end
  | EmptyString => EmptyString
  end.

Definition strip (s : string) : string := rstrip (lstrip s).

(** Reads [digit (["_"] digit)*] greedily from the front of [s]:
    the digits read and what is left.  An underscore is taken only
    when a digit follows it. *)
Fixpoint scan_digits (s : string) : list Z * string :=
  match s with
  | String c s' =>
      match digit_of c with
      | Some d => let (ds, r) := scan_digits s' in (d :: ds, r)
      | None =>
          if Ascii.eqb c "_"
          then match s' with
               | String c' _ =>
                   if is_digit c'
                   then match scan_digits s' with
                        | ([], _) => ([], s)
                        | dr => dr
                        end
                   else ([], s)
               | EmptyString => ([], s)
               end
          else ([], s)
      end
  | EmptyString => ([], s)
  end.

(** A [digitpart]: like [scan_digits], but it has to start with a digit. *)
Definition digitpart (s : string) : option (list Z * string) :=
  match s with
  | String c _ => if is_digit c then Some (scan_digits s) else None
  | EmptyString => None
  end.

Definition digits_value (ds : list Z) : Z :=
  fold_left (fun acc d => 10 * acc + d) ds 0.

Definition sign_of (s : string) : bool * string :=
  match s with
  | String c r =>
      if Ascii.eqb c "-" then (true, r)
      else if Ascii.eqb c "+" then (false, r)
      else (false, s)
  | EmptyString => (false, s)
  end.

(** CPython's default limit on the number of digits [int(str)] reads. *)
Definition int_max_str_digits : nat := 4300.

(** The integer literal of an ASCII string. *)
Definition parse_int (s : string) : option Z :=
  let (neg, body) := sign_of (strip s) in
  match digitpart body with
  | Some (ds, EmptyString) =>
      if Nat.ltb int_max_str_digits (length ds) then None
      else Some (if neg then - digits_value ds else digits_value ds)
  | _ => None
  end.

(** Whether the digits of an ASCII string are more than [int()] reads.
    The digits are counted up to the first character that is neither a
    digit nor an underscore, and only if no underscore is out of place. *)
Definition over_limit (s : string) : bool :=
  match digitpart (snd (sign_of (strip s))) with
  | Some (ds, rest) =>
      Nat.ltb int_max_str_digits (length ds)
      && negb match rest with String c _ => Ascii.eqb c "_" | EmptyString => false end
  | None => false
  end.

(** [int(s)] in base 10: [Some z], or [None] for [ValueError]. *)
Definition to_int (s : string) : option Z := parse_int (ascii_form s).

Definition lower (c : ascii) : ascii :=
  let n := N_of_ascii c in
  if ((65 <=? n) && (n <=? 90))%N then ascii_of_N (n + 32) else c.

Fixpoint lowercase (s : string) : string :=
  match s with
  | String c s' => String (lower c) (lowercase s')
  | EmptyString => EmptyString
  end.

(** The float nearest to [(-1)^neg * m * 10^e]. *)
Definition decimal_to_float (neg : bool) (m e : Z) : Float.float :=
  match m with
  | Zpos mp =>
      match e with
      | Zneg k => Float.of_ratio neg mp (10 ^ k)
      | _ => Float.of_Z (if neg then - (m * 10 ^ e) else m * 10 ^ e)
      end
  | _ => S754_zero neg
  end.

(** The exponent part [("e" | "E") [sign] digitpart] (or nothing), which
    has to run to the end of the string. *)
Definition exponent_of (s : string) : option Z :=
  match s with
  | EmptyString => Some 0
  | String c r =>
      if Ascii.eqb (lower c) "e"
      then let (neg, body) := sign_of r in
           match digitpart body with
           | Some (ds, EmptyString) =>
               Some (if neg then - digits_value ds else digits_value ds)
           | _ => None
           end
      else None
  end.

(** [number ::= [digitpart] "." digitpart | digitpart ["."]], then the
    exponent: the integer of all digits read and the decimal exponent. *)
Definition floatnumber (s : string) : option (Z * Z) :=
  let after_int := match digitpart s with
                   | Some (ds, r) => (ds, r, true)
                   | None => ([], s, false)
                   end in
  let '(ints, r1, has_int) := after_int in
  let after_frac :=
    match r1 with
    | String c r2 =>
        if Ascii.eqb c "."
        then match digitpart r2 with
             | Some (fs, r3) => Some (fs, r3)
             | None => if has_int then Some ([], r2) else None
             end
        else if has_int then Some ([], r1) else None
    | EmptyString => if has_int then Some ([], r1) else None
    end in
  match after_frac with
  | Some (fracs, r) =>
      match exponent_of r with
      | Some ex => Some (digits_value (ints ++ fracs), ex - Z.of_nat (length fracs))
      | None => None
      end
  | None => None
  end.

(** The float literal of an ASCII string. *)
Definition parse_float (s : string) : option Float.float :=
  let (neg, body) := sign_of (strip s) in
  let word := lowercase body in
  if String.eqb word "inf" || String.eqb word "infinity" then Some (S754_infinity neg)
  else if String.eqb word "nan" then Some S754_nan
  else match floatnumber body with
       | Some (m, e) => Some (decimal_to_float neg m e)
       | None => None
       end.

(** [float(s)]: [Some x], or [None] for [ValueError]. *)
Definition to_float (s : string) : option Float.float := parse_float (ascii_form s).

End Str.

(* ===================================================================== *)
(** * Python values *)
(* ===================================================================== *)

(** What [json.load] and [response.json()] return: [None], booleans,
    integers, floats, strings, lists, and dicts with string keys.  A dict
    is the list of its items in insertion order; a key is looked up from
    the front. *)
Inductive value : Type :=
| VNone
| VBool (b : bool)
| VInt (z : Z)
| VFloat (x : Float.float)
| VStr (s : string)
| VList (items : list value)
| VDict (items : list (string * value)).

Definition dict : Type := list (string * value).

Module Dict.

(** [d.get(key)] with no default: [None] for a missing key. *)
Fixpoint get (d : dict) (key : string) : value :=
  match d with
  | [] => VNone
  | (k, v) :: d' => if String.eqb k key then v else get d' key
  end.

(** [key in d]. *)
Fixpoint mem (d : dict) (key : string) : bool :=
  match d with
  | [] => false
  | (k, _) :: d' => String.eqb k key || mem d' key
  end.

(** [d[key] = v]: the value is replaced in place, or the item is added
    at the end. *)
Fixpoint set (d : dict) (key : string) (v : value) : dict :=
  match d with
  | [] => [(key, v)]
  | (k, v') :: d' =>
      if String.eqb k key then (k, v) :: d' else (k, v') :: set d' key v
  end.

(** [d.setdefault(key, v)], for the effect on [d]. *)
Definition setdefault (d : dict) (key : string) (v : value) : dict :=
  if mem d key then d else set d key v.

(** [d.update(other)]. *)
Definition update (d other : dict) : dict :=
  fold_left (fun acc kv => set acc (fst kv) (snd kv)) other d.

End Dict.

(** Truth value testing: [None], [False], zero of a numeric type, and
    empty strings and containers are false. *)
Definition truthy (v : value) : bool :=
  match v with
  | VNone => false
  | VBool b => b
  | VInt z => negb (z =? 0)
  | VFloat x => negb (Float.is_zero x)
  | VStr s => negb (String.eqb s "")
  | VList l => match l with [] => false | _ => true end
  | VDict d => match d with [] => false | _ => true end
  end.

(** [a or b], both operands already evaluated. *)
Definition py_or (a b : value) : value := if truthy a then a else b.

(** [a or b] where [b] is still to be evaluated, and is only if [a] is
    false. *)
Definition or_else (a : value) (b : outcome value) : outcome value :=
  if truthy a then Ok a else b.

(** [v is None]. *)
Definition is_none (v : value) : bool :=
  match v with VNone => true | _ => false end.

(** The method call [v.get(key)]: only a dict has the attribute. *)
Definition py_get (v : value) (key : string) : outcome value :=
  match v with
  | VDict d => Ok (Dict.get d key)
  | _ => Raise AttributeError
  end.

(** [int] to [float], as arithmetic and [float()] do it. *)
Definition float_of_int (z : Z) : outcome Float.float :=
  match Float.of_Z z with
  | S754_infinity _ => Raise OverflowError
  | x => Ok x
  end.

(** [float(v)]. *)
Definition py_float (v : value) : outcome Float.float :=
  match v with
  | VFloat x => Ok x
  | VInt z => float_of_int z
  | VBool b => Ok (Float.of_Z (if b then 1 else 0))
  | VStr s =>
      match Str.to_float s with
      | Some x => Ok x
      | None => Raise (ValueError "could not convert string to float")
      end
  | VNone | VList _ | VDict _ => Raise TypeError
  end.

(** [x / n] for a float [x] and an int [n]. *)
Definition float_truediv (x : Float.float) (n : Z) : outcome Float.float :=
  (y <~ float_of_int n ;;
   if Float.is_zero y then Raise ZeroDivisionError else Ok (Float.div x y))%py.

(** [l[idx]] on a list: a negative index counts from the end. *)
Definition list_index (l : list value) (idx : Z) : outcome value :=
  let len := Z.of_nat (length l) in
  let i := if idx <? 0 then idx + len else idx in
  if (i <? 0) || (len <=? i) then Raise IndexError
  else match nth_error l (Z.to_nat i) with
       | Some v => Ok v
       | None => Raise IndexError
       end.

(* ===================================================================== *)
(** * The path extractor (lines 79-98) *)
(* ===================================================================== *)

(** The body of the [for part in dotted_path.split('.')] loop, with the
    parts still to visit. *)
Fixpoint walk (current : value) (parts : list string) : outcome value :=
  match parts with
  | [] => Ok current
  | part :: rest =>
      match current with
      | VNone => Ok VNone
      | VList l =>
          match Str.to_int part with
          | None => Ok VNone                                  (* except ValueError *)
          | Some idx =>
              if Z.of_nat (length l) <=? idx then Ok VNone    (* idx >= len(current) *)
              else (v <~ list_index l idx ;; walk v rest)%py
          end
      | VDict d => walk (Dict.get d part) rest
      | _ => Ok VNone
      end
  end.

Definition extract_path (data : value) (dotted_path : option string) : outcome value :=
  match dotted_path with
  | None | Some EmptyString => Ok VNone                       (* if not dotted_path *)
  | Some p => walk data (Str.split_dot p)
  end.

(* ===================================================================== *)
(** * The outside world *)
(* ===================================================================== *)

Inductive http_method : Type := GET | POST.

(** One call of [session.get] or [session.post], with the keyword
    arguments it was given. *)
Record request : Type := {
  req_method : http_method;
  req_url : string;
  req_headers : option dict;      (* headers=... *)
  req_json : option value;        (* json=... *)
  req_timeout : Z                 (* timeout=... *)
}.

(** What comes back: nothing (connection error, timeout), or a response
    with a status code whose body parses as JSON or does not. *)
Inductive http_reply : Type :=
| NoReply
| Reply (status : Z) (body : option value).

Record response : Type := {
  status_code : Z;
  body_json : option value
}.

Inductive log_level : Type := INFO | WARNING | ERROR.

(** The arguments handed to a logging call along with its format. *)
Inductive log_arg : Type :=
| ArgStr (s : string)
| ArgInt (z : Z)
| ArgExn (e : exn)
| ArgDataFile.

Record log_record : Type := {
  log_lvl : log_level;
  log_fmt : string;
  log_args : list log_arg
}.

(** The price payload returned by an adapter (a dict with these three
    keys in the source). *)
Record payload : Type := {
  price_total : Float.float;
  price_unit : Float.float;
  checked_at : Z
}.

(** A price record, as [build_entry] makes it. *)
Record entry : Type := {
  e_retailer : string;
  e_suburb : string;
  e_pack_size : Z;
  e_price_total : Float.float;
  e_price_unit : Float.float;
  e_url : string;
  e_checked_at : Z
}.

(** The document written to [DATA_FILE]. *)
Record snapshot : Type := {
  updated_at : Z;
  items : list entry
}.

(** The world a run lives in.  [w_env], [w_http] and [w_clock] are given
    from outside; the run reads the clock ([w_ticks] counts the readings),
    sends requests ([w_sent], oldest first), logs ([w_log]) and writes the
    data file ([w_written], one snapshot per call of [write_prices], the
    last one being the file's content). *)
Record world : Type := {
  w_env : string -> option string;
  w_http : request -> http_reply;
  w_clock : nat -> Z;
  w_ticks : nat;
  w_sent : list request;
  w_log : list log_record;
  w_written : list snapshot
}.

(** Computations that may raise and act on the world; what was done
    before an exception stays done. *)
Definition M (A : Type) : Type := world -> outcome A * world.

Definition ret {A} (a : A) : M A := fun w => (Ok a, w).

Definition bind {A B} (c : M A) (k : A -> M B) : M B :=
  fun w => match c w with
           | (Ok a, w') => k a w'
           | (Raise e, w') => (Raise e, w')
           end.

Definition raise {A} (e : exn) : M A := fun w => (Raise e, w).

Definition lift {A} (c : outcome A) : M A := fun w => (c, w).

(** [try: c  except Exception as exc: handler exc]. *)
Definition try_except {A} (c : M A) (handler : exn -> M A) : M A :=
  fun w => match c w with
           | (Ok a, w') => (Ok a, w')
           | (Raise e, w') => handler e w'
           end.

Notation "x <- c ;; k" := (bind c (fun x => k))
  (at level 61, c at next level, right associativity) : py_scope.
Notation "c ;;; k" := (bind c (fun _ => k))
  (at level 61, right associativity) : py_scope.

Local Open Scope py_scope.

(** The four ways a run changes its world. *)
Definition tick (w : world) : world :=
  {| w_env := w_env w; w_http := w_http w; w_clock := w_clock w;
     w_ticks := S (w_ticks w); w_sent := w_sent w; w_log := w_log w;
     w_written := w_written w |}.

Definition add_sent (r : request) (w : world) : world :=
  {| w_env := w_env w; w_http := w_http w; w_clock := w_clock w;
     w_ticks := w_ticks w; w_sent := w_sent w ++ [r]; w_log := w_log w;
     w_written := w_written w |}.

Definition add_log (l : log_record) (w : world) : world :=
  {| w_env := w_env w; w_http := w_http w; w_clock := w_clock w;
     w_ticks := w_ticks w; w_sent := w_sent w; w_log := w_log w ++ [l];
     w_written := w_written w |}.

Definition add_written (s : snapshot) (w : world) : world :=
  {| w_env := w_env w; w_http := w_http w; w_clock := w_clock w;
     w_ticks := w_ticks w; w_sent := w_sent w; w_log := w_log w;
     w_written := w_written w ++ [s] |}.

(** [int(time.time())], and equally [int(datetime.now(...).timestamp())]. *)
Definition time_now : M Z :=
  fun w => (Ok (w_clock w (w_ticks w)), tick w).

(** [os.getenv(name)]. *)
Definition getenv (name : string) : M value :=
  fun w => (Ok (match w_env w name with Some s => VStr s | None => VNone end), w).

(** [session.get(...)] / [session.post(...)]: the request goes out, then
    the reply, if any, is the response. *)
Definition send (r : request) : M response :=
  fun w =>
    match w_http w r with
    | NoReply => (Raise ConnectionError, add_sent r w)
    | Reply st body => (Ok {| status_code := st; body_json := body |}, add_sent r w)
    end.

(** [response.raise_for_status()]. *)
Definition raise_for_status (resp : response) : outcome unit :=
  if (400 <=? status_code resp) && (status_code resp <? 600)
  then Raise (HTTPError (status_code resp))
  else Ok tt.

(** [response.json()]. *)
Definition response_json (resp : response) : outcome value :=
  match body_json resp with
  | Some v => Ok v
  | None => Raise JSONDecodeError
  end.

(** The three statements every adapter runs on its request:
    send, [raise_for_status()], [json()]. *)
Definition fetch_json (r : request) : M value :=
  resp <- send r ;;
  _ <- lift (raise_for_status resp) ;;
  lift (response_json resp).

Definition log (lvl : log_level) (fmt : string) (args : list log_arg) : M unit :=
  fun w => (Ok tt, add_log {| log_lvl := lvl; log_fmt := fmt; log_args := args |} w).

(* ===================================================================== *)
(** * Pack descriptors (lines 32-42) *)
(* ===================================================================== *)

Record PackConfig : Type := {
  retailer : string;
  suburb : string;
  pack_size : Z;
  url : string;
  source : string;
  product_id : option string;
  store_id : option string;
  headers : option (list (string * string));
  extra : option dict
}.

(** An optional string that is neither [None] nor empty, that is, one
    that passes [if s]. *)
Definition nonempty (o : option string) : option string :=
  match o with
  | Some EmptyString => None
  | _ => o
  end.

Definition USER_AGENT : string :=
  "Mozilla/5.0 (Macintosh; Intel Mac OS X 10_15_7) " ++
  "AppleWebKit/537.36 (KHTML, like Gecko) " ++
  "Chrome/123.0.0.0 Safari/537.36".

(** Lines 72-76. *)
Definition normalise_headers (h : option (list (string * string))) : dict :=
  let merged := [("User-Agent", VStr USER_AGENT); ("Accept", VStr "application/json")] in
  match h with
  | None | Some [] => merged
  | Some hs => Dict.update merged (map (fun kv => (fst kv, VStr (snd kv))) hs)
  end.

(* ===================================================================== *)
(** * Retailer adapters (lines 101-271) *)
(* ===================================================================== *)

(** Each adapter is written in the four steps of its source text: the
    checks and the request it builds, the exchange with the server
    ([fetch_json]), the lookup of the total and the unit price in the
    response, and the closing statements that turn the two into a payload. *)

(** The closing statements, lines 126-136 of [fetch_dan_murphys]; the other
    adapters end with the same statements (lines 155-165, 200-210, 231-241,
    261-271), each with its own message. *)
Definition price_payload (missing : string) (pack : PackConfig)
    (price_total unit_price : value) : M payload :=
  if is_none price_total then raise (ValueError missing)
  else
    unit_price <- lift (if is_none unit_price && negb (pack_size pack =? 0)
                        then (t <~ py_float price_total ;;
                              q <~ float_truediv t (pack_size pack) ;;
                              Ok (VFloat q))
                        else Ok unit_price) ;;
    total <- lift (py_float price_total) ;;
    unit <- lift (py_float unit_price) ;;
    now <- time_now ;;
    ret {| price_total := total; price_unit := unit; checked_at := now |}.

(** ** Dan Murphy's (lines 101-136) *)

Definition dan_murphys_request (pack : PackConfig) : outcome request :=
  match nonempty (product_id pack) with
  | None => Raise (ValueError "product_id required for Dan Murphy's")
  | Some pid =>
      let store := match nonempty (store_id pack) with
                   | Some s => s
                   | None => "DMONLINE"
                   end in
      Ok {| req_method := GET;
            req_url := "https://api.danmurphys.com.au/apis/ui/product/v3/detail/"
                       ++ pid ++ "?storeId=" ++ store;
            req_headers := None; req_json := None; req_timeout := 20 |}
  end.

(** Lines 112-118: where the price object is. *)
Definition dan_murphys_price_info (data : value) : outcome value :=
  match data with
  | VDict d =>
      let price_info := py_or (Dict.get d "Price") (Dict.get d "price") in
      if negb (truthy price_info) && Dict.mem d "Products" then
        let products :=
          py_or (py_or (Dict.get d "Products") (Dict.get d "products")) (VList []) in
        match products with
        | VList (first :: _) =>
            a <~ py_get first "Price" ;;
            or_else a (py_get first "price")
        | _ => Ok price_info
        end
      else Ok price_info
  | _ => Ok VNone
  end.

(** Lines 112-124: the total and the unit price found in the response. *)
Definition dan_murphys_prices (data : value) : outcome (value * value) :=
  price_info <~ dan_murphys_price_info data ;;
  if negb (truthy price_info)
  then Raise (ValueError "Unable to locate price data for Dan Murphy's response")
  else
    final <~ py_get price_info "FinalPrice" ;;
    final_or_price <~ or_else final (py_get price_info "Price") ;;
    price_total <~ or_else final_or_price (py_get price_info "SalePrice") ;;
    unit <~ py_get price_info "UnitPrice" ;;
    unit_price <~ or_else unit (py_get price_info "CupPrice") ;;
    Ok (price_total, unit_price).

Definition fetch_dan_murphys (pack : PackConfig) : M payload :=
  r <- lift (dan_murphys_request pack) ;;
  data <- fetch_json r ;;
  prices <- lift (dan_murphys_prices data) ;;
  price_payload "Dan Murphy's response missing price value" pack (fst prices) (snd prices).

(** ** BWS (lines 139-165) *)

Definition bws_request (pack : PackConfig) : outcome request :=
  match nonempty (product_id pack) with
  | None => Raise (ValueError "product_id required for BWS")
  | Some pid =>
      let headers := normalise_headers (headers pack) in
      let headers := Dict.setdefault headers "Referer" (VStr "https://bws.com.au/") in
      let headers := Dict.setdefault headers "Origin" (VStr "https://bws.com.au") in
      Ok {| req_method := GET;
            req_url := "https://bws.com.au/api/products/" ++ pid;
            req_headers := Some headers; req_json := None; req_timeout := 20 |}
  end.

(** Lines 151-153. *)
Definition bws_prices (data : value) : outcome (value * value) :=
  lower <~ py_get data "price" ;;
  lower_or_upper <~ or_else lower (py_get data "Price") ;;
  let price_info := py_or lower_or_upper (VDict []) in
  current <~ py_get price_info "current" ;;
  current_or_actual <~ or_else current (py_get price_info "ActualPrice") ;;
  price_total <~ or_else current_or_actual (py_get data "price") ;;
  per_item <~ py_get price_info "perItem" ;;
  unit_price <~ or_else per_item (py_get price_info "CupPrice") ;;
  Ok (price_total, unit_price).

Definition fetch_bws (pack : PackConfig) : M payload :=
  r <- lift (bws_request pack) ;;
  data <- fetch_json r ;;
  prices <- lift (bws_prices data) ;;
  price_payload "BWS response missing price" pack (fst prices) (snd prices).

(** ** Liquorland and First Choice (lines 168-210) *)

Definition liquorland_query : string :=
  "query ProductPricing($id: String!) {" ++
  " product(productId: $id) {" ++
  " pricing { current }" ++
  " cupPrice" ++
  " }" ++
  "}".

(** Line 175. *)
Definition liquorland_origin (pack : PackConfig) : string :=
  if String.eqb (source pack) "first_choice"
  then "https://www.firstchoiceliquor.com.au"
  else "https://www.liquorland.com.au".

Definition liquorland_like_request (pack : PackConfig) : outcome request :=
  match nonempty (product_id pack) with
  | None => Raise (ValueError "product_id required for Liquorland/First Choice")
  | Some pid =>
      let headers := normalise_headers (headers pack) in
      let origin := liquorland_origin pack in
      let headers := Dict.setdefault headers "Origin" (VStr origin) in
      let headers := Dict.setdefault headers "Referer" (VStr (origin ++ "/")) in
      let payload := VDict [("query", VStr liquorland_query);
                            ("variables", VDict [("id", VStr pid)])] in
      Ok {| req_method := POST;
            req_url := "https://api.liquorland.com.au/graphql";
            req_headers := Some headers; req_json := Some payload; req_timeout := 20 |}
  end.

(** Lines 193-198. *)
Definition liquorland_like_prices (data : value) : outcome (value * value) :=
  product <~ extract_path data (Some "data.product") ;;
  if negb (truthy product)
  then Raise (ValueError "Liquorland API missing product node")
  else
    price_total <~ extract_path product (Some "pricing.current") ;;
    unit_price <~ extract_path product (Some "cupPrice") ;;
    Ok (price_total, unit_price).

Definition fetch_liquorland_like (pack : PackConfig) : M payload :=
  r <- lift (liquorland_like_request pack) ;;
  data <- fetch_json r ;;
  prices <- lift (liquorland_like_prices data) ;;
  price_payload "Liquorland API missing price" pack (fst prices) (snd prices).

(** ** Coles (lines 213-241) *)

Definition coles_missing_key : string :=
  "Coles API key missing. Set COLES_API_KEY env var or config credential".

(** Line 214: the credential of the configuration, or else the
    environment variable. *)
Definition coles_api_key (credentials : dict) : M value :=
  let configured := Dict.get credentials "coles_api_key" in
  if truthy configured then ret configured else getenv "COLES_API_KEY".

(** Lines 214-223. *)
Definition coles_request (pack : PackConfig) (credentials : dict) : M request :=
  api_key <- coles_api_key credentials ;;
  if negb (truthy api_key) then raise (ValueError coles_missing_key)
  else
    match nonempty (product_id pack) with
    | None => raise (ValueError "product_id required for Coles")
    | Some pid =>
        let headers := normalise_headers (headers pack) in
        let headers := Dict.set headers "Ocp-Apim-Subscription-Key" api_key in
        ret {| req_method := GET;
               req_url := "https://api.coles.com.au/product/v1/productdetail/" ++ pid;
               req_headers := Some headers; req_json := None; req_timeout := 20 |}
    end.

(** Lines 228-229. *)
Definition coles_prices (data : value) : outcome (value * value) :=
  total <~ extract_path data (Some "product.price.current") ;;
  price_total <~ or_else total (extract_path data (Some "productPrice.current")) ;;
  unit <~ extract_path data (Some "product.price.unit") ;;
  unit_price <~ or_else unit (extract_path data (Some "productPrice.unit")) ;;
  Ok (price_total, unit_price).

Definition fetch_coles (pack : PackConfig) (credentials : dict) : M payload :=
  r <- coles_request pack credentials ;;
  data <- fetch_json r ;;
  prices <- lift (coles_prices data) ;;
  price_payload "Coles response missing price" pack (fst prices) (snd prices).

(** ** Woolworths (lines 244-271) *)

Definition woolworths_request (pack : PackConfig) : outcome request :=
  match nonempty (product_id pack) with
  | None => Raise (ValueError "product_id required for Woolworths")
  | Some pid =>
      Ok {| req_method := GET;
            req_url := "https://www.woolworths.com.au/apis/ui/products/" ++ pid;
            req_headers := Some (normalise_headers (headers pack));
            req_json := None; req_timeout := 20 |}
  end.

(** Lines 254-259. *)
Definition woolworths_prices (data : value) : outcome (value * value) :=
  detail <~ extract_path data (Some "ProductDetail") ;;
  let product := py_or detail data in
  final <~ extract_path product (Some "Price.FinalPrice") ;;
  price_total <~ or_else final (extract_path product (Some "Price.SalePrice")) ;;
  unit_price <~ extract_path product (Some "Price.CupPrice") ;;
  let price_total :=
    match product with
    | VDict d => if is_none price_total then Dict.get d "Price" else price_total
    | _ => price_total
    end in
  Ok (price_total, unit_price).

Definition fetch_woolworths (pack : PackConfig) : M payload :=
  r <- lift (woolworths_request pack) ;;
  data <- fetch_json r ;;
  prices <- lift (woolworths_prices data) ;;
  price_payload "Woolworths response missing price" pack (fst prices) (snd prices).

(* ===================================================================== *)
(** * The registry (lines 274-281) *)
(* ===================================================================== *)

(** The adapter functions, as the values stored in [FETCHERS]. *)
Inductive fetcher : Type :=
| Fetch_dan_murphys
| Fetch_bws
| Fetch_liquorland_like
| Fetch_coles
| Fetch_woolworths.

Definition FETCHERS : list (string * fetcher) :=
  [("dan_murphys", Fetch_dan_murphys);
   ("bws", Fetch_bws);
   ("liquorland", Fetch_liquorland_like);
   ("first_choice", Fetch_liquorland_like);
   ("coles", Fetch_coles);
   ("woolworths", Fetch_woolworths)].

(** [FETCHERS.get(key)]. *)
Fixpoint registry_get (reg : list (string * fetcher)) (key : string) : option fetcher :=
  match reg with
  | [] => None
  | (k, f) :: reg' => if String.eqb k key then Some f else registry_get reg' key
  end.

(** Calling a stored function with the session and the pack, and with the
    credentials as a third argument or without one.  Only [fetch_coles]
    takes three arguments; a call with the wrong number is a [TypeError]. *)
Definition call_fetcher (f : fetcher) (pack : PackConfig) (credentials : option dict)
    : M payload :=
  match f, credentials with
  | Fetch_coles, Some c => fetch_coles pack c
  | Fetch_dan_murphys, None => fetch_dan_murphys pack
  | Fetch_bws, None => fetch_bws pack
  | Fetch_liquorland_like, None => fetch_liquorland_like pack
  | Fetch_woolworths, None => fetch_woolworths pack
  | _, _ => raise TypeError
  end.

(* ===================================================================== *)
(** * Price records and persistence (lines 290-310) *)
(* ===================================================================== *)

(** Lines 290-299.  The default of [payload.get("checked_at", ...)] is an
    argument, so the clock is read even though the payload has the key. *)
Definition build_entry (pack : PackConfig) (p : payload) : M entry :=
  _ <- time_now ;;
  ret {| e_retailer := retailer pack;
         e_suburb := suburb pack;
         e_pack_size := pack_size pack;
         e_price_total := Float.round2 (price_total p);
         e_price_unit := Float.round2 (price_unit p);
         e_url := url pack;
         e_checked_at := checked_at p |}.

(** Lines 302-310; the file system takes the write. *)
Definition write_prices (entries : list entry) : M unit :=
  now <- time_now ;;
  fun w => (Ok tt, add_written {| updated_at := now; items := entries |} w).

(* ===================================================================== *)
(** * The orchestrator (lines 313-345) *)
(* ===================================================================== *)

(** The call of lines 332-334: the credentials go along for the source
    key ["coles"] only. *)
Definition invoke (f : fetcher) (credentials : dict) (pack : PackConfig) : M payload :=
  call_fetcher f pack (if String.eqb (source pack) "coles" then Some credentials else None).

(** One turn of the [for pack in packs] loop (lines 326-337): the entries
    collected so far, and after the turn. *)
Definition process_pack (credentials : dict) (entries : list entry) (pack : PackConfig)
    : M (list entry) :=
  match registry_get FETCHERS (source pack) with
  | None =>
      log WARNING "No fetcher for %s; skipping" [ArgStr (source pack)] ;;;
      ret entries
  | Some f =>
      try_except
        (log INFO "Fetching %s %sx" [ArgStr (retailer pack); ArgInt (pack_size pack)] ;;;
         p <- invoke f credentials pack ;;
         e <- build_entry pack p ;;
         ret (entries ++ [e])%list)
        (fun exc =>
           log ERROR "Failed to fetch %s %sx: %s"
               [ArgStr (retailer pack); ArgInt (pack_size pack); ArgExn exc] ;;;
           ret entries)
  end.

(** The whole loop (lines 324-337). *)
Fixpoint pack_loop (credentials : dict) (entries : list entry) (packs : list PackConfig)
    : M (list entry) :=
  match packs with
  | [] => ret entries
  | pack :: rest =>
      entries' <- process_pack credentials entries pack ;;
      pack_loop credentials entries' rest
  end.

(** [main] from line 317 on: [credentials] and [packs] are what lines
    314-316 read from the configuration.  The result is the exit code. *)
Definition main (credentials : dict) (packs : list PackConfig) : M Z :=
  match packs with
  | [] =>
      log ERROR "No packs configured. Add pack definitions to scraper/config.json" [] ;;;
      ret 1
  | _ =>
      entries <- pack_loop credentials [] packs ;;
      match entries with
      | [] =>
          log ERROR "No pricing data collected" [] ;;;
          ret 1
      | _ =>
          write_prices entries ;;;
          log INFO "Wrote %d price rows to %s"
              [ArgInt (Z.of_nat (length entries)); ArgDataFile] ;;;
          ret 0
      end
  end.

(* ===================================================================== *)
(** * Vocabulary of the statements *)
(* ===================================================================== *)

(** The adapters side by side: each is its request, the exchange, its
    price lookup and the closing statements (see [fetch_steps] below). *)
Definition fetch (f : fetcher) (pack : PackConfig) (credentials : dict) : M payload :=
  match f with
  | Fetch_dan_murphys => fetch_dan_murphys pack
  | Fetch_bws => fetch_bws pack
  | Fetch_liquorland_like => fetch_liquorland_like pack
  | Fetch_coles => fetch_coles pack credentials
  | Fetch_woolworths => fetch_woolworths pack
  end.

Definition adapter_request (f : fetcher) (pack : PackConfig) (credentials : dict)
    : M request :=
  match f with
  | Fetch_dan_murphys => lift (dan_murphys_request pack)
  | Fetch_bws => lift (bws_request pack)
  | Fetch_liquorland_like => lift (liquorland_like_request pack)
  | Fetch_coles => coles_request pack credentials
  | Fetch_woolworths => lift (woolworths_request pack)
  end.

Definition adapter_prices (f : fetcher) (data : value) : outcome (value * value) :=
  match f with
  | Fetch_dan_murphys => dan_murphys_prices data
  | Fetch_bws => bws_prices data
  | Fetch_liquorland_like => liquorland_like_prices data
  | Fetch_coles => coles_prices data
  | Fetch_woolworths => woolworths_prices data
  end.

(** The message of the adapter's "missing price" error. *)
Definition missing_price (f : fetcher) : string :=
  match f with
  | Fetch_dan_murphys => "Dan Murphy's response missing price value"
  | Fetch_bws => "BWS response missing price"
  | Fetch_liquorland_like => "Liquorland API missing price"
  | Fetch_coles => "Coles response missing price"
  | Fetch_woolworths => "Woolworths response missing price"
  end.

(** In world [w] the server answers request [r] with a success status and
    the JSON document [data]. *)
Definition answers (w : world) (r : request) (data : value) : Prop :=
  exists st, w_http w r = Reply st (Some data) /\ (st < 400 \/ 600 <= st).

(** A price that is the number zero. *)
Definition is_zero_price (v : value) : bool :=
  match v with
  | VInt 0 => true
  | VFloat (S754_zero _) => true
  | _ => false
  end.

(** A price field that holds the number zero or nothing. *)
Definition zero_or_none (v : value) : bool := is_zero_price v || is_none v.

(** Two worlds with the same surroundings: environment, servers, clock. *)
Definition same_outside (w w' : world) : Prop :=
  w_env w' = w_env w /\ w_http w' = w_http w /\ w_clock w' = w_clock w.

(** A computation that leaves the surroundings and the data file alone. *)
Definition quiet {A} (c : M A) : Prop :=
  forall w, same_outside w (snd (c w)) /\ w_written (snd (c w)) = w_written w.

(** The record [build_entry] returns. *)
Definition entry_of (pack : PackConfig) (p : payload) : entry :=
  {| e_retailer := retailer pack;
     e_suburb := suburb pack;
     e_pack_size := pack_size pack;
     e_price_total := Float.round2 (price_total p);
     e_price_unit := Float.round2 (price_unit p);
     e_url := url pack;
     e_checked_at := checked_at p |}.

(** The entries a run can make of its packs. *)
Definition built_from (packs : list PackConfig) (e : entry) : Prop :=
  exists pack p, In pack packs /\ e = entry_of pack p.

(** A pack that yields no record in the surroundings of [w]: no adapter
    is registered for its source key, or its adapter raises. *)
Definition yields_nothing (credentials : dict) (w : world) (pack : PackConfig) : Prop :=
  registry_get FETCHERS (source pack) = None \/
  exists f, registry_get FETCHERS (source pack) = Some f /\
            forall w', same_outside w w' ->
                       exists e, fst (invoke f credentials pack w') = Raise e.

(** The payload [p] is one that the adapter registered for the source
    key of [pack] returns for it, called as the loop calls it, in the
    surroundings of [w]. *)
Definition fetched_in (credentials : dict) (w : world) (pack : PackConfig) (p : payload)
    : Prop :=
  exists f w1,
    registry_get FETCHERS (source pack) = Some f /\
    same_outside w w1 /\
    fst (invoke f credentials pack w1) = Ok p.

(** [k] hundredths is the two-decimal rounding of the finite float [x]:
    [k] is an integer nearest to [100 * x], the even one in a tie. *)
Definition nearest_hundredth (x : Float.float) (k : Z) : Prop :=
  (Qabs (100 * Float.to_Q x - inject_Z k) <= 1 # 2)%Q /\
  ((Qabs (100 * Float.to_Q x - inject_Z k) == 1 # 2)%Q -> Z.even k = true).

(** A float written as a decimal literal. *)
Definition literal (s : string) : Float.float :=
  match Str.to_float s with
  | Some x => x
  | None => S754_nan
  end.

(** The request of adapter [f] for [pack] is built and answered with
    [data]. *)
Definition answered (f : fetcher) (pack : PackConfig) (credentials : dict)
    (w : world) (r : request) (data : value) : Prop :=
  fst (adapter_request f pack credentials w) = Ok r /\ answers w r data.

(** ** Sample data *)

(** A fresh world whose servers answer as [reply] says; no environment
    variable is set. *)
Definition sample_world (reply : request -> http_reply) : world :=
  {| w_env := fun _ => None;
     w_http := reply;
     w_clock := fun n => 1700000000 + Z.of_nat n;
     w_ticks := 0; w_sent := []; w_log := []; w_written := [] |}.

(** Servers that answer every request with status 200 and [data]. *)
Definition always (data : value) : request -> http_reply :=
  fun _ => Reply 200 (Some data).

Definition sample_pack (src : string) (size : Z) : PackConfig :=
  {| retailer := "Retailer"; suburb := "Suburb"; pack_size := size;
     url := "https://example.com/pack"; source := src;
     product_id := Some "123"; store_id := None; headers := None; extra := None |}.

(** [{key: {field: v}}] *)
Definition nested (key field : string) (v : value) : value :=
  VDict [(key, VDict [(field, v)])].

(** The Liquorland response [{"data": {"product": {"pricing": {"current": v}}}}]. *)
Definition liquorland_data (v : value) : value :=
  VDict [("data", VDict [("product", nested "pricing" "current" v)])].

(** The Coles response [{"product": {"price": {"current": v}}}]. *)
Definition coles_data (v : value) : value :=
  VDict [("product", nested "price" "current" v)].

(** A pack for BWS that lacks its product identifier. *)
Definition pack_without_product : PackConfig :=
  {| retailer := "BWS"; suburb := ""; pack_size := 10; url := ""; source := "bws";
     product_id := None; store_id := None; headers := None; extra := None |}.

(** A world where Dan Murphy's quotes 55.99. *)
Definition quoting_world : world :=
  sample_world (always (nested "Price" "FinalPrice" (VFloat (literal "55.99")))).

(* ===================================================================== *)
(** * Further vocabulary *)
(* ===================================================================== *)

(** A path segment that, read as an integer, is not negative (or is no
    integer at all). *)
Definition nonnegative_segment (part : string) : bool :=
  match Str.to_int part with
  | Some idx => 0 <=? idx
  | None => true
  end.

(** A value that is neither a list nor a dict. *)
Definition is_leaf (v : value) : bool :=
  match v with
  | VList _ | VDict _ => false
  | _ => true
  end.

(** The headers every request starts from (line 73). *)
Definition default_headers : dict :=
  [("User-Agent", VStr USER_AGENT); ("Accept", VStr "application/json")].

(** What the pack's own headers say for a name: the value of the last
    item with that name. *)
Fixpoint custom_header (hs : list (string * string)) (key : string) : option string :=
  match hs with
  | [] => None
  | (k, v) :: hs' =>
      match custom_header hs' key with
      | Some v' => Some v'
      | None => if String.eqb k key then Some v else None
      end
  end.

(** The message of the adapter's check of the product identifier. *)
Definition product_required (f : fetcher) : string :=
  match f with
  | Fetch_dan_murphys => "product_id required for Dan Murphy's"
  | Fetch_bws => "product_id required for BWS"
  | Fetch_liquorland_like => "product_id required for Liquorland/First Choice"
  | Fetch_coles => "product_id required for Coles"
  | Fetch_woolworths => "product_id required for Woolworths"
  end.

(** A dict with distinct names that has the two default names. *)
Definition well_formed_headers (d : dict) : Prop :=
  NoDup (map fst d) /\ Dict.mem d "User-Agent" = true /\ Dict.mem d "Accept" = true.


(** How each adapter fails on a response that is JSON but not an object. *)
Definition non_object_error (f : fetcher) : exn :=
  match f with
  | Fetch_dan_murphys => ValueError "Unable to locate price data for Dan Murphy's response"
  | Fetch_bws => AttributeError
  | Fetch_liquorland_like => ValueError "Liquorland API missing product node"
  | Fetch_coles => ValueError "Coles response missing price"
  | Fetch_woolworths => ValueError "Woolworths response missing price"
  end.

(** A value that is not a dict. *)
Definition is_dict (v : value) : bool :=
  match v with
  | VDict _ => true
  | _ => false
  end.

(** [picked packs es]: the records [es] are built from some of the packs,
    each pack giving at most one record, in the order of the packs. *)
Inductive picked : list PackConfig -> list entry -> Prop :=
| picked_nil : picked [] []
| picked_skip (pack : PackConfig) (packs : list PackConfig) (es : list entry) :
    picked packs es -> picked (pack :: packs) es
| picked_take (pack : PackConfig) (p : payload) (packs : list PackConfig)
      (es : list entry) :
    picked packs es -> picked (pack :: packs) (entry_of pack p :: es).

(** A source key that has an adapter. *)
Definition registered (key : string) : bool :=
  match registry_get FETCHERS key with
  | Some _ => true
  | None => false
  end.

(** The three lines the loop logs. *)
Definition log_skipping (pack : PackConfig) : log_record :=
  {| log_lvl := WARNING; log_fmt := "No fetcher for %s; skipping";
     log_args := [ArgStr (source pack)] |}.

Definition log_fetching (pack : PackConfig) : log_record :=
  {| log_lvl := INFO; log_fmt := "Fetching %s %sx";
     log_args := [ArgStr (retailer pack); ArgInt (pack_size pack)] |}.

Definition log_failed (pack : PackConfig) (e : exn) : log_record :=
  {| log_lvl := ERROR; log_fmt := "Failed to fetch %s %sx: %s";
     log_args := [ArgStr (retailer pack); ArgInt (pack_size pack); ArgExn e] |}.

(* ===================================================================== *)
(** * The configuration (lines 44-56 and 284-287) *)
(* ===================================================================== *)

(** [int(x)] for a float: the integer part, rounded toward zero. *)
Definition float_to_int (x : Float.float) : outcome Z :=
  match x with
  | S754_zero _ => Ok 0
  | S754_finite s m e =>
      let magnitude := match e with
                       | Zneg p => Zpos m / Zpos (2 ^ p)
                       | _ => Zpos m * 2 ^ e
                       end in
      Ok (if s then - magnitude else magnitude)
  | S754_nan => Raise (ValueError "cannot convert float NaN to integer")
  | S754_infinity _ => Raise OverflowError
  end.

(** [int(v)].  A string of digits longer than the limit is refused with
    a message of its own. *)
Definition py_int (v : value) : outcome Z :=
  match v with
  | VInt z => Ok z
  | VBool b => Ok (if b then 1 else 0)
  | VFloat x => float_to_int x
  | VStr s =>
      match Str.to_int s with
      | Some z => Ok z
      | None =>
          if Str.over_limit (Str.ascii_form s)
          then Raise (ValueError "Exceeds the limit (4300 digits) for integer string conversion")
          else Raise (ValueError "invalid literal for int() with base 10")
      end
  | VNone | VList _ | VDict _ => Raise TypeError
  end.

(** The failures of loading: a [KeyError] of a subscript [raw[key]], or
    one of the exceptions above. *)
Inductive load_error : Type :=
| KeyError (key : string)
| Raised (e : exn).

Inductive loaded (A : Type) : Type :=
| Loaded (a : A)
| Failed (e : load_error).
Arguments Loaded {A} a.
Arguments Failed {A} e.

(** A [PackConfig] as [from_dict] builds it.  Python checks no
    annotation: apart from [pack_size], which [int()] has made an
    integer, a field holds whatever the configuration holds. *)
Record RawPackConfig : Type := {
  raw_retailer : value;
  raw_suburb : value;
  raw_pack_size : Z;
  raw_url : value;
  raw_source : value;
  raw_product_id : value;
  raw_store_id : value;
  raw_headers : value;
  raw_extra : value
}.

(** [d.get(key, default)]. *)
Definition get_default (d : dict) (key : string) (default : value) : value :=
  if Dict.mem d key then Dict.get d key else default.

(** [PackConfig.from_dict(raw)], lines 44-56.  The keyword arguments are
    evaluated in their order; on a dict only the two subscripts and
    [int()] can fail.  Subscripting anything but a dict with a string is
    a [TypeError]. *)
Definition from_dict (raw : value) : loaded RawPackConfig :=
  match raw with
  | VDict d =>
      if negb (Dict.mem d "retailer") then Failed (KeyError "retailer")
      else if negb (Dict.mem d "pack_size") then Failed (KeyError "pack_size")
      else match py_int (Dict.get d "pack_size") with
           | Raise e => Failed (Raised e)
           | Ok n =>
               Loaded {| raw_retailer := Dict.get d "retailer";
                         raw_suburb := get_default d "suburb" (VStr "");
                         raw_pack_size := n;
                         raw_url := get_default d "url" (VStr "");
                         raw_source := get_default d "source" (VStr "custom");
                         raw_product_id := Dict.get d "product_id";
                         raw_store_id := Dict.get d "store_id";
                         raw_headers := Dict.get d "headers";
                         raw_extra := Dict.get d "extra" |}
           end
  | _ => Failed (Raised TypeError)
  end.

(** [from_dict] on each element in turn, up to the first failure. *)
Fixpoint load_all (raws : list value) : loaded (list RawPackConfig) :=
  match raws with
  | [] => Loaded []
  | raw :: rest =>
      match from_dict raw with
      | Failed e => Failed e
      | Loaded r =>
          match load_all rest with
          | Failed e => Failed e
          | Loaded rs => Loaded (r :: rs)
          end
      end
  end.

(** [list(load_pack_configs(config))], lines 284-287 as line 316 uses
    them.  The loop runs over whatever is under ["packs"]: the elements of
    a list, the keys of a dict, the characters of a string; anything else
    cannot be iterated. *)
Definition load_pack_configs (config : dict) : loaded (list RawPackConfig) :=
  match get_default config "packs" (VList []) with
  | VList raws => load_all raws
  | VDict d => load_all (map (fun kv => VStr (fst kv)) d)
  | VStr s => load_all (map (fun c => VStr (String c EmptyString)) (list_ascii_of_string s))
  | VNone | VBool _ | VInt _ | VFloat _ => Failed (Raised TypeError)
  end.

(** ** From the built pack to the annotated one *)

Definition as_str (v : value) : option string :=
  match v with
  | VStr s => Some s
  | _ => None
  end.

Definition as_optional_str (v : value) : option (option string) :=
  match v with
  | VNone => Some None
  | VStr s => Some (Some s)
  | _ => None
  end.

Fixpoint as_str_items (d : dict) : option (list (string * string)) :=
  match d with
  | [] => Some []
  | (k, v) :: d' =>
      match as_str v, as_str_items d' with
      | Some s, Some rest => Some ((k, s) :: rest)
      | _, _ => None
      end
  end.

Definition as_optional_headers (v : value) : option (option (list (string * string))) :=
  match v with
  | VNone => Some None
  | VDict d => option_map Some (as_str_items d)
  | _ => None
  end.

Definition as_optional_dict (v : value) : option (option dict) :=
  match v with
  | VNone => Some None
  | VDict d => Some (Some d)
  | _ => None
  end.

(** The pack with the types its annotations promise, when the fields
    have them. *)
Definition annotated (r : RawPackConfig) : option PackConfig :=
  match as_str (raw_retailer r), as_str (raw_suburb r), as_str (raw_url r),
        as_str (raw_source r), as_optional_str (raw_product_id r),
        as_optional_str (raw_store_id r), as_optional_headers (raw_headers r),
        as_optional_dict (raw_extra r) with
  | Some rt, Some sb, Some u, Some src, Some pid, Some sid, Some hs, Some ex =>
      Some {| retailer := rt; suburb := sb; pack_size := raw_pack_size r; url := u;
              source := src; product_id := pid; store_id := sid; headers := hs;
              extra := ex |}
  | _, _, _, _, _, _, _, _ => None
  end.

(* ********************************************************************* *)
(** * Properties *)
(* ********************************************************************* *)

(* ===================================================================== *)
(** ** The path extractor *)
(* ===================================================================== *)

Section PathExtractor.

(** The examples of the specification. *)
Example extract_nested :
  extract_path (VDict [("a", VList [VDict [("b", VInt 5)]])]) (Some "a.0.b") = Ok (VInt 5).
Proof. reflexivity. Qed.

Example extract_through_scalar :
  extract_path (VDict [("a", VInt 1)]) (Some "a.b") = Ok VNone.
Proof. reflexivity. Qed.

Example extract_from_none : extract_path VNone (Some "a") = Ok VNone.
Proof. reflexivity. Qed.

Lemma list_index_in_range (l : list value) (idx : Z) :
  0 <= idx < Z.of_nat (length l) -> exists v, list_index l idx = Ok v.
Proof.
  intros [Hlo Hhi]. unfold list_index. cbv zeta.
  destruct (Z.ltb_spec idx 0); [lia|]. cbv iota.
  destruct (Z.ltb_spec idx 0); [lia|].
  destruct (Z.leb_spec (Z.of_nat (length l)) idx); [lia|]. simpl.
  destruct (nth_error l (Z.to_nat idx)) eqn:Hnth; [eauto|].
  apply nth_error_None in Hnth. lia.
Qed.

(** The only exception [l[idx]] knows is [IndexError]. *)
Lemma list_index_raises (l : list value) (idx : Z) (e : exn) :
  list_index l idx = Raise e -> e = IndexError.
Proof.
  unfold list_index.
  destruct (_ || _); [congruence|].
  destruct (nth_error _ _); congruence.
Qed.

(** An index below [-len] is the one way to make [l[idx]] fail once
    [idx < len] is known. *)
Lemma list_index_below (l : list value) (idx : Z) :
  idx < Z.of_nat (length l) ->
  (list_index l idx = Raise IndexError <-> idx < - Z.of_nat (length l)).
Proof.
  intros Hhi. unfold list_index. cbv zeta.
  destruct (Z.ltb_spec idx 0) as [Hneg | Hpos]; cbv iota.
  - destruct (Z.ltb_spec (idx + Z.of_nat (length l)) 0) as [Hlow | Hlow]; simpl.
    + split; [lia | reflexivity].
    + destruct (Z.leb_spec (Z.of_nat (length l)) (idx + Z.of_nat (length l)));
        [lia|].
      destruct (nth_error l (Z.to_nat (idx + Z.of_nat (length l)))) eqn:Hnth.
      * split; [discriminate | lia].
      * apply nth_error_None in Hnth. lia.
  - destruct (Z.ltb_spec idx 0); [lia|].
    destruct (Z.leb_spec (Z.of_nat (length l)) idx); [lia|]. simpl.
    destruct (nth_error l (Z.to_nat idx)) eqn:Hnth.
    + split; [discriminate | lia].
    + apply nth_error_None in Hnth. lia.
Qed.

(** Whatever the data and the path, the walk either returns or raises
    [IndexError]; no other exception escapes. *)
Lemma walk_raises (parts : list string) :
  forall (current : value) (e : exn), walk current parts = Raise e -> e = IndexError.
Proof.
  induction parts as [|part rest IH]; intros current e; simpl.
  - discriminate.
  - destruct current as [| | | | | l | d]; try discriminate.
    + destruct (Str.to_int part) as [idx|]; [|discriminate].
      destruct (_ <=? idx); [discriminate|].
      destruct (list_index l idx) as [v|e'] eqn:Hidx; simpl.
      * apply IH.
      * intros [= <-]. eapply list_index_raises; eauto.
    + apply IH.
Qed.

Lemma extract_path_raises (data : value) (p : option string) (e : exn) :
  extract_path data p = Raise e -> e = IndexError.
Proof.
  destruct p as [[|c s]|]; simpl; try discriminate.
  apply walk_raises.
Qed.

(** On a list, a segment that is no integer, or an integer from [len]
    on, gives absent. *)
Lemma walk_list_absent (l : list value) (part : string) (rest : list string) :
  (Str.to_int part = None \/
   exists idx, Str.to_int part = Some idx /\ Z.of_nat (length l) <= idx) ->
  walk (VList l) (part :: rest) = Ok VNone.
Proof.
  intros [Hnone | [idx [Hidx Hge]]]; simpl.
  - rewrite Hnone. reflexivity.
  - rewrite Hidx. apply Z.leb_le in Hge. rewrite Hge. reflexivity.
Qed.

(** A path none of whose segments reads as a negative integer is walked
    without an exception, on any data. *)
Lemma walk_total (parts : list string) :
  Forall (fun part => forall idx, Str.to_int part = Some idx -> 0 <= idx) parts ->
  forall current, exists v, walk current parts = Ok v.
Proof.
  induction 1 as [|part rest Hpart _ IH]; intros current; simpl.
  - eauto.
  - destruct current as [| | | | | l | d]; eauto.
    destruct (Str.to_int part) as [idx|] eqn:Hidx; [|eauto].
    destruct (Z.of_nat (length l) <=? idx) eqn:Hge; [eauto|].
    apply Z.leb_gt in Hge. specialize (Hpart idx eq_refl).
    destruct (list_index_in_range l idx) as [v Hv]; [lia|].
    rewrite Hv. simpl. apply IH.
Qed.

End PathExtractor.

(** C3 (code defect).  The claim: the path extractor never raises, absence
    is its only failure signal.  The code checks [idx >= len(current)] but
    not [idx < -len(current)], so a negative index below the start of a
    list reaches [current[idx]] and raises: on the empty list and the path
    ["-1"] the extractor raises [IndexError]. *)
Theorem extract_path_negative_index_raises :
  extract_path (VList []) (Some "-1") = Raise IndexError.
Proof. reflexivity. Qed.

(** C4 (code defect).  The claim: on a sequence, a segment that is not a
    non-negative integer index within bounds gives absent.  The segment
    ["-1"] reads as the integer -1, which is no non-negative index, and
    the extractor returns the last element of the list instead of absent. *)
Theorem extract_path_negative_index_counts_from_end :
  Str.to_int "-1" = Some (-1) /\
  extract_path (VList [VInt 5]) (Some "-1") = Ok (VInt 5).
Proof. split; reflexivity. Qed.

(* ===================================================================== *)
(** ** Running computations *)
(* ===================================================================== *)

Section Running.

Context {A B : Type}.

Lemma bind_ok (c : M A) (k : A -> M B) (w w' : world) (a : A) :
  c w = (Ok a, w') -> bind c k w = k a w'.
Proof. intros H. unfold bind. rewrite H. reflexivity. Qed.

Lemma bind_raise (c : M A) (k : A -> M B) (w w' : world) (e : exn) :
  c w = (Raise e, w') -> bind c k w = (Raise e, w').
Proof. intros H. unfold bind. rewrite H. reflexivity. Qed.

Lemma bind_lift_ok (a : A) (k : A -> M B) (w : world) :
  bind (lift (Ok a)) k w = k a w.
Proof. reflexivity. Qed.

Lemma bind_lift_raise (e : exn) (k : A -> M B) (w : world) :
  bind (lift (Raise e)) k w = (Raise e, w).
Proof. reflexivity. Qed.

End Running.

Lemma same_outside_refl (w : world) : same_outside w w.
Proof. repeat split. Qed.

Lemma same_outside_trans (w1 w2 w3 : world) :
  same_outside w1 w2 -> same_outside w2 w3 -> same_outside w1 w3.
Proof.
  intros (E1 & H1 & C1) (E2 & H2 & C2).
  repeat split; congruence.
Qed.

Lemma same_outside_answers (w w' : world) (r : request) (data : value) :
  same_outside w w' -> answers w r data -> answers w' r data.
Proof.
  intros (_ & Hhttp & _) (st & Hr & Hst). exists st. rewrite Hhttp. auto.
Qed.

(** *** Quiet computations

    Everything a run does before [write_prices] leaves the environment,
    the servers, the clock and the data file as they were. *)

Section Quiet.

Context {A B : Type}.

Lemma quiet_ret (a : A) : quiet (ret a).
Proof. intros w. split; [apply same_outside_refl | reflexivity]. Qed.

Lemma quiet_raise (e : exn) : quiet (@raise A e).
Proof. intros w. split; [apply same_outside_refl | reflexivity]. Qed.

Lemma quiet_lift (c : outcome A) : quiet (lift c).
Proof. intros w. split; [apply same_outside_refl | reflexivity]. Qed.

Lemma quiet_bind (c : M A) (k : A -> M B) :
  quiet c -> (forall a, quiet (k a)) -> quiet (bind c k).
Proof.
  intros Hc Hk w. unfold bind.
  destruct (Hc w) as [Ho Hw].
  destruct (c w) as [[a|e] w1]; simpl in *.
  - destruct (Hk a w1) as [Ho' Hw'].
    split; [eapply same_outside_trans; eauto | congruence].
  - auto.
Qed.

Lemma quiet_try_except (c : M A) (h : exn -> M A) :
  quiet c -> (forall e, quiet (h e)) -> quiet (try_except c h).
Proof.
  intros Hc Hh w. unfold try_except.
  destruct (Hc w) as [Ho Hw].
  destruct (c w) as [[a|e] w1]; simpl in *.
  - auto.
  - destruct (Hh e w1) as [Ho' Hw'].
    split; [eapply same_outside_trans; eauto | congruence].
Qed.

End Quiet.

Lemma quiet_time_now : quiet time_now.
Proof. intros w. repeat split. Qed.

Lemma quiet_getenv (name : string) : quiet (getenv name).
Proof. intros w. repeat split. Qed.

Lemma quiet_send (r : request) : quiet (send r).
Proof. intros w. unfold send. destruct (w_http w r); repeat split. Qed.

Lemma quiet_log (lvl : log_level) (fmt : string) (args : list log_arg) :
  quiet (log lvl fmt args).
Proof. intros w. repeat split. Qed.

Create HintDb quiet.
#[local] Hint Resolve quiet_ret quiet_raise quiet_lift quiet_time_now quiet_getenv
  quiet_send quiet_log : quiet.

(** Takes a computation apart along its binds and case distinctions. *)
Ltac quiet_steps :=
  repeat first
    [ progress auto with quiet
    | apply quiet_bind; [|intros]
    | apply quiet_try_except; [|intros]
    | match goal with
      | |- quiet (if ?b then _ else _) => destruct b
      | |- quiet (match ?x with _ => _ end) => destruct x
      end ].

Lemma quiet_fetch_json (r : request) : quiet (fetch_json r).
Proof. unfold fetch_json. quiet_steps. Qed.

Lemma quiet_price_payload (msg : string) (pack : PackConfig) (total unit : value) :
  quiet (price_payload msg pack total unit).
Proof. unfold price_payload. quiet_steps. Qed.

Lemma quiet_coles_request (pack : PackConfig) (credentials : dict) :
  quiet (coles_request pack credentials).
Proof. unfold coles_request, coles_api_key. quiet_steps. Qed.

#[local] Hint Resolve quiet_fetch_json quiet_price_payload quiet_coles_request : quiet.

Lemma quiet_call_fetcher (f : fetcher) (pack : PackConfig) (c : option dict) :
  quiet (call_fetcher f pack c).
Proof.
  destruct f, c; simpl; auto with quiet;
    unfold fetch_dan_murphys, fetch_bws, fetch_liquorland_like, fetch_coles,
      fetch_woolworths; quiet_steps.
Qed.

#[local] Hint Resolve quiet_call_fetcher : quiet.

Lemma quiet_build_entry (pack : PackConfig) (p : payload) : quiet (build_entry pack p).
Proof. unfold build_entry. quiet_steps. Qed.

#[local] Hint Resolve quiet_build_entry : quiet.

Lemma quiet_process_pack (credentials : dict) (entries : list entry) (pack : PackConfig) :
  quiet (process_pack credentials entries pack).
Proof. unfold process_pack, invoke. quiet_steps. Qed.

Lemma quiet_pack_loop (credentials : dict) (packs : list PackConfig) :
  forall entries, quiet (pack_loop credentials entries packs).
Proof.
  induction packs as [|pack rest IH]; intros entries; simpl.
  - auto with quiet.
  - apply quiet_bind; [apply quiet_process_pack | auto].
Qed.

(* ===================================================================== *)
(** ** The adapters *)
(* ===================================================================== *)

(** Every adapter is the same four steps. *)
Lemma fetch_steps (f : fetcher) (pack : PackConfig) (credentials : dict) :
  fetch f pack credentials =
  (r <- adapter_request f pack credentials ;;
   data <- fetch_json r ;;
   prices <- lift (adapter_prices f data) ;;
   price_payload (missing_price f) pack (fst prices) (snd prices)).
Proof. destruct f; reflexivity. Qed.

(** The registry calls the adapters as [fetch] does. *)
Lemma call_fetcher_fetch (f : fetcher) (pack : PackConfig) (credentials : dict) :
  call_fetcher f pack (match f with Fetch_coles => Some credentials | _ => None end)
  = fetch f pack credentials.
Proof. destruct f; reflexivity. Qed.

(** Building the request changes nothing in the world. *)
Lemma adapter_request_world (f : fetcher) (pack : PackConfig) (credentials : dict)
    (w : world) :
  snd (adapter_request f pack credentials w) = w.
Proof.
  destruct f; try reflexivity.
  simpl. unfold coles_request, coles_api_key, bind, getenv, ret, raise.
  destruct (truthy (Dict.get credentials "coles_api_key")); simpl.
  - destruct (truthy (Dict.get credentials "coles_api_key")); simpl;
      [destruct (nonempty (product_id pack))|]; reflexivity.
  - destruct (truthy _); simpl; [destruct (nonempty (product_id pack))|]; reflexivity.
Qed.

Lemma fetch_json_answers (w : world) (r : request) (data : value) :
  answers w r data -> fetch_json r w = (Ok data, add_sent r w).
Proof.
  intros (st & Hr & Hst). unfold fetch_json, bind, send. rewrite Hr.
  unfold lift, raise_for_status. simpl.
  destruct (Z.leb_spec 400 st); destruct (Z.ltb_spec st 600); simpl;
    try reflexivity; lia.
Qed.

(** An adapter whose request is answered goes on to the closing
    statements with the prices it finds. *)
Lemma fetch_answered (f : fetcher) (pack : PackConfig) (credentials : dict)
    (w : world) (r : request) (data : value) (total unit : value) :
  fst (adapter_request f pack credentials w) = Ok r ->
  answers w r data ->
  adapter_prices f data = Ok (total, unit) ->
  fetch f pack credentials w =
  price_payload (missing_price f) pack total unit (add_sent r w).
Proof.
  intros Hreq Hans Hprices. rewrite fetch_steps.
  pose proof (adapter_request_world f pack credentials w) as Hw.
  destruct (adapter_request f pack credentials w) as [o w1] eqn:Hrun.
  simpl in Hreq, Hw. subst o w1.
  erewrite bind_ok by exact Hrun.
  erewrite bind_ok by (apply fetch_json_answers; exact Hans).
  rewrite Hprices. reflexivity.
Qed.

(** The same when the price lookup fails. *)
Lemma fetch_answered_raise (f : fetcher) (pack : PackConfig) (credentials : dict)
    (w : world) (r : request) (data : value) (e : exn) :
  fst (adapter_request f pack credentials w) = Ok r ->
  answers w r data ->
  adapter_prices f data = Raise e ->
  fetch f pack credentials w = (Raise e, add_sent r w).
Proof.
  intros Hreq Hans Hprices. rewrite fetch_steps.
  pose proof (adapter_request_world f pack credentials w) as Hw.
  destruct (adapter_request f pack credentials w) as [o w1] eqn:Hrun.
  simpl in Hreq, Hw. subst o w1.
  erewrite bind_ok by exact Hrun.
  erewrite bind_ok by (apply fetch_json_answers; exact Hans).
  rewrite Hprices. reflexivity.
Qed.

(** *** Integers as floats *)

Lemma digits2_pos_lower (m : positive) : 2 ^ (Zpos (digits2_pos m) - 1) <= Zpos m.
Proof.
  induction m as [m IH | m IH |]; cbn [digits2_pos].
  - rewrite Pos2Z.inj_succ.
    replace (Z.succ (Zpos (digits2_pos m)) - 1) with (Z.succ (Zpos (digits2_pos m) - 1)) by lia.
    rewrite Z.pow_succ_r by lia. lia.
  - rewrite Pos2Z.inj_succ.
    replace (Z.succ (Zpos (digits2_pos m)) - 1) with (Z.succ (Zpos (digits2_pos m) - 1)) by lia.
    rewrite Z.pow_succ_r by lia. lia.
  - simpl. lia.
Qed.

Lemma digits2_pos_upper (m : positive) : Zpos m < 2 ^ Zpos (digits2_pos m).
Proof.
  induction m as [m IH | m IH |]; cbn [digits2_pos].
  - rewrite Pos2Z.inj_succ, Z.pow_succ_r by lia. lia.
  - rewrite Pos2Z.inj_succ, Z.pow_succ_r by lia. lia.
  - simpl. lia.
Qed.

(** A number below [2 ^ k] has at most [k] binary digits. *)
Lemma digits2_pos_below (m : positive) (k : Z) :
  Zpos m < 2 ^ k -> Zpos (digits2_pos m) <= k.
Proof.
  intros Hm. pose proof (digits2_pos_lower m) as Hlow.
  destruct (Z.le_gt_cases (Zpos (digits2_pos m)) k) as [H | H]; [exact H|].
  assert (2 ^ k <= 2 ^ (Zpos (digits2_pos m) - 1)); [|lia].
  destruct (Z.le_gt_cases 0 k).
  - apply Z.pow_le_mono_r; lia.
  - rewrite (Z.pow_neg_r 2 k) by lia. apply Z.pow_nonneg. lia.
Qed.

Lemma digits2_pos_iter_xO (m k : positive) :
  Zpos (digits2_pos (Pos.iter xO m k)) = Zpos (digits2_pos m) + Zpos k.
Proof.
  apply (Pos.iter_ind positive xO m
           (fun k r => Zpos (digits2_pos r) = Zpos (digits2_pos m) + Zpos k)).
  - cbn [digits2_pos]. lia.
  - intros p r IH. cbn [digits2_pos]. lia.
Qed.

Lemma shr_m_shr_1 (mrs : shr_record) :
  0 <= shr_m mrs -> shr_m (shr_1 mrs) = shr_m mrs / 2.
Proof.
  destruct mrs as [m r s]. cbn [shr_m]. intros Hm.
  rewrite <- Z.div2_div.
  destruct m as [|p|p]; [reflexivity | destruct p; reflexivity | lia].
Qed.

Lemma shr_m_iter (p : positive) :
  forall mrs, 0 <= shr_m mrs -> shr_m (iter_pos shr_1 p mrs) = shr_m mrs / 2 ^ Zpos p.
Proof.
  induction p as [p IH | p IH |]; intros mrs Hm; cbn [iter_pos].
  - assert (H1 : 0 <= shr_m (shr_1 mrs)).
    { rewrite shr_m_shr_1 by exact Hm. apply Z.div_pos; lia. }
    assert (H2 : 0 <= shr_m (iter_pos shr_1 p (shr_1 mrs))).
    { rewrite IH by exact H1. apply Z.div_pos; [exact H1 | lia]. }
    rewrite IH by exact H2. rewrite IH by exact H1. rewrite shr_m_shr_1 by exact Hm.
    assert (E : 2 ^ Zpos p~1 = 2 * 2 ^ Zpos p * 2 ^ Zpos p).
    { replace (Zpos p~1) with (1 + Zpos p + Zpos p) by lia.
      rewrite !Z.pow_add_r by lia. reflexivity. }
    pose proof (Z.pow_pos_nonneg 2 (Zpos p) ltac:(lia) ltac:(lia)) as Hpow.
    rewrite !Z.div_div by lia. rewrite E. f_equal; ring.
  - assert (H2 : 0 <= shr_m (iter_pos shr_1 p mrs)).
    { rewrite IH by exact Hm. apply Z.div_pos; [exact Hm | lia]. }
    rewrite IH by exact H2. rewrite IH by exact Hm.
    assert (E : 2 ^ Zpos p~0 = 2 ^ Zpos p * 2 ^ Zpos p).
    { replace (Zpos p~0) with (Zpos p + Zpos p) by lia.
      rewrite Z.pow_add_r by lia. reflexivity. }
    pose proof (Z.pow_pos_nonneg 2 (Zpos p) ltac:(lia) ltac:(lia)) as Hpow.
    rewrite !Z.div_div by lia. rewrite E. f_equal; ring.
  - rewrite shr_m_shr_1 by exact Hm. reflexivity.
Qed.

(** Shifting a positive mantissa to its place: what is left is positive
    and below [2 ^ 53], and the exponent grows by the digits shifted out. *)
Lemma shr_fexp_bounds (m : positive) (e : Z) (l : location) :
  -1074 <= e ->
  0 < shr_m (fst (shr_fexp 53 1024 (Zpos m) e l)) < 2 ^ 53 /\
  snd (shr_fexp 53 1024 (Zpos m) e l)
  = Z.max e (Zpos (digits2_pos m) + e - 53).
Proof.
  intros He. unfold shr_fexp, shr, fexp, emin. cbn [Zdigits2].
  assert (Hm : shr_m (shr_record_of_loc (Zpos m) l) = Zpos m).
  { destruct l as [|[| |]]; reflexivity. }
  pose proof (digits2_pos_lower m) as Hlow.
  pose proof (digits2_pos_upper m) as Hup.
  destruct (Z.max (Zpos (digits2_pos m) + e - 53) (3 - 1024 - 53) - e) as [|n|n] eqn:Hn;
    cbn [fst snd].
  - rewrite Hm. split; [|lia]. split; [lia|].
    eapply Z.lt_le_trans; [exact Hup|]. apply Z.pow_le_mono_r; lia.
  - rewrite shr_m_iter by (rewrite Hm; lia). rewrite Hm.
    assert (En : Zpos n = Zpos (digits2_pos m) - 53) by lia.
    split; [|lia]. split.
    + apply Z.div_str_pos. split; [apply Z.pow_pos_nonneg; lia|].
      eapply Z.le_trans; [|exact Hlow].
      apply Z.pow_le_mono_r; lia.
    + apply Z.div_lt_upper_bound; [apply Z.pow_pos_nonneg; lia|].
      rewrite <- Z.pow_add_r by lia.
      replace (Zpos n + 53) with (Zpos (digits2_pos m)) by lia. exact Hup.
  - rewrite Hm. split; [|lia]. split; [lia|].
    eapply Z.lt_le_trans; [exact Hup|]. apply Z.pow_le_mono_r; lia.
Qed.

Lemma round_nearest_even_bounds (m : Z) (l : location) :
  m <= round_nearest_even m l <= m + 1.
Proof.
  destruct l as [|[| |]]; cbn [round_nearest_even]; try lia.
  destruct (Z.even m); lia.
Qed.

(** Rounding a positive mantissa never gives zero, and gives a finite
    number when the exponent has room. *)
Lemma binary_round_aux_finite (s : bool) (m : positive) (e : Z) (l : location) :
  -1074 <= e ->
  exists m' e',
    e' <= Z.max e (Zpos (digits2_pos m) + e - 53) + 1 /\
    binary_round_aux 53 1024 s (Zpos m) e l
    = if e' <=? 1024 - 53 then S754_finite s m' e' else S754_infinity s.
Proof.
  intros He. unfold binary_round_aux.
  destruct (shr_fexp_bounds m e l He) as [H1 H1e].
  destruct (shr_fexp 53 1024 (Zpos m) e l) as [mrs1 e1]. cbn [fst snd] in H1, H1e.
  pose proof (round_nearest_even_bounds (shr_m mrs1) (loc_of_shr_record mrs1)) as Hr.
  destruct (round_nearest_even (shr_m mrs1) (loc_of_shr_record mrs1)) as [|m1|m1]; try lia.
  destruct (shr_fexp_bounds m1 e1 loc_Exact ltac:(lia)) as [H2 H2e].
  destruct (shr_fexp 53 1024 (Zpos m1) e1 loc_Exact) as [mrs2 e2].
  cbn [fst snd] in H2, H2e.
  destruct (shr_m mrs2) as [|m2|m2]; try lia.
  exists m2, e2. split; [|reflexivity].
  assert (Zpos (digits2_pos m1) <= 54); [|lia].
  apply digits2_pos_below. change (2 ^ 54) with (2 ^ 53 * 2). lia.
Qed.

Lemma binary_round_finite (s : bool) (m : positive) :
  exists m' e',
    e' <= Z.max 0 (Zpos (digits2_pos m) - 53) + 1 /\
    binary_round 53 1024 s m 0
    = if e' <=? 1024 - 53 then S754_finite s m' e' else S754_infinity s.
Proof.
  unfold binary_round, shl_align, fexp, emin.
  destruct (Z.max (Zpos (digits2_pos m) + 0 - 53) (3 - 1024 - 53) - 0) as [|k|k] eqn:Hd.
  - destruct (binary_round_aux_finite s m 0 loc_Exact ltac:(lia)) as (m' & e' & He' & ->).
    exists m', e'. split; [lia | reflexivity].
  - destruct (binary_round_aux_finite s m 0 loc_Exact ltac:(lia)) as (m' & e' & He' & ->).
    exists m', e'. split; [lia | reflexivity].
  - destruct (binary_round_aux_finite s (Pos.iter xO m k)
                (Z.max (Zpos (digits2_pos m) + 0 - 53) (3 - 1024 - 53)) loc_Exact ltac:(lia))
      as (m' & e' & He' & ->).
    exists m', e'. split; [|reflexivity].
    rewrite digits2_pos_iter_xO in He'. lia.
Qed.

(** No integer other than zero becomes the float zero. *)
Lemma of_Z_nonzero (z : Z) : z <> 0 -> Float.is_zero (Float.of_Z z) = false.
Proof.
  intros Hz. unfold Float.of_Z, Float.prec, Float.emax, binary_normalize.
  destruct z as [|m|m]; [congruence | |].
  - destruct (binary_round_finite false m) as (m' & e' & _ & ->).
    destruct (e' <=? _); reflexivity.
  - destruct (binary_round_finite true m) as (m' & e' & _ & ->).
    destruct (e' <=? _); reflexivity.
Qed.

(** An integer below [2 ^ 1023] in magnitude has a float. *)
Lemma float_of_int_below (z : Z) :
  Z.abs z < 2 ^ 1023 -> float_of_int z = Ok (Float.of_Z z).
Proof.
  intros Hz. unfold float_of_int, Float.of_Z, Float.prec, Float.emax, binary_normalize.
  assert (H : forall s m, Zpos m < 2 ^ 1023 ->
                match binary_round 53 1024 s m 0 with
                | S754_infinity _ => False
                | _ => True
                end).
  { intros s m Hm. destruct (binary_round_finite s m) as (m' & e' & He' & ->).
    pose proof (digits2_pos_below m 1023 Hm).
    replace (e' <=? 1024 - 53) with true; [exact I|].
    symmetry. apply Z.leb_le. lia. }
  destruct z as [|m|m]; [reflexivity | |].
  - specialize (H false m ltac:(lia)).
    destruct (binary_round 53 1024 false m 0); try reflexivity. contradiction.
  - specialize (H true m ltac:(lia)).
    destruct (binary_round 53 1024 true m 0); try reflexivity. contradiction.
Qed.

(** The quotient [x / n] for an integer other than zero: [n] is
    converted, which fails if it is too large, and divides [x]. *)
Lemma float_of_int_value (n : Z) (y : Float.float) :
  float_of_int n = Ok y -> y = Float.of_Z n.
Proof.
  unfold float_of_int. destruct (Float.of_Z n); intros H; inversion H; reflexivity.
Qed.

Lemma float_of_int_raises (n : Z) (e : exn) :
  float_of_int n = Raise e -> e = OverflowError.
Proof.
  unfold float_of_int. destruct (Float.of_Z n); intros H; inversion H; reflexivity.
Qed.

Lemma float_truediv_quotient (x y : Float.float) (n : Z) :
  n <> 0 -> float_of_int n = Ok y -> float_truediv x n = Ok (Float.div x y).
Proof.
  intros Hn Hy. unfold float_truediv. rewrite Hy. cbn [obind].
  rewrite (float_of_int_value n y Hy), (of_Z_nonzero n Hn). reflexivity.
Qed.

Lemma float_truediv_overflow (x : Float.float) (n : Z) (e : exn) :
  float_of_int n = Raise e -> float_truediv x n = Raise e.
Proof. intros Hn. unfold float_truediv. rewrite Hn. reflexivity. Qed.

(** *** The closing statements *)

Lemma py_float_not_none (v : value) (t : Float.float) :
  py_float v = Ok t -> is_none v = false.
Proof. destruct v; simpl; congruence. Qed.

(** No total price: the "missing price" error. *)
Lemma price_payload_missing (msg : string) (pack : PackConfig) (unit : value) (w : world) :
  price_payload msg pack VNone unit w = (Raise (ValueError msg), w).
Proof. reflexivity. Qed.

(** A total price, no unit price, a pack size other than zero: the unit
    price is the quotient. *)
Lemma price_payload_derived (msg : string) (pack : PackConfig) (total : value)
    (t q : Float.float) (w : world) :
  py_float total = Ok t ->
  pack_size pack <> 0 ->
  float_truediv t (pack_size pack) = Ok q ->
  price_payload msg pack total VNone w =
  (Ok {| price_total := t; price_unit := q; checked_at := w_clock w (w_ticks w) |},
   tick w).
Proof.
  intros Ht Hsize Hq. unfold price_payload.
  rewrite (py_float_not_none _ _ Ht). simpl is_none.
  apply Z.eqb_neq in Hsize. rewrite Hsize. simpl andb. cbv iota.
  rewrite Ht. simpl obind. rewrite Hq. simpl obind.
  reflexivity.
Qed.

(** The same with the pack size converted to the float [y]. *)
Lemma price_payload_quotient (msg : string) (pack : PackConfig) (total : value)
    (t y : Float.float) (w : world) :
  py_float total = Ok t ->
  pack_size pack <> 0 ->
  float_of_int (pack_size pack) = Ok y ->
  price_payload msg pack total VNone w =
  (Ok {| price_total := t; price_unit := Float.div t y;
         checked_at := w_clock w (w_ticks w) |},
   tick w).
Proof.
  intros Ht Hsize Hy.
  apply (price_payload_derived msg pack total t (Float.div t y) w Ht Hsize).
  apply float_truediv_quotient; assumption.
Qed.

(** A total price, no unit price, a pack size too large for a float: the
    division fails. *)
Lemma price_payload_overflow (msg : string) (pack : PackConfig) (total : value)
    (t : Float.float) (e : exn) (w : world) :
  py_float total = Ok t ->
  pack_size pack <> 0 ->
  float_of_int (pack_size pack) = Raise e ->
  price_payload msg pack total VNone w = (Raise e, w).
Proof.
  intros Ht Hsize He. unfold price_payload.
  rewrite (py_float_not_none _ _ Ht). simpl is_none.
  apply Z.eqb_neq in Hsize. rewrite Hsize. simpl andb. cbv iota.
  rewrite Ht. simpl obind. rewrite (float_truediv_overflow t _ e He). reflexivity.
Qed.

(** A total price, no unit price, pack size zero: [float(None)] fails. *)
Lemma price_payload_zero_pack (msg : string) (pack : PackConfig) (total : value)
    (t : Float.float) (w : world) :
  py_float total = Ok t ->
  pack_size pack = 0 ->
  price_payload msg pack total VNone w = (Raise TypeError, w).
Proof.
  intros Ht Hsize. unfold price_payload.
  rewrite (py_float_not_none _ _ Ht). simpl is_none.
  rewrite Hsize. simpl andb. cbv iota. rewrite Ht. reflexivity.
Qed.

(** A total price and a unit price that are both there are converted and
    returned as they are. *)
Lemma price_payload_explicit (msg : string) (pack : PackConfig) (total unit : value)
    (t u : Float.float) (w : world) :
  py_float total = Ok t ->
  py_float unit = Ok u ->
  price_payload msg pack total unit w =
  (Ok {| price_total := t; price_unit := u; checked_at := w_clock w (w_ticks w) |},
   tick w).
Proof.
  intros Ht Hu. unfold price_payload.
  rewrite (py_float_not_none _ _ Ht), (py_float_not_none _ _ Hu). simpl andb. cbv iota.
  rewrite bind_lift_ok, Ht, bind_lift_ok, Hu. reflexivity.
Qed.

(** C1, as claimed, fails: a pack size can be greater than 0 and too
    large for a float.  With the pack size [10 ^ 400], a total price and
    no unit price, the division [float(price_total) / pack.pack_size]
    raises [OverflowError], and the BWS adapter returns no payload. *)
Lemma huge_pack_size_overflows :
  0 < pack_size (sample_pack "bws" (10 ^ 400)) /\
  adapter_prices Fetch_bws (nested "price" "current" (VFloat (literal "55.99")))
    = Ok (VFloat (literal "55.99"), VNone) /\
  fst (fetch_bws (sample_pack "bws" (10 ^ 400))
         (sample_world (always (nested "price" "current" (VFloat (literal "55.99"))))))
    = Raise OverflowError.
Proof. split; [|split]; vm_compute; reflexivity. Qed.

(** C1, amended.  For every adapter: when its request is answered, the
    response supplies a total price ([float()] accepts it) and no unit
    price, and the pack size is positive, then
    - for a pack size below [2 ^ 1023] the adapter returns a payload whose
      total is that price and whose unit price is the total divided by the
      pack size: the binary64 quotient of [float(price_total)] by the pack
      size as a float;
    - the same holds for every pack size that has a float [y];
    - for a pack size that has none, the division raises [OverflowError],
      which is the outcome of the adapter. *)
Theorem unit_price_is_total_over_pack_size :
  forall (f : fetcher) (pack : PackConfig) (credentials : dict) (w : world)
         (r : request) (data total : value) (t : Float.float),
    answered f pack credentials w r data ->
    adapter_prices f data = Ok (total, VNone) ->
    py_float total = Ok t ->
    0 < pack_size pack ->
    (pack_size pack < 2 ^ 1023 ->
     exists (p : payload) (w' : world),
       fetch f pack credentials w = (Ok p, w') /\
       price_total p = t /\
       price_unit p = Float.div t (Float.of_Z (pack_size pack)))
    /\
    (forall y : Float.float,
        float_of_int (pack_size pack) = Ok y ->
        exists (p : payload) (w' : world),
          fetch f pack credentials w = (Ok p, w') /\
          price_total p = t /\
          price_unit p = Float.div t y)
    /\
    (float_of_int (pack_size pack) = Raise OverflowError ->
     fetch f pack credentials w = (Raise OverflowError, add_sent r w)).
Proof.
  intros f pack credentials w r data total t [Hreq Hans] Hprices Ht Hsize.
  rewrite (fetch_answered f pack credentials w r data total VNone Hreq Hans Hprices).
  assert (Hy : forall y, float_of_int (pack_size pack) = Ok y ->
                 exists p w',
                   price_payload (missing_price f) pack total VNone (add_sent r w)
                   = (Ok p, w') /\
                   price_total p = t /\ price_unit p = Float.div t y).
  { intros y Hy.
    rewrite (price_payload_quotient _ pack total t y _ Ht ltac:(lia) Hy).
    eexists _, _. repeat split. }
  split; [|split].
  - intros Hbelow. apply Hy. apply float_of_int_below. lia.
  - exact Hy.
  - intros Hover.
    apply (price_payload_overflow _ pack total t _ _ Ht ltac:(lia) Hover).
Qed.

(** What the theorem says on a response of each adapter's shape, for a
    pack of 24 at 55.99, and for a pack of [10 ^ 400]. *)
Lemma unit_price_is_total_over_pack_size_witness :
  Forall
    (fun fd : fetcher * value =>
       exists p w',
         fetch (fst fd) (sample_pack "any" 24) [("coles_api_key", VStr "key")]
               (sample_world (always (snd fd))) = (Ok p, w') /\
         price_total p = literal "55.99" /\
         price_unit p = Float.div (literal "55.99") (Float.of_Z 24))
    [(Fetch_dan_murphys, nested "Price" "FinalPrice" (VFloat (literal "55.99")));
     (Fetch_bws, nested "price" "current" (VFloat (literal "55.99")));
     (Fetch_liquorland_like, liquorland_data (VFloat (literal "55.99")));
     (Fetch_coles, coles_data (VFloat (literal "55.99")));
     (Fetch_woolworths, nested "Price" "FinalPrice" (VFloat (literal "55.99")))]
  /\
  fst (fetch Fetch_bws (sample_pack "bws" (10 ^ 400)) []
             (sample_world (always (nested "price" "current" (VFloat (literal "55.99"))))))
  = Raise OverflowError.
Proof.
  pose proof (fun f pack c w r data total t H1 H2 H3 H4 =>
                proj1 (unit_price_is_total_over_pack_size
                         f pack c w r data total t H1 H2 H3 H4)) as Below.
  pose proof (fun f pack c w r data total t H1 H2 H3 H4 =>
                proj2 (proj2 (unit_price_is_total_over_pack_size
                                f pack c w r data total t H1 H2 H3 H4))) as Over.
  split.
  - repeat apply Forall_cons; try apply Forall_nil; cbn [fst snd];
      change (Float.of_Z 24) with (Float.of_Z (pack_size (sample_pack "any" 24)));
      (eapply (Below _ (sample_pack "any" 24) _ _ _ _ (VFloat (literal "55.99"))
                 (literal "55.99"));
       [ split; [reflexivity | exists 200; split; [reflexivity | lia]]
       | reflexivity
       | reflexivity
       | simpl; lia
       | vm_compute; reflexivity ]).
  - erewrite (Over Fetch_bws (sample_pack "bws" (10 ^ 400)) [] _ _ _
                (VFloat (literal "55.99")));
      [ reflexivity
      | split; [reflexivity | exists 200; split; [reflexivity | lia]]
      | reflexivity
      | reflexivity
      | vm_compute; reflexivity
      | vm_compute; reflexivity ].
Defined.

(** C2.  With pack size 0, a total price and no unit price, the BWS
    adapter does fail, but with the [TypeError] of [float(None)], not with
    its "missing price" error: the closing statements have no branch for
    a pack size of 0, and the absent unit price reaches [float()]. *)
Lemma zero_pack_size_error_is_not_missing_price :
  adapter_prices Fetch_bws (nested "price" "current" (VFloat (literal "55.99")))
    = Ok (VFloat (literal "55.99"), VNone) /\
  pack_size (sample_pack "bws" 0) = 0 /\
  fst (fetch_bws (sample_pack "bws" 0)
         (sample_world (always (nested "price" "current" (VFloat (literal "55.99"))))))
    = Raise TypeError /\
  fst (fetch_bws (sample_pack "bws" 0)
         (sample_world (always (nested "price" "current" (VFloat (literal "55.99"))))))
    <> Raise (ValueError "BWS response missing price").
Proof.
  assert (H : fst (fetch_bws (sample_pack "bws" 0)
                     (sample_world
                        (always (nested "price" "current" (VFloat (literal "55.99"))))))
              = Raise TypeError) by reflexivity.
  repeat split; try reflexivity.
  rewrite H. discriminate.
Qed.

(** The same failure in every adapter: when the request is answered, the
    response supplies a total price and no unit price, and the pack size
    is 0, the error is the [TypeError] raised when the absent unit price is
    converted to a float; nothing but the request has happened. *)
Lemma zero_pack_size_fails_with_type_error :
  forall (f : fetcher) (pack : PackConfig) (credentials : dict) (w : world)
         (r : request) (data total : value) (t : Float.float),
    answered f pack credentials w r data ->
    adapter_prices f data = Ok (total, VNone) ->
    py_float total = Ok t ->
    pack_size pack = 0 ->
    fetch f pack credentials w = (Raise TypeError, add_sent r w).
Proof.
  intros f pack credentials w r data total t [Hreq Hans] Hprices Ht Hsize.
  rewrite (fetch_answered f pack credentials w r data total VNone Hreq Hans Hprices).
  apply (price_payload_zero_pack _ pack total t _ Ht Hsize).
Qed.

Example zero_pack_size_in_each_adapter :
  Forall
    (fun fd : fetcher * value =>
       fst (fetch (fst fd) (sample_pack "any" 0) [("coles_api_key", VStr "key")]
                  (sample_world (always (snd fd)))) = Raise TypeError)
    [(Fetch_dan_murphys, nested "Price" "FinalPrice" (VFloat (literal "55.99")));
     (Fetch_bws, nested "price" "current" (VFloat (literal "55.99")));
     (Fetch_liquorland_like, liquorland_data (VFloat (literal "55.99")));
     (Fetch_coles, coles_data (VFloat (literal "55.99")));
     (Fetch_woolworths, nested "Price" "FinalPrice" (VFloat (literal "55.99")))].
Proof. repeat apply Forall_cons; try apply Forall_nil; reflexivity. Qed.

(* ===================================================================== *)
(** ** Prices equal to zero *)
(* ===================================================================== *)

Lemma is_zero_price_falsy (v : value) : is_zero_price v = true -> truthy v = false.
Proof.
  destruct v as [| | z | x | | |]; simpl; try discriminate.
  - destruct z; simpl; congruence.
  - destruct x; simpl; congruence.
Qed.

Lemma is_zero_price_float (v : value) :
  is_zero_price v = true -> exists s, py_float v = Ok (S754_zero s).
Proof.
  destruct v as [| | z | x | | |]; simpl; try discriminate.
  - destruct z; try discriminate. exists false. reflexivity.
  - destruct x; try discriminate. eauto.
Qed.

Lemma or_else_ok (a b : value) : or_else a (Ok b) = Ok (py_or a b).
Proof. unfold or_else, py_or. destruct (truthy a); reflexivity. Qed.

Lemma py_or_falsy (a b : value) : truthy a = false -> py_or a b = b.
Proof. unfold py_or. intros ->. reflexivity. Qed.

Lemma py_or_truthy (a b : value) : truthy a = true -> py_or a b = a.
Proof. unfold py_or. intros ->. reflexivity. Qed.

Lemma dict_get_nonempty (d : dict) (key : string) : Dict.get d key <> VNone -> d <> [].
Proof. destruct d; simpl; congruence. Qed.

Lemma truthy_dict (d : dict) : d <> [] -> truthy (VDict d) = true.
Proof. destruct d; simpl; congruence. Qed.

(** The prices of Dan Murphy's when the response carries a price object
    under ["Price"]. *)
Lemma dan_murphys_prices_of_price (d pi : dict) :
  Dict.get d "Price" = VDict pi ->
  pi <> [] ->
  dan_murphys_prices (VDict d) =
  Ok (py_or (py_or (Dict.get pi "FinalPrice") (Dict.get pi "Price"))
            (Dict.get pi "SalePrice"),
      py_or (Dict.get pi "UnitPrice") (Dict.get pi "CupPrice")).
Proof.
  intros Hprice Hpi. unfold dan_murphys_prices, dan_murphys_price_info.
  rewrite Hprice. rewrite (py_or_truthy _ _ (truthy_dict pi Hpi)).
  rewrite (truthy_dict pi Hpi). cbn [negb andb obind py_get].
  rewrite or_else_ok. cbn [obind]. rewrite !or_else_ok.
  rewrite (truthy_dict pi Hpi). reflexivity.
Qed.

(** The prices of BWS when [price_info] is the dict [pi]. *)
Lemma bws_prices_of_price (d pi : dict) :
  py_or (py_or (Dict.get d "price") (Dict.get d "Price")) (VDict []) = VDict pi ->
  bws_prices (VDict d) =
  Ok (py_or (py_or (Dict.get pi "current") (Dict.get pi "ActualPrice"))
            (Dict.get d "price"),
      py_or (Dict.get pi "perItem") (Dict.get pi "CupPrice")).
Proof.
  intros Hinfo. unfold bws_prices. cbn [obind py_get].
  rewrite or_else_ok. cbn [obind]. rewrite Hinfo. cbn [obind py_get].
  rewrite or_else_ok. cbn [obind]. rewrite !or_else_ok. reflexivity.
Qed.

(** The prices of Coles in terms of its four path lookups. *)
Lemma coles_prices_of_paths (data total1 total2 unit1 unit2 : value) :
  extract_path data (Some "product.price.current") = Ok total1 ->
  extract_path data (Some "productPrice.current") = Ok total2 ->
  extract_path data (Some "product.price.unit") = Ok unit1 ->
  extract_path data (Some "productPrice.unit") = Ok unit2 ->
  coles_prices data = Ok (py_or total1 total2, py_or unit1 unit2).
Proof.
  intros H1 H2 H3 H4. unfold coles_prices.
  rewrite H1. cbn [obind]. rewrite H2, or_else_ok. cbn [obind].
  rewrite H3. cbn [obind]. rewrite H4, or_else_ok. reflexivity.
Qed.

(** The paths the adapters use have no numeric segment, so their
    extraction never raises. *)
Lemma fixed_paths_total (data : value) (p : string) :
  In p ["data.product"; "pricing.current"; "cupPrice"; "product.price.current";
        "productPrice.current"; "product.price.unit"; "productPrice.unit";
        "ProductDetail"; "Price.FinalPrice"; "Price.SalePrice"; "Price.CupPrice"] ->
  exists v, extract_path data (Some p) = Ok v.
Proof.
  simpl. intros H.
  repeat (destruct H as [<- | H];
          [apply walk_total; repeat constructor; intros idx; discriminate|]).
  contradiction.
Qed.

(** C10, as claimed, fails: the Liquorland / First Choice adapter reads
    its prices without an [or], so a total price of 0 is no absent price,
    and the adapter returns a payload priced at zero. *)
Lemma zero_total_price_is_returned :
  adapter_prices Fetch_liquorland_like (liquorland_data (VInt 0)) = Ok (VInt 0, VNone) /\
  fst (fetch_liquorland_like (sample_pack "liquorland" 24)
         (sample_world (always (liquorland_data (VInt 0)))))
  = Ok {| price_total := S754_zero false; price_unit := S754_zero false;
          checked_at := 1700000000 |}.
Proof. split; reflexivity. Qed.

(** Where else a zero is not taken for an absent price: in the last
    alternative of a chain, and in Woolworths, where the fallback to the
    flat ["Price"] field picks up the price object itself. *)
Example dan_murphys_zero_sale_price :
  fst (fetch_dan_murphys (sample_pack "dan_murphys" 24)
         (sample_world (always (nested "Price" "SalePrice" (VInt 0)))))
  = Ok {| price_total := S754_zero false; price_unit := S754_zero false;
          checked_at := 1700000000 |}.
Proof. reflexivity. Qed.

Example woolworths_zero_final_price :
  fst (fetch_woolworths (sample_pack "woolworths" 24)
         (sample_world (always (nested "Price" "FinalPrice" (VInt 0)))))
  = Raise TypeError.
Proof. reflexivity. Qed.

Example bws_zero_current_price :
  fst (fetch_bws (sample_pack "bws" 24)
         (sample_world (always (nested "price" "current" (VInt 0)))))
  = Raise TypeError.
Proof. reflexivity. Qed.

Example woolworths_zero_cup_price :
  fst (fetch_woolworths (sample_pack "woolworths" 24)
         (sample_world
            (always (VDict [("Price", VDict [("FinalPrice", VInt 48);
                                             ("CupPrice", VInt 0)])]))))
  = Ok {| price_total := Float.of_Z 48; price_unit := S754_zero false;
          checked_at := 1700000000 |}.
Proof. reflexivity. Qed.

Lemma zero_or_none_falsy (v : value) : zero_or_none v = true -> truthy v = false.
Proof.
  unfold zero_or_none. intros H. apply orb_true_iff in H. destruct H as [H | H].
  - apply is_zero_price_falsy, H.
  - destruct v; try discriminate. reflexivity.
Qed.

(** A chain [a or b or c] whose first two places hold zero or nothing
    gives what its last place holds. *)
Lemma py_or_passes_over (a b c : value) :
  zero_or_none a = true -> zero_or_none b = true -> py_or (py_or a b) c = c.
Proof.
  intros Ha Hb.
  rewrite (py_or_falsy a b (zero_or_none_falsy a Ha)).
  apply py_or_falsy, zero_or_none_falsy, Hb.
Qed.

Lemma is_zero_price_not_none (d : dict) (key : string) :
  is_zero_price (Dict.get d key) = true -> d <> [].
Proof.
  intros H. apply (dict_get_nonempty d key). intros E. rewrite E in H. discriminate.
Qed.

(** The prices of Dan Murphy's in the price object [pi], wherever lines
    112-118 have found it. *)
Lemma dan_murphys_prices_of_price_info (data : value) (pi : dict) :
  dan_murphys_price_info data = Ok (VDict pi) ->
  pi <> [] ->
  dan_murphys_prices data =
  Ok (py_or (py_or (Dict.get pi "FinalPrice") (Dict.get pi "Price"))
            (Dict.get pi "SalePrice"),
      py_or (Dict.get pi "UnitPrice") (Dict.get pi "CupPrice")).
Proof.
  intros Hinfo Hpi. unfold dan_murphys_prices.
  rewrite Hinfo. cbn [obind]. rewrite (truthy_dict pi Hpi). cbn [negb obind py_get].
  rewrite or_else_ok. cbn [obind]. rewrite !or_else_ok. reflexivity.
Qed.

(** C10, amended.  In the Dan Murphy's, BWS and Coles adapters a price
    field equal to 0 in a place of an [or] chain other than the last is
    passed over like a field that is absent.

    Total price: when each place before the last holds 0 or nothing, one
    of them 0, and the last place holds nothing, the adapter raises its
    "missing price" error
    - Dan Murphy's: ["FinalPrice"] and ["Price"], then ["SalePrice"], in
      the price object, wherever lines 112-118 find it;
    - BWS: ["current"] and ["ActualPrice"] in the price object under
      ["Price"], then the top-level ["price"];
    - Coles: [product.price.current], then [productPrice.current].

    Unit price: when the first place of its chain holds 0 and the last
    nothing, the total price found is one [float()] accepts, and the pack
    size is not 0 and has a float [y], the payload's unit price is the
    total divided by the pack size
    - Dan Murphy's: ["UnitPrice"], then ["CupPrice"];
    - BWS: ["perItem"], then ["CupPrice"];
    - Coles: [product.price.unit], then [productPrice.unit]. *)
Theorem zero_price_passed_over_by_or :
  forall (pack : PackConfig) (credentials : dict) (w : world) (r : request)
         (data : value),
    (forall pi,
        answered Fetch_dan_murphys pack credentials w r data ->
        dan_murphys_price_info data = Ok (VDict pi) ->
        zero_or_none (Dict.get pi "FinalPrice") = true ->
        zero_or_none (Dict.get pi "Price") = true ->
        is_zero_price (Dict.get pi "FinalPrice") || is_zero_price (Dict.get pi "Price")
        = true ->
        Dict.get pi "SalePrice" = VNone ->
        fetch Fetch_dan_murphys pack credentials w =
        (Raise (ValueError (missing_price Fetch_dan_murphys)), add_sent r w))
    /\
    (forall d pi,
        answered Fetch_bws pack credentials w r data ->
        data = VDict d ->
        Dict.get d "price" = VNone ->
        Dict.get d "Price" = VDict pi ->
        zero_or_none (Dict.get pi "current") = true ->
        zero_or_none (Dict.get pi "ActualPrice") = true ->
        is_zero_price (Dict.get pi "current") || is_zero_price (Dict.get pi "ActualPrice")
        = true ->
        fetch Fetch_bws pack credentials w =
        (Raise (ValueError (missing_price Fetch_bws)), add_sent r w))
    /\
    (forall zero,
        answered Fetch_coles pack credentials w r data ->
        extract_path data (Some "product.price.current") = Ok zero ->
        is_zero_price zero = true ->
        extract_path data (Some "productPrice.current") = Ok VNone ->
        fetch Fetch_coles pack credentials w =
        (Raise (ValueError (missing_price Fetch_coles)), add_sent r w))
    /\
    (forall pi t y,
        answered Fetch_dan_murphys pack credentials w r data ->
        dan_murphys_price_info data = Ok (VDict pi) ->
        py_float (py_or (py_or (Dict.get pi "FinalPrice") (Dict.get pi "Price"))
                        (Dict.get pi "SalePrice")) = Ok t ->
        is_zero_price (Dict.get pi "UnitPrice") = true ->
        Dict.get pi "CupPrice" = VNone ->
        pack_size pack <> 0 ->
        float_of_int (pack_size pack) = Ok y ->
        exists p w',
          fetch Fetch_dan_murphys pack credentials w = (Ok p, w') /\
          price_total p = t /\ price_unit p = Float.div t y)
    /\
    (forall d pi t y,
        answered Fetch_bws pack credentials w r data ->
        data = VDict d ->
        py_or (py_or (Dict.get d "price") (Dict.get d "Price")) (VDict []) = VDict pi ->
        py_float (py_or (py_or (Dict.get pi "current") (Dict.get pi "ActualPrice"))
                        (Dict.get d "price")) = Ok t ->
        is_zero_price (Dict.get pi "perItem") = true ->
        Dict.get pi "CupPrice" = VNone ->
        pack_size pack <> 0 ->
        float_of_int (pack_size pack) = Ok y ->
        exists p w',
          fetch Fetch_bws pack credentials w = (Ok p, w') /\
          price_total p = t /\ price_unit p = Float.div t y)
    /\
    (forall total1 total2 zero t y,
        answered Fetch_coles pack credentials w r data ->
        extract_path data (Some "product.price.current") = Ok total1 ->
        extract_path data (Some "productPrice.current") = Ok total2 ->
        py_float (py_or total1 total2) = Ok t ->
        extract_path data (Some "product.price.unit") = Ok zero ->
        is_zero_price zero = true ->
        extract_path data (Some "productPrice.unit") = Ok VNone ->
        pack_size pack <> 0 ->
        float_of_int (pack_size pack) = Ok y ->
        exists p w',
          fetch Fetch_coles pack credentials w = (Ok p, w') /\
          price_total p = t /\ price_unit p = Float.div t y).
Proof.
  intros pack credentials w r data. repeat split.
  - (* Dan Murphy's, total *)
    intros pi [Hreq Hans] Hprice Hfinal Hmid Hzero Hs.
    assert (Hpi : pi <> []).
    { apply orb_true_iff in Hzero.
      destruct Hzero as [H | H]; exact (is_zero_price_not_none pi _ H). }
    rewrite (fetch_answered _ _ _ _ _ _ _ _ Hreq Hans
               (dan_murphys_prices_of_price_info data pi Hprice Hpi)).
    rewrite (py_or_passes_over _ _ _ Hfinal Hmid), Hs.
    reflexivity.
  - (* BWS, total *)
    intros d pi [Hreq Hans] -> Hlow Hprice Hcurrent Hactual Hzero.
    assert (Hpi : pi <> []).
    { apply orb_true_iff in Hzero.
      destruct Hzero as [H | H]; exact (is_zero_price_not_none pi _ H). }
    assert (Hinfo : py_or (py_or (Dict.get d "price") (Dict.get d "Price")) (VDict [])
                    = VDict pi).
    { rewrite Hlow, Hprice. unfold py_or at 2. simpl truthy. cbv iota.
      apply py_or_truthy, truthy_dict, Hpi. }
    rewrite (fetch_answered _ _ _ _ _ _ _ _ Hreq Hans (bws_prices_of_price d pi Hinfo)).
    rewrite (py_or_passes_over _ _ _ Hcurrent Hactual), Hlow.
    reflexivity.
  - (* Coles, total *)
    intros zero [Hreq Hans] H1 Hzero H2.
    destruct (fixed_paths_total data "product.price.unit") as [u1 Hu1];
      [simpl; tauto|].
    destruct (fixed_paths_total data "productPrice.unit") as [u2 Hu2];
      [simpl; tauto|].
    rewrite (fetch_answered _ _ _ _ _ _ _ _ Hreq Hans
               (coles_prices_of_paths data _ _ _ _ H1 H2 Hu1 Hu2)).
    rewrite (py_or_falsy _ _ (is_zero_price_falsy _ Hzero)).
    reflexivity.
  - (* Dan Murphy's, unit price *)
    intros pi t y [Hreq Hans] Hprice Ht Hzero Hcup Hsize Hy.
    rewrite (fetch_answered _ _ _ _ _ _ _ _ Hreq Hans
               (dan_murphys_prices_of_price_info data pi Hprice
                  (is_zero_price_not_none pi _ Hzero))).
    rewrite (py_or_falsy _ _ (is_zero_price_falsy _ Hzero)), Hcup.
    rewrite (price_payload_quotient _ pack _ t y _ Ht Hsize Hy).
    eexists _, _. repeat split.
  - (* BWS, unit price *)
    intros d pi t y [Hreq Hans] -> Hinfo Ht Hzero Hcup Hsize Hy.
    rewrite (fetch_answered _ _ _ _ _ _ _ _ Hreq Hans (bws_prices_of_price d pi Hinfo)).
    rewrite (py_or_falsy _ _ (is_zero_price_falsy _ Hzero)), Hcup.
    rewrite (price_payload_quotient _ pack _ t y _ Ht Hsize Hy).
    eexists _, _. repeat split.
  - (* Coles, unit price *)
    intros total1 total2 zero t y [Hreq Hans] H1 H2 Ht H3 Hzero H4 Hsize Hy.
    rewrite (fetch_answered _ _ _ _ _ _ _ _ Hreq Hans
               (coles_prices_of_paths data _ _ _ _ H1 H2 H3 H4)).
    rewrite (py_or_falsy _ _ (is_zero_price_falsy _ Hzero)).
    rewrite (price_payload_quotient _ pack _ t y _ Ht Hsize Hy).
    eexists _, _. repeat split.
Qed.

(** The theorem on responses with a zero in the first and in the middle
    place of the total chain, and with a zero unit price beside a total
    found in the first, the middle and the last place. *)
Lemma zero_price_passed_over_by_or_witness :
  let creds := [("coles_api_key", VStr "key")] in
  let run f data := fst (fetch f (sample_pack "any" 24) creds (sample_world (always data))) in
  let priced field := [(field, VInt 48); ("UnitPrice", VInt 0); ("perItem", VInt 0);
                       ("unit", VInt 0)] in
  run Fetch_dan_murphys (VDict [("Products", VList [nested "price" "Price" (VInt 0)])])
    = Raise (ValueError "Dan Murphy's response missing price value") /\
  run Fetch_bws (nested "Price" "ActualPrice" (VFloat (S754_zero false)))
    = Raise (ValueError "BWS response missing price") /\
  run Fetch_coles (coles_data (VInt 0))
    = Raise (ValueError "Coles response missing price") /\
  (exists p, run Fetch_dan_murphys (VDict [("Price", VDict (priced "SalePrice"))]) = Ok p /\
             price_unit p = Float.of_Z 2) /\
  (exists p, run Fetch_bws (VDict [("Price", VDict (priced "ActualPrice"))]) = Ok p /\
             price_unit p = Float.of_Z 2) /\
  (exists p, run Fetch_coles (VDict [("product", VDict [("price", VDict (priced "current"))])]) = Ok p /\
             price_unit p = Float.of_Z 2).
Proof.
  intros creds run priced.
  assert (Hans : forall data r, answers (sample_world (always data)) r data)
    by (intros data r; exists 200; split; [reflexivity | lia]).
  (* the theorem at request [r], answered with [data] *)
  pose proof (fun data r =>
                zero_price_passed_over_by_or
                  (sample_pack "any" 24) creds (sample_world (always data)) r data)
    as T.
  split; [|split; [|split; [|split; [|split]]]]; unfold run.
  - destruct (T (VDict [("Products", VList [nested "price" "Price" (VInt 0)])])
                {| req_method := GET;
                   req_url := "https://api.danmurphys.com.au/apis/ui/product/v3/detail/123?storeId=DMONLINE";
                   req_headers := None; req_json := None; req_timeout := 20 |})
      as (H & _).
    rewrite (H [("Price", VInt 0)]);
      [reflexivity | split; [reflexivity | apply Hans] | reflexivity ..].
  - destruct (T (nested "Price" "ActualPrice" (VFloat (S754_zero false)))
                {| req_method := GET;
                   req_url := "https://bws.com.au/api/products/123";
                   req_headers :=
                     Some [("User-Agent", VStr USER_AGENT);
                           ("Accept", VStr "application/json");
                           ("Referer", VStr "https://bws.com.au/");
                           ("Origin", VStr "https://bws.com.au")];
                   req_json := None; req_timeout := 20 |})
      as (_ & H & _).
    rewrite (H [("Price", VDict [("ActualPrice", VFloat (S754_zero false))])]
               [("ActualPrice", VFloat (S754_zero false))]);
      [reflexivity | split; [reflexivity | apply Hans] | reflexivity ..].
  - destruct (T (coles_data (VInt 0))
                {| req_method := GET;
                   req_url := "https://api.coles.com.au/product/v1/productdetail/123";
                   req_headers :=
                     Some [("User-Agent", VStr USER_AGENT);
                           ("Accept", VStr "application/json");
                           ("Ocp-Apim-Subscription-Key", VStr "key")];
                   req_json := None; req_timeout := 20 |})
      as (_ & _ & H & _).
    rewrite (H (VInt 0));
      [reflexivity | split; [reflexivity | apply Hans] | reflexivity ..].
  - destruct (T (VDict [("Price", VDict (priced "SalePrice"))])
                {| req_method := GET;
                   req_url := "https://api.danmurphys.com.au/apis/ui/product/v3/detail/123?storeId=DMONLINE";
                   req_headers := None; req_json := None; req_timeout := 20 |})
      as (_ & _ & _ & H & _).
    destruct (H (priced "SalePrice") (Float.of_Z 48) (Float.of_Z 24))
      as (p & w' & Hrun & _ & Hunit);
      [split; [reflexivity | apply Hans] | reflexivity | reflexivity | reflexivity
      | reflexivity | discriminate | reflexivity |].
    exists p. rewrite Hrun. split; [reflexivity | rewrite Hunit; reflexivity].
  - destruct (T (VDict [("Price", VDict (priced "ActualPrice"))])
                {| req_method := GET;
                   req_url := "https://bws.com.au/api/products/123";
                   req_headers :=
                     Some [("User-Agent", VStr USER_AGENT);
                           ("Accept", VStr "application/json");
                           ("Referer", VStr "https://bws.com.au/");
                           ("Origin", VStr "https://bws.com.au")];
                   req_json := None; req_timeout := 20 |})
      as (_ & _ & _ & _ & H & _).
    destruct (H [("Price", VDict (priced "ActualPrice"))] (priced "ActualPrice")
                (Float.of_Z 48) (Float.of_Z 24))
      as (p & w' & Hrun & _ & Hunit);
      [split; [reflexivity | apply Hans] | reflexivity | reflexivity | reflexivity
      | reflexivity | reflexivity | discriminate | reflexivity |].
    exists p. rewrite Hrun. split; [reflexivity | rewrite Hunit; reflexivity].
  - destruct (T (VDict [("product", VDict [("price", VDict (priced "current"))])])
                {| req_method := GET;
                   req_url := "https://api.coles.com.au/product/v1/productdetail/123";
                   req_headers :=
                     Some [("User-Agent", VStr USER_AGENT);
                           ("Accept", VStr "application/json");
                           ("Ocp-Apim-Subscription-Key", VStr "key")];
                   req_json := None; req_timeout := 20 |})
      as (_ & _ & _ & _ & _ & H).
    destruct (H (VInt 48) VNone (VInt 0) (Float.of_Z 48) (Float.of_Z 24))
      as (p & w' & Hrun & _ & Hunit);
      [split; [reflexivity | apply Hans] | reflexivity | reflexivity | reflexivity
      | reflexivity | reflexivity | reflexivity | discriminate | reflexivity |].
    exists p. rewrite Hrun. split; [reflexivity | rewrite Hunit; reflexivity].
Defined.

(* ===================================================================== *)
(** ** Dicts *)
(* ===================================================================== *)

Section DictFacts.

Variable d : dict.

Lemma dict_get_set (key : string) (v : value) :
  Dict.get (Dict.set d key v) key = v.
Proof.
  induction d as [|[k v'] d' IH]; simpl.
  - rewrite String.eqb_refl. reflexivity.
  - destruct (String.eqb k key) eqn:E; simpl; rewrite E; auto.
Qed.

Lemma dict_get_set_other (key key' : string) (v : value) :
  key <> key' -> Dict.get (Dict.set d key v) key' = Dict.get d key'.
Proof.
  intros Hne. induction d as [|[k v'] d' IH]; simpl.
  - apply String.eqb_neq in Hne. rewrite Hne. reflexivity.
  - destruct (String.eqb k key) eqn:E; simpl.
    + apply String.eqb_eq in E. subst k.
      apply String.eqb_neq in Hne. rewrite Hne. reflexivity.
    + destruct (String.eqb k key'); auto.
Qed.

Lemma dict_mem_set_other (key key' : string) (v : value) :
  key <> key' -> Dict.mem (Dict.set d key v) key' = Dict.mem d key'.
Proof.
  intros Hne. induction d as [|[k v'] d' IH]; simpl.
  - apply String.eqb_neq in Hne. rewrite Hne. reflexivity.
  - destruct (String.eqb k key) eqn:E; simpl.
    + reflexivity.
    + rewrite IH. reflexivity.
Qed.

Lemma dict_get_setdefault_absent (key : string) (v : value) :
  Dict.mem d key = false -> Dict.get (Dict.setdefault d key v) key = v.
Proof. intros H. unfold Dict.setdefault. rewrite H. apply dict_get_set. Qed.

Lemma dict_get_setdefault_other (key key' : string) (v : value) :
  key <> key' -> Dict.get (Dict.setdefault d key v) key' = Dict.get d key'.
Proof.
  intros Hne. unfold Dict.setdefault.
  destruct (Dict.mem d key); [reflexivity | apply dict_get_set_other, Hne].
Qed.

Lemma dict_mem_setdefault_other (key key' : string) (v : value) :
  key <> key' -> Dict.mem (Dict.setdefault d key v) key' = Dict.mem d key'.
Proof.
  intros Hne. unfold Dict.setdefault.
  destruct (Dict.mem d key); [reflexivity | apply dict_mem_set_other, Hne].
Qed.

End DictFacts.

(** Updating with items none of which has the key leaves the key alone. *)
Lemma dict_mem_update_other (other d : dict) (key : string) :
  ~ In key (map fst other) -> Dict.mem (Dict.update d other) key = Dict.mem d key.
Proof.
  unfold Dict.update. revert d.
  induction other as [|[k v] other' IH]; intros d Hnot; simpl.
  - reflexivity.
  - rewrite IH.
    + apply dict_mem_set_other. intros ->. apply Hnot. left. reflexivity.
    + intros Hin. apply Hnot. right. exact Hin.
Qed.

(** Without custom headers for them, the normalised headers have neither
    ["Origin"] nor ["Referer"]. *)
Lemma normalise_headers_plain (h : option (list (string * string))) (key : string) :
  key <> "User-Agent" -> key <> "Accept" ->
  (forall hs, h = Some hs -> ~ In key (map fst hs)) ->
  Dict.mem (normalise_headers h) key = false.
Proof.
  intros Hua Hacc Hnot.
  assert (Hbase : Dict.mem [("User-Agent", VStr USER_AGENT);
                            ("Accept", VStr "application/json")] key = false).
  { cbn [Dict.mem]. apply not_eq_sym, String.eqb_neq in Hua.
    apply not_eq_sym, String.eqb_neq in Hacc. rewrite Hua, Hacc. reflexivity. }
  unfold normalise_headers. destruct h as [[|kv hs]|]; try exact Hbase.
  rewrite dict_mem_update_other; [exact Hbase|].
  rewrite map_map. simpl map at 1. apply (Hnot (kv :: hs) eq_refl).
Qed.

(* ===================================================================== *)
(** ** Requests sent *)
(* ===================================================================== *)

(** The exchange sends its request, whatever comes back. *)
Lemma fetch_json_sent (r : request) (w : world) :
  w_sent (snd (fetch_json r w)) = (w_sent w ++ [r])%list.
Proof.
  unfold fetch_json, bind, send, lift.
  destruct (w_http w r) as [|st body]; simpl; [reflexivity|].
  destruct (raise_for_status _); simpl; [|reflexivity].
  destruct body; reflexivity.
Qed.

(** The closing statements send nothing. *)
Lemma price_payload_sent (msg : string) (pack : PackConfig) (total unit : value)
    (w : world) :
  w_sent (snd (price_payload msg pack total unit w)) = w_sent w.
Proof.
  unfold price_payload, bind, lift, raise, ret, time_now.
  destruct (is_none total); simpl; [reflexivity|].
  destruct (if is_none unit && negb (pack_size pack =? 0) then _ else _) as [u|e];
    simpl; [|reflexivity].
  destruct (py_float total); simpl; [|reflexivity].
  destruct (py_float u); reflexivity.
Qed.

(** An adapter that builds its request sends it, and only it. *)
Lemma fetch_sent (f : fetcher) (pack : PackConfig) (credentials : dict)
    (w : world) (r : request) :
  fst (adapter_request f pack credentials w) = Ok r ->
  w_sent (snd (fetch f pack credentials w)) = (w_sent w ++ [r])%list.
Proof.
  intros Hreq. rewrite fetch_steps.
  pose proof (adapter_request_world f pack credentials w) as Hw.
  destruct (adapter_request f pack credentials w) as [o w1] eqn:Hrun.
  simpl in Hreq, Hw. subst o w1.
  erewrite bind_ok by exact Hrun.
  pose proof (fetch_json_sent r w) as Hsent.
  unfold bind at 1.
  destruct (fetch_json r w) as [[data|e] w2]; simpl in Hsent |- *; [|exact Hsent].
  unfold bind at 1. unfold lift at 1.
  destruct (adapter_prices f data) as [prices|e]; simpl; [|exact Hsent].
  rewrite price_payload_sent. exact Hsent.
Qed.

(** An adapter that fails to build its request does nothing else. *)
Lemma fetch_not_sent (f : fetcher) (pack : PackConfig) (credentials : dict)
    (w : world) (e : exn) :
  fst (adapter_request f pack credentials w) = Raise e ->
  fetch f pack credentials w = (Raise e, w).
Proof.
  intros Hreq. rewrite fetch_steps.
  pose proof (adapter_request_world f pack credentials w) as Hw.
  destruct (adapter_request f pack credentials w) as [o w1] eqn:Hrun.
  simpl in Hreq, Hw. subst o w1.
  erewrite bind_raise by exact Hrun. reflexivity.
Qed.

(* ===================================================================== *)
(** ** The Coles credential *)
(* ===================================================================== *)

(** With an API key in the configuration, the request carries it. *)
Lemma coles_request_configured (pack : PackConfig) (credentials : dict) (w : world)
    (pid : string) :
  truthy (Dict.get credentials "coles_api_key") = true ->
  nonempty (product_id pack) = Some pid ->
  coles_request pack credentials w =
  (Ok {| req_method := GET;
         req_url := "https://api.coles.com.au/product/v1/productdetail/" ++ pid;
         req_headers :=
           Some (Dict.set (normalise_headers (headers pack)) "Ocp-Apim-Subscription-Key"
                          (Dict.get credentials "coles_api_key"));
         req_json := None; req_timeout := 20 |}, w).
Proof.
  intros Hkey Hpid. unfold coles_request, coles_api_key, bind.
  rewrite Hkey. unfold ret at 1. rewrite Hkey. cbn [negb]. rewrite Hpid.
  reflexivity.
Qed.

(** C7.  The Coles adapter with no API key in the credentials of the
    configuration and the variable [COLES_API_KEY] unset fails with the
    credential-missing error, and the world is as it was: no request has
    been sent.  With an API key in the configuration, the request that is
    sent carries that key in its subscription header, whatever the
    environment holds. *)
Theorem coles_api_key_resolution :
  (forall (pack : PackConfig) (credentials : dict) (w : world),
      truthy (Dict.get credentials "coles_api_key") = false ->
      w_env w "COLES_API_KEY" = None ->
      fetch_coles pack credentials w = (Raise (ValueError coles_missing_key), w))
  /\
  (forall (pack : PackConfig) (credentials : dict) (w : world) (pid : string),
      truthy (Dict.get credentials "coles_api_key") = true ->
      nonempty (product_id pack) = Some pid ->
      exists (r : request) (hs : dict),
        w_sent (snd (fetch_coles pack credentials w)) = (w_sent w ++ [r])%list /\
        req_headers r = Some hs /\
        Dict.get hs "Ocp-Apim-Subscription-Key" = Dict.get credentials "coles_api_key").
Proof.
  split.
  - intros pack credentials w Hkey Henv.
    apply (fetch_not_sent Fetch_coles). simpl.
    unfold coles_request, coles_api_key, bind, getenv.
    rewrite Hkey, Henv. reflexivity.
  - intros pack credentials w pid Hkey Hpid.
    eexists _, _. split; [|split].
    + apply (fetch_sent Fetch_coles). simpl.
      rewrite (coles_request_configured pack credentials w pid Hkey Hpid).
      reflexivity.
    + reflexivity.
    + apply dict_get_set.
Qed.

(** A run without any key, and a run with a key in the configuration and
    another in the environment. *)
Lemma coles_api_key_resolution_witness :
  fetch_coles (sample_pack "coles" 24) [] (sample_world (always VNone))
  = (Raise (ValueError coles_missing_key), sample_world (always VNone))
  /\
  (let w := {| w_env := fun name => if String.eqb name "COLES_API_KEY"
                                    then Some "from-environment" else None;
               w_http := always VNone; w_clock := fun _ => 0; w_ticks := 0;
               w_sent := []; w_log := []; w_written := [] |} in
   exists r hs,
     w_sent (snd (fetch_coles (sample_pack "coles" 24)
                    [("coles_api_key", VStr "from-configuration")] w)) = [r] /\
     req_headers r = Some hs /\
     Dict.get hs "Ocp-Apim-Subscription-Key" = VStr "from-configuration").
Proof.
  split.
  - apply (proj1 coles_api_key_resolution); reflexivity.
  - intros w.
    destruct (proj2 coles_api_key_resolution (sample_pack "coles" 24)
                [("coles_api_key", VStr "from-configuration")] w "123"
                eq_refl eq_refl) as (r & hs & Hsent & Hh & Hkey).
    exists r, hs. repeat split; assumption.
Defined.

(* ===================================================================== *)
(** ** The registry *)
(* ===================================================================== *)

(** C9.  The keys ["liquorland"] and ["first_choice"] are registered with
    the same adapter, and that adapter picks its origin by the source key
    of the pack: the First Choice origin for ["first_choice"], the
    Liquorland origin for anything else.  The request it sends (for a pack
    whose own headers set neither) has that origin as ["Origin"] and the
    origin followed by a slash as ["Referer"]. *)
Theorem liquorland_and_first_choice_share_adapter :
  registry_get FETCHERS "liquorland" = Some Fetch_liquorland_like /\
  registry_get FETCHERS "first_choice" = Some Fetch_liquorland_like /\
  (forall pack, call_fetcher Fetch_liquorland_like pack None = fetch_liquorland_like pack) /\
  (forall (pack : PackConfig) (pid : string) (w : world),
      nonempty (product_id pack) = Some pid ->
      (forall hs, headers pack = Some hs ->
                  ~ In "Origin" (map fst hs) /\ ~ In "Referer" (map fst hs)) ->
      let origin := if String.eqb (source pack) "first_choice"
                    then "https://www.firstchoiceliquor.com.au"
                    else "https://www.liquorland.com.au" in
      exists (r : request) (hs : dict),
        w_sent (snd (fetch_liquorland_like pack w)) = (w_sent w ++ [r])%list /\
        req_headers r = Some hs /\
        Dict.get hs "Origin" = VStr origin /\
        Dict.get hs "Referer" = VStr (origin ++ "/")).
Proof.
  repeat split.
  intros pack pid w Hpid Hplain origin.
  assert (Hreq : liquorland_like_request pack =
                 Ok {| req_method := POST;
                       req_url := "https://api.liquorland.com.au/graphql";
                       req_headers :=
                         Some (Dict.setdefault
                                 (Dict.setdefault (normalise_headers (headers pack))
                                    "Origin" (VStr origin))
                                 "Referer" (VStr (origin ++ "/")));
                       req_json :=
                         Some (VDict [("query", VStr liquorland_query);
                                      ("variables", VDict [("id", VStr pid)])]);
                       req_timeout := 20 |}).
  { unfold liquorland_like_request. rewrite Hpid. reflexivity. }
  eexists _, _. split; [|split; [|split]].
  - apply (fetch_sent Fetch_liquorland_like pack [] w). simpl. rewrite Hreq. reflexivity.
  - reflexivity.
  - rewrite dict_get_setdefault_other by discriminate.
    apply dict_get_setdefault_absent.
    apply normalise_headers_plain; try discriminate.
    intros hs Hhs. apply (Hplain hs Hhs).
  - apply dict_get_setdefault_absent.
    rewrite dict_mem_setdefault_other by discriminate.
    apply normalise_headers_plain; try discriminate.
    intros hs Hhs. apply (Hplain hs Hhs).
Qed.

(** The two brands, with an extra header that is neither of the two. *)
Lemma liquorland_and_first_choice_share_adapter_witness :
  let pack src :=
    {| retailer := "Retailer"; suburb := ""; pack_size := 10; url := "";
       source := src; product_id := Some "123"; store_id := None;
       headers := Some [("X-Test", "1")]; extra := None |} in
  let origin_sent src :=
    match w_sent (snd (fetch_liquorland_like (pack src) (sample_world (always VNone)))) with
    | [r] => match req_headers r with
             | Some hs => Some (Dict.get hs "Origin", Dict.get hs "Referer")
             | None => None
             end
    | _ => None
    end in
  origin_sent "first_choice"
  = Some (VStr "https://www.firstchoiceliquor.com.au",
          VStr "https://www.firstchoiceliquor.com.au/") /\
  origin_sent "liquorland"
  = Some (VStr "https://www.liquorland.com.au", VStr "https://www.liquorland.com.au/").
Proof.
  intros pack origin_sent.
  pose proof (proj2 (proj2 (proj2 liquorland_and_first_choice_share_adapter))) as T.
  assert (Hplain : forall src hs, headers (pack src) = Some hs ->
                     ~ In "Origin" (map fst hs) /\ ~ In "Referer" (map fst hs)).
  { intros src hs [= <-]. simpl. split; intros [H|[]]; discriminate. }
  split; unfold origin_sent.
  - destruct (T (pack "first_choice") "123" (sample_world (always VNone)) eq_refl
                (Hplain "first_choice")) as (r & hs & Hsent & Hh & Ho & Hr).
    rewrite Hsent. cbn [w_sent sample_world app]. rewrite Hh, Ho, Hr.
    reflexivity.
  - destruct (T (pack "liquorland") "123" (sample_world (always VNone)) eq_refl
                (Hplain "liquorland")) as (r & hs & Hsent & Hh & Ho & Hr).
    rewrite Hsent. cbn [w_sent sample_world app]. rewrite Hh, Ho, Hr.
    reflexivity.
Defined.

(* ===================================================================== *)
(** ** The orchestrator *)
(* ===================================================================== *)

Lemma build_entry_entry_of (pack : PackConfig) (p : payload) (w : world) :
  build_entry pack p w = (Ok (entry_of pack p), tick w).
Proof. reflexivity. Qed.

(** A pack whose source key is not registered is skipped with a warning. *)
Lemma process_pack_unregistered (credentials : dict) (entries : list entry)
    (pack : PackConfig) (w : world) :
  registry_get FETCHERS (source pack) = None ->
  process_pack credentials entries pack w =
  (Ok entries,
   add_log {| log_lvl := WARNING; log_fmt := "No fetcher for %s; skipping";
              log_args := [ArgStr (source pack)] |} w).
Proof. intros Hreg. unfold process_pack. rewrite Hreg. reflexivity. Qed.

(** A pack with an adapter: the adapter's payload becomes one more entry,
    and its exception a line in the log. *)
Lemma process_pack_registered (credentials : dict) (entries : list entry)
    (pack : PackConfig) (w : world) (f : fetcher) :
  registry_get FETCHERS (source pack) = Some f ->
  process_pack credentials entries pack w =
  match invoke f credentials pack
          (add_log {| log_lvl := INFO; log_fmt := "Fetching %s %sx";
                      log_args := [ArgStr (retailer pack); ArgInt (pack_size pack)] |} w)
  with
  | (Ok p, w1) => (Ok (entries ++ [entry_of pack p])%list, tick w1)
  | (Raise e, w1) =>
      (Ok entries,
       add_log {| log_lvl := ERROR; log_fmt := "Failed to fetch %s %sx: %s";
                  log_args := [ArgStr (retailer pack); ArgInt (pack_size pack);
                               ArgExn e] |} w1)
  end.
Proof.
  intros Hreg. unfold process_pack. rewrite Hreg.
  unfold try_except, bind at 1, log at 1. unfold bind at 1.
  destruct (invoke f credentials pack _) as [[p|e] w1]; reflexivity.
Qed.

(** A turn of the loop never raises, and adds at most one entry, built
    from its pack. *)
Lemma process_pack_entries (credentials : dict) (entries : list entry)
    (pack : PackConfig) (w : world) :
  exists w',
    process_pack credentials entries pack w = (Ok entries, w') \/
    exists p, process_pack credentials entries pack w
              = (Ok (entries ++ [entry_of pack p])%list, w').
Proof.
  destruct (registry_get FETCHERS (source pack)) as [f|] eqn:Hreg.
  - rewrite (process_pack_registered credentials entries pack w f Hreg).
    destruct (invoke f credentials pack _) as [[p|e] w1]; eauto.
  - rewrite (process_pack_unregistered credentials entries pack w Hreg). eauto.
Qed.

(** The loop runs to its end, keeps the entries it started with in their
    order and adds entries built from its packs. *)
Lemma pack_loop_entries (credentials : dict) (packs : list PackConfig) :
  forall (entries : list entry) (w : world),
    exists new w',
      pack_loop credentials entries packs w = (Ok (entries ++ new)%list, w') /\
      Forall (built_from packs) new.
Proof.
  induction packs as [|pack rest IH]; intros entries w; simpl.
  - exists [], w. rewrite app_nil_r. split; [reflexivity | constructor].
  - destruct (process_pack_entries credentials entries pack w) as [w1 [H | [p H]]].
    + erewrite bind_ok by exact H.
      destruct (IH entries w1) as (new & w' & Hloop & Hnew).
      exists new, w'. split; [exact Hloop|].
      eapply Forall_impl; [|exact Hnew].
      intros e (pk & p & Hin & ->). exists pk, p. simpl. auto.
    + erewrite bind_ok by exact H.
      destruct (IH (entries ++ [entry_of pack p])%list w1) as (new & w' & Hloop & Hnew).
      exists (entry_of pack p :: new), w'. split.
      * rewrite Hloop. rewrite <- app_assoc. reflexivity.
      * constructor.
        -- exists pack, p. simpl. auto.
        -- eapply Forall_impl; [|exact Hnew].
           intros e (pk & p' & Hin & ->). exists pk, p'. simpl. auto.
Qed.

Lemma pack_loop_app (credentials : dict) (front back : list PackConfig) :
  forall (entries : list entry) (w : world),
    pack_loop credentials entries (front ++ back) w =
    bind (pack_loop credentials entries front)
         (fun entries' => pack_loop credentials entries' back) w.
Proof.
  induction front as [|pack rest IH]; intros entries w; simpl.
  - reflexivity.
  - unfold bind in *.
    destruct (process_pack credentials entries pack w) as [[entries'|e] w1].
    + apply IH.
    + reflexivity.
Qed.

(** [main] in terms of its loop. *)
Lemma main_after_loop (credentials : dict) (packs : list PackConfig) (w w1 : world)
    (entries : list entry) :
  pack_loop credentials [] packs w = (Ok entries, w1) ->
  main credentials packs w =
  match packs, entries with
  | [], _ =>
      (Ok 1, add_log {| log_lvl := ERROR;
                        log_fmt := "No packs configured. Add pack definitions to scraper/config.json";
                        log_args := [] |} w)
  | _, [] =>
      (Ok 1, add_log {| log_lvl := ERROR; log_fmt := "No pricing data collected";
                        log_args := [] |} w1)
  | _, _ =>
      (Ok 0,
       add_log {| log_lvl := INFO; log_fmt := "Wrote %d price rows to %s";
                  log_args := [ArgInt (Z.of_nat (length entries)); ArgDataFile] |}
         (add_written {| updated_at := w_clock w1 (w_ticks w1); items := entries |}
            (tick w1)))
  end.
Proof.
  intros Hloop. destruct packs as [|pack rest]; [reflexivity|].
  unfold main. erewrite bind_ok by exact Hloop.
  destruct entries; reflexivity.
Qed.

(** C6.  The loop over the configured packs always runs to its end and
    writes nothing.  If it ends with no price record, the run exits with
    code 1 and the data file has not been written.  If it ends with
    records, the run exits with code 0 after a single write, made after the
    loop, of all of them; no request is sent after the loop. *)
Theorem nothing_written_without_records :
  forall (credentials : dict) (packs : list PackConfig) (w : world),
    exists (entries : list entry) (w1 : world),
      pack_loop credentials [] packs w = (Ok entries, w1) /\
      w_written w1 = w_written w /\
      w_sent (snd (main credentials packs w)) = w_sent w1 /\
      match entries with
      | [] =>
          fst (main credentials packs w) = Ok 1 /\
          w_written (snd (main credentials packs w)) = w_written w
      | _ :: _ =>
          fst (main credentials packs w) = Ok 0 /\
          w_written (snd (main credentials packs w)) =
          (w_written w ++ [{| updated_at := w_clock w1 (w_ticks w1);
                              items := entries |}])%list
      end.
Proof.
  intros credentials packs w.
  destruct (pack_loop_entries credentials packs [] w) as (entries & w1 & Hloop & _).
  simpl in Hloop.
  destruct (quiet_pack_loop credentials packs [] w) as [_ Hwritten].
  rewrite Hloop in Hwritten. simpl in Hwritten.
  exists entries, w1. split; [exact Hloop | split; [exact Hwritten|]].
  rewrite (main_after_loop credentials packs w w1 entries Hloop).
  destruct packs as [|pack rest].
  - simpl in Hloop. injection Hloop as <- <-. repeat split.
  - destruct entries as [|e es]; simpl; rewrite <- Hwritten; repeat split.
Qed.

Lemma same_outside_add_log (w w' : world) (l : log_record) :
  same_outside w w' -> same_outside w (add_log l w').
Proof. intros H. exact H. Qed.

Lemma same_outside_tick (w w' : world) :
  same_outside w w' -> same_outside w (tick w').
Proof. intros H. exact H. Qed.

(** A pack that yields nothing leaves the entries as they are. *)
Lemma process_pack_nothing (credentials : dict) (w0 : world) (pack : PackConfig)
    (entries : list entry) (w : world) :
  yields_nothing credentials w0 pack ->
  same_outside w0 w ->
  exists w',
    process_pack credentials entries pack w = (Ok entries, w') /\
    same_outside w0 w' /\ w_written w' = w_written w.
Proof.
  intros [Hreg | (f & Hreg & Hfail)] Hsame.
  - rewrite (process_pack_unregistered credentials entries pack w Hreg).
    eexists. split; [reflexivity|]. split; [exact Hsame | reflexivity].
  - rewrite (process_pack_registered credentials entries pack w f Hreg).
    set (w1 := add_log _ w).
    destruct (Hfail w1 Hsame) as [e He].
    destruct (quiet_call_fetcher f pack
                (if String.eqb (source pack) "coles" then Some credentials else None) w1)
      as [Hout Hwr].
    fold (invoke f credentials pack) in Hout, Hwr.
    destruct (invoke f credentials pack w1) as [o w2]. simpl in He, Hout, Hwr. subst o.
    eexists. split; [reflexivity|]. split.
    + eapply same_outside_trans; [exact Hsame | exact Hout].
    + exact Hwr.
Qed.

Lemma pack_loop_nothing (credentials : dict) (w0 : world) (packs : list PackConfig) :
  Forall (yields_nothing credentials w0) packs ->
  forall (entries : list entry) (w : world),
    same_outside w0 w ->
    exists w',
      pack_loop credentials entries packs w = (Ok entries, w') /\
      same_outside w0 w' /\ w_written w' = w_written w.
Proof.
  induction 1 as [|pack rest Hpack _ IH]; intros entries w Hsame; simpl.
  - exists w. repeat split; try reflexivity; apply Hsame.
  - destruct (process_pack_nothing credentials w0 pack entries w Hpack Hsame)
      as (w1 & Hstep & Hsame1 & Hwr1).
    erewrite bind_ok by exact Hstep.
    destruct (IH entries w1 Hsame1) as (w2 & Hloop & Hsame2 & Hwr2).
    exists w2. split; [exact Hloop|]. split; [exact Hsame2 | congruence].
Qed.

(** C5.  Three configured packs, in any order: one whose source key is
    not registered, one whose adapter raises, one whose adapter returns a
    payload.  The run exits with code 0 and writes one snapshot with
    exactly one price record, the one built from the successful pack and
    its payload. *)
Theorem one_record_from_three_packs :
  forall (credentials : dict) (w : world) (packs : list PackConfig)
         (p_unregistered p_failing p_ok : PackConfig) (f_failing f_ok : fetcher),
    Permutation packs [p_unregistered; p_failing; p_ok] ->
    registry_get FETCHERS (source p_unregistered) = None ->
    registry_get FETCHERS (source p_failing) = Some f_failing ->
    (forall w', same_outside w w' ->
                exists e, fst (invoke f_failing credentials p_failing w') = Raise e) ->
    registry_get FETCHERS (source p_ok) = Some f_ok ->
    (forall w', same_outside w w' ->
                exists p, fst (invoke f_ok credentials p_ok w') = Ok p) ->
    exists (p : payload) (w1 : world) (ts : Z),
      same_outside w w1 /\
      fst (invoke f_ok credentials p_ok w1) = Ok p /\
      fst (main credentials packs w) = Ok 0 /\
      w_written (snd (main credentials packs w)) =
      (w_written w ++ [{| updated_at := ts; items := [entry_of p_ok p] |}])%list.
Proof.
  intros credentials w packs pu pf po ff fo Hperm Hu Hf Hfail Ho Hok.
  (* the successful pack splits the list; the packs around it yield nothing *)
  assert (Hin : In po packs).
  { eapply Permutation_in; [apply Permutation_sym, Hperm|]. simpl. auto. }
  destruct (in_split po packs Hin) as (front & back & ->).
  assert (Hrest : Permutation (front ++ back) [pu; pf]).
  { apply (Permutation_cons_inv (a := po)).
    eapply Permutation_trans; [apply Permutation_middle|].
    eapply Permutation_trans; [exact Hperm|].
    change [pu; pf; po] with ([pu; pf] ++ [po])%list.
    change (po :: [pu; pf]) with ([po] ++ [pu; pf])%list.
    apply Permutation_app_comm. }
  assert (Hduds : forall pack, In pack (front ++ back) ->
                               yields_nothing credentials w pack).
  { intros pack Hpack.
    apply (Permutation_in _ Hrest) in Hpack.
    destruct Hpack as [<- | [<- | []]].
    - left. exact Hu.
    - right. exists ff. auto. }
  assert (Hfront : Forall (yields_nothing credentials w) front).
  { apply Forall_forall. intros pack Hpack. apply Hduds, in_or_app. auto. }
  assert (Hback : Forall (yields_nothing credentials w) back).
  { apply Forall_forall. intros pack Hpack. apply Hduds, in_or_app. auto. }
  (* the loop: front, the successful pack, back *)
  destruct (pack_loop_nothing credentials w front Hfront [] w (same_outside_refl w))
    as (w1 & Hloop1 & Hsame1 & Hwr1).
  set (w2 := add_log {| log_lvl := INFO; log_fmt := "Fetching %s %sx";
                        log_args := [ArgStr (retailer po); ArgInt (pack_size po)] |} w1).
  destruct (Hok w2 Hsame1) as [p Hp].
  destruct (quiet_call_fetcher fo po
              (if String.eqb (source po) "coles" then Some credentials else None) w2)
    as [Hout Hwr2].
  fold (invoke fo credentials po) in Hout, Hwr2.
  destruct (invoke fo credentials po w2) as [o w3] eqn:Hrun.
  simpl in Hp, Hout, Hwr2. subst o.
  assert (Hstep : process_pack credentials [] po w1 = (Ok [entry_of po p], tick w3)).
  { rewrite (process_pack_registered credentials [] po w1 fo Ho).
    fold w2. rewrite Hrun. reflexivity. }
  assert (Hsame3 : same_outside w (tick w3)).
  { apply same_outside_tick. eapply same_outside_trans; [exact Hsame1 | exact Hout]. }
  destruct (pack_loop_nothing credentials w back Hback [entry_of po p] (tick w3) Hsame3)
    as (w4 & Hloop2 & Hsame4 & Hwr4).
  assert (Hloop : pack_loop credentials [] (front ++ po :: back) w
                  = (Ok [entry_of po p], w4)).
  { rewrite pack_loop_app. erewrite bind_ok by exact Hloop1.
    simpl. erewrite bind_ok by exact Hstep. exact Hloop2. }
  exists p, w2, (w_clock w4 (w_ticks w4)).
  split; [exact Hsame1|]. split; [rewrite Hrun; reflexivity|].
  rewrite (main_after_loop credentials (front ++ po :: back) w w4 _ Hloop).
  destruct (front ++ po :: back)%list as [|pk rest] eqn:Hlist.
  - destruct front; discriminate.
  - simpl. split; [reflexivity|].
    f_equal. rewrite Hwr4. simpl. rewrite Hwr2. simpl. exact Hwr1.
Qed.

(** A pack of Dan Murphy's is fetched in any world that has the
    surroundings of [quoting_world]. *)
Lemma dan_murphys_quoted (w' : world) :
  same_outside quoting_world w' ->
  exists p, fst (invoke Fetch_dan_murphys [] (sample_pack "dan_murphys" 24) w') = Ok p.
Proof.
  intros Hsame.
  change (invoke Fetch_dan_murphys [] (sample_pack "dan_murphys" 24))
    with (fetch Fetch_dan_murphys (sample_pack "dan_murphys" 24) []).
  assert (Hans : answers w'
                   {| req_method := GET;
                      req_url := "https://api.danmurphys.com.au/apis/ui/product/v3/detail/123?storeId=DMONLINE";
                      req_headers := None; req_json := None; req_timeout := 20 |}
                   (nested "Price" "FinalPrice" (VFloat (literal "55.99")))).
  { apply (same_outside_answers quoting_world); [exact Hsame|].
    exists 200. split; [reflexivity | lia]. }
  rewrite (fetch_answered Fetch_dan_murphys (sample_pack "dan_murphys" 24) [] w' _ _
             (VFloat (literal "55.99")) VNone eq_refl Hans eq_refl).
  rewrite (price_payload_derived _ (sample_pack "dan_murphys" 24)
             (VFloat (literal "55.99")) (literal "55.99") (Float.div (literal "55.99") (Float.of_Z 24)) _
             eq_refl ltac:(discriminate) eq_refl).
  eexists. reflexivity.
Qed.

(** An unknown retailer, a BWS pack without product identifier and a Dan
    Murphy's pack that is quoted. *)
Lemma one_record_from_three_packs_witness :
  exists (p : payload) (w1 : world) (ts : Z),
    same_outside quoting_world w1 /\
    fst (invoke Fetch_dan_murphys [] (sample_pack "dan_murphys" 24) w1) = Ok p /\
    fst (main [] [sample_pack "aldi" 24; pack_without_product;
                  sample_pack "dan_murphys" 24] quoting_world) = Ok 0 /\
    w_written (snd (main [] [sample_pack "aldi" 24; pack_without_product;
                             sample_pack "dan_murphys" 24] quoting_world)) =
    [{| updated_at := ts; items := [entry_of (sample_pack "dan_murphys" 24) p] |}].
Proof.
  apply (one_record_from_three_packs [] quoting_world
           [sample_pack "aldi" 24; pack_without_product; sample_pack "dan_murphys" 24]
           (sample_pack "aldi" 24) pack_without_product (sample_pack "dan_murphys" 24)
           Fetch_bws Fetch_dan_murphys).
  - apply Permutation_refl.
  - reflexivity.
  - reflexivity.
  - intros w' _. exists (ValueError "product_id required for BWS"). reflexivity.
  - reflexivity.
  - apply dan_murphys_quoted.
Defined.

(** The same run, computed: exit code 0, one record, rounded prices. *)
Example three_packs_run :
  let run := main [] [sample_pack "aldi" 24; pack_without_product;
                      sample_pack "dan_murphys" 24] quoting_world in
  fst run = Ok 0 /\
  map (fun s => map (fun e => (e_retailer e, e_price_total e, e_price_unit e)) (items s))
      (w_written (snd run))
  = [[("Retailer", literal "55.99", literal "2.33")]].
Proof. split; reflexivity. Qed.

(** A run where every pack fails: exit code 1, nothing written. *)
Example all_packs_fail :
  let run := main [] [sample_pack "aldi" 24; pack_without_product]
                  (sample_world (fun _ => NoReply)) in
  fst run = Ok 1 /\ w_written (snd run) = [].
Proof. split; reflexivity. Qed.

(* ===================================================================== *)
(** ** Rounding to two decimals *)
(* ===================================================================== *)

(** [round_half_even n d] is an integer nearest to [n / d], and the even
    one of the two when [n / d] lies half way. *)
Lemma round_half_even_nearest (n d : Z) :
  0 < d ->
  2 * Z.abs (n - Float.round_half_even n d * d) <= d /\
  (2 * Z.abs (n - Float.round_half_even n d * d) = d ->
   Z.even (Float.round_half_even n d) = true).
Proof.
  intros Hd. unfold Float.round_half_even.
  pose proof (Z.div_mod n d ltac:(lia)) as Hdiv.
  pose proof (Z.mod_pos_bound n d Hd) as Hmod.
  destruct (Z.compare_spec (2 * (n mod d)) d) as [Heq | Hlt | Hgt].
  - destruct (Z.even (n / d)) eqn:Heven.
    + split; [lia | auto].
    + split; [lia|]. intros _.
      rewrite Z.even_add, Heven. reflexivity.
  - split; lia.
  - split; lia.
Qed.

Lemma round_half_even_nonneg (n d : Z) :
  0 <= n -> 0 < d -> 0 <= Float.round_half_even n d.
Proof.
  intros Hn Hd. unfold Float.round_half_even.
  pose proof (Z.div_pos n d Hn Hd).
  destruct (_ ?= _); [destruct (Z.even _)| |]; lia.
Qed.

(** The same in the rationals. *)
Lemma within_half (n k : Z) (d : positive) :
  2 * Z.abs (n - k * Zpos d) <= Zpos d ->
  (Qabs ((n # d) - inject_Z k) <= 1 # 2)%Q.
Proof.
  intros H. unfold Qminus, Qplus, Qopp, inject_Z, Qabs, Qle.
  cbn [Qnum Qden]. rewrite Pos.mul_1_r.
  replace (n * 1 + - k * Z.pos d) with (n - k * Z.pos d) by ring.
  lia.
Qed.

Lemma half_way (n k : Z) (d : positive) :
  (Qabs ((n # d) - inject_Z k) == 1 # 2)%Q ->
  2 * Z.abs (n - k * Zpos d) = Zpos d.
Proof.
  unfold Qminus, Qplus, Qopp, inject_Z, Qabs, Qeq.
  cbn [Qnum Qden]. rewrite Pos.mul_1_r.
  replace (n * 1 + - k * Z.pos d) with (n - k * Z.pos d) by ring.
  lia.
Qed.

Lemma hundred_times (m d : positive) :
  (100 * (Zpos m # d) == (100 * Zpos m # d))%Q.
Proof. unfold Qeq, Qmult. cbn [Qnum Qden]. reflexivity. Qed.

(** What [round2] does to a finite float: it takes the integer [k]
    nearest to a hundred times the magnitude, ties to even, and returns
    the float nearest to [k / 100] with the sign of its argument. *)
Lemma round2_finite (s : bool) (m : positive) (e : Z) :
  exists k : Z,
    0 <= k /\
    nearest_hundredth (S754_finite false m e) k /\
    Float.round2 (S754_finite s m e)
    = match k with
      | Zpos kp => Float.of_ratio s kp 100
      | _ => S754_zero s
      end.
Proof.
  destruct e as [|pe|pe].
  - exists (100 * Zpos m * 2 ^ 0). split; [lia|]. split; [|reflexivity].
    unfold nearest_hundredth, Float.to_Q.
    assert (E : (100 * inject_Z (Zpos m * 2 ^ 0) - inject_Z (100 * Zpos m * 2 ^ 0) == 0)%Q).
    { rewrite <- (Z.mul_assoc 100). rewrite (inject_Z_mult 100). 
      change (inject_Z 100) with 100%Q. ring. }
    rewrite E. split; [discriminate | intros H; discriminate H].
  - exists (100 * Zpos m * 2 ^ Zpos pe).
    pose proof (Z.pow_pos_nonneg 2 (Zpos pe) ltac:(lia) ltac:(lia)) as Hpow.
    split; [lia|]. split; [|reflexivity].
    unfold nearest_hundredth, Float.to_Q.
    assert (E : (100 * inject_Z (Zpos m * 2 ^ Zpos pe)
                 - inject_Z (100 * Zpos m * 2 ^ Zpos pe) == 0)%Q).
    { rewrite <- (Z.mul_assoc 100). rewrite (inject_Z_mult 100).
      change (inject_Z 100) with 100%Q. ring. }
    rewrite E. split; [discriminate | intros H; discriminate H].
  - exists (Float.round_half_even (100 * Zpos m) (Zpos (2 ^ pe))).
    destruct (round_half_even_nearest (100 * Zpos m) (Zpos (2 ^ pe)) ltac:(lia))
      as [Hnear Htie].
    split; [apply round_half_even_nonneg; lia|]. split; [|reflexivity].
    unfold nearest_hundredth, Float.to_Q. rewrite hundred_times.
    split.
    + apply within_half. exact Hnear.
    + intros Hhalf. apply Htie. apply half_way. exact Hhalf.
Qed.

(** What a run writes: nothing, or one snapshot of records built by
    [build_entry] from configured packs. *)
Lemma main_written (credentials : dict) (packs : list PackConfig) (w : world) :
  exists new : list snapshot,
    w_written (snd (main credentials packs w)) = (w_written w ++ new)%list /\
    Forall (fun snap => Forall (built_from packs) (items snap)) new.
Proof.
  destruct (pack_loop_entries credentials packs [] w) as (entries & w1 & Hloop & Hbuilt).
  simpl in Hloop.
  destruct (quiet_pack_loop credentials packs [] w) as [_ Hwritten].
  rewrite Hloop in Hwritten. simpl in Hwritten.
  rewrite (main_after_loop credentials packs w w1 entries Hloop).
  destruct packs as [|pack rest].
  - exists []. simpl. rewrite app_nil_r. split; [reflexivity | constructor].
  - destruct entries as [|e es].
    + exists []. simpl. rewrite app_nil_r. split; [exact Hwritten | constructor].
    + exists [{| updated_at := w_clock w1 (w_ticks w1); items := e :: es |}].
      simpl. rewrite Hwritten. split; [reflexivity|].
      constructor; [exact Hbuilt | constructor].
Qed.

(** One turn of the loop, started in the surroundings of [w0]: the
    entries stay as they are, or the turn adds the record of a payload
    that the pack's adapter returned. *)
Lemma process_pack_fetched (credentials : dict) (w0 : world) (entries : list entry)
    (pack : PackConfig) (w : world) :
  same_outside w0 w ->
  exists w',
    same_outside w0 w' /\
    (process_pack credentials entries pack w = (Ok entries, w') \/
     exists p, fetched_in credentials w0 pack p /\
               process_pack credentials entries pack w
               = (Ok (entries ++ [entry_of pack p])%list, w')).
Proof.
  intros Hsame.
  destruct (quiet_process_pack credentials entries pack w) as [Hout _].
  pose proof (same_outside_trans w0 w _ Hsame Hout) as Hafter.
  destruct (registry_get FETCHERS (source pack)) as [f|] eqn:Hreg.
  - rewrite (process_pack_registered credentials entries pack w f Hreg) in Hafter |- *.
    set (w1 := add_log _ w) in *.
    destruct (invoke f credentials pack w1) as [[p|e] w2] eqn:Hrun.
    + exists (tick w2). split; [exact Hafter|]. right. exists p. split; [|reflexivity].
      exists f, w1. split; [exact Hreg|]. split; [exact Hsame|].
      rewrite Hrun. reflexivity.
    + eexists. split; [exact Hafter|]. left. reflexivity.
  - rewrite (process_pack_unregistered credentials entries pack w Hreg) in Hafter |- *.
    eexists. split; [exact Hafter|]. left. reflexivity.
Qed.

(** The loop adds, in the order of its packs, records of payloads that
    the adapters returned. *)
Lemma pack_loop_fetched (credentials : dict) (w0 : world) (packs : list PackConfig) :
  forall (entries : list entry) (w : world),
    same_outside w0 w ->
    exists new w',
      pack_loop credentials entries packs w = (Ok (entries ++ new)%list, w') /\
      Forall (fun e => exists pack p,
                  In pack packs /\ fetched_in credentials w0 pack p /\
                  e = entry_of pack p) new.
Proof.
  induction packs as [|pack rest IH]; intros entries w Hsame; simpl.
  - exists [], w. rewrite app_nil_r. split; [reflexivity | constructor].
  - destruct (process_pack_fetched credentials w0 entries pack w Hsame)
      as (w1 & Hsame1 & [Hstep | (p & Hp & Hstep)]);
      erewrite bind_ok by exact Hstep.
    + destruct (IH entries w1 Hsame1) as (new & w' & Hloop & Hnew).
      exists new, w'. split; [exact Hloop|].
      eapply Forall_impl; [|exact Hnew].
      intros e (pk & q & Hin & Hq & ->). exists pk, q. simpl. auto.
    + destruct (IH (entries ++ [entry_of pack p])%list w1 Hsame1)
        as (new & w' & Hloop & Hnew).
      exists (entry_of pack p :: new), w'. split.
      * rewrite Hloop. rewrite <- app_assoc. reflexivity.
      * constructor.
        -- exists pack, p. simpl. auto.
        -- eapply Forall_impl; [|exact Hnew].
           intros e (pk & q & Hin & Hq & ->). exists pk, q. simpl. auto.
Qed.

(** C8.  Every price record a run persists is the record of a configured
    pack and of a payload that the pack's adapter returned in that run:
    it has the descriptor of the pack, the time stamp of the payload, and
    the total and the unit price of the payload passed through
    [round(_, 2)]; so does every record [build_entry] returns.

    On a finite float, [round(_, 2)] takes the integer [k] nearest to a
    hundred times the magnitude (the even one in a tie) and returns the
    float nearest to [k / 100], with the sign kept; zeros, infinities and
    NaN are returned as they are.

    The payload with total 55.999 and unit price 2.333 gives the record
    with total 56.00 and unit price 2.33; the four numbers are written as
    the binary64 numbers they are: 55.999 is 7881158610410013 * 2^-47,
    2.333 is 5253448965327684 * 2^-51, 56.0 is 7881299347898368 * 2^-47
    and 2.33 is 5246693565886628 * 2^-51. *)
Theorem persisted_prices_are_rounded :
  (forall (credentials : dict) (packs : list PackConfig) (w : world),
      exists new : list snapshot,
        w_written (snd (main credentials packs w)) = (w_written w ++ new)%list /\
        forall snap e, In snap new -> In e (items snap) ->
          exists pack p,
            In pack packs /\
            fetched_in credentials w pack p /\
            e = {| e_retailer := retailer pack;
                   e_suburb := suburb pack;
                   e_pack_size := pack_size pack;
                   e_price_total := Float.round2 (price_total p);
                   e_price_unit := Float.round2 (price_unit p);
                   e_url := url pack;
                   e_checked_at := checked_at p |})
  /\
  (forall (pack : PackConfig) (p : payload) (w : world),
      fst (build_entry pack p w)
      = Ok {| e_retailer := retailer pack;
              e_suburb := suburb pack;
              e_pack_size := pack_size pack;
              e_price_total := Float.round2 (price_total p);
              e_price_unit := Float.round2 (price_unit p);
              e_url := url pack;
              e_checked_at := checked_at p |})
  /\
  (forall (s : bool) (m : positive) (e : Z),
      exists k : Z,
        0 <= k /\
        nearest_hundredth (S754_finite false m e) k /\
        Float.round2 (S754_finite s m e)
        = match k with
          | Zpos kp => Float.of_ratio s kp 100
          | _ => S754_zero s
          end)
  /\
  (forall x : Float.float,
      match x with S754_finite _ _ _ => False | _ => True end ->
      Float.round2 x = x)
  /\
  (forall (pack : PackConfig) (t : Z) (w : world),
      exists e,
        fst (build_entry pack {| price_total := S754_finite false 7881158610410013 (-47);
                                 price_unit := S754_finite false 5253448965327684 (-51);
                                 checked_at := t |} w) = Ok e /\
        e_price_total e = S754_finite false 7881299347898368 (-47) /\
        e_price_unit e = S754_finite false 5246693565886628 (-51)).
Proof.
  split; [|split; [|split; [|split]]].
  - intros credentials packs w.
    destruct (pack_loop_fetched credentials w packs [] w (same_outside_refl w))
      as (entries & w1 & Hloop & Hfetched).
    simpl in Hloop.
    destruct (quiet_pack_loop credentials packs [] w) as [_ Hwritten].
    rewrite Hloop in Hwritten. simpl in Hwritten.
    rewrite (main_after_loop credentials packs w w1 entries Hloop).
    rewrite Forall_forall in Hfetched.
    destruct packs as [|pack rest].
    + exists []. simpl. rewrite app_nil_r. split; [reflexivity | contradiction].
    + destruct entries as [|e0 es].
      * exists []. simpl. rewrite app_nil_r. split; [exact Hwritten | contradiction].
      * exists [{| updated_at := w_clock w1 (w_ticks w1); items := e0 :: es |}].
        simpl w_written. rewrite Hwritten. split; [reflexivity|].
        intros snap e [<- | []] He. cbn [items] in He.
        destruct (Hfetched e He) as (pk & p & Hin & Hp & ->).
        exists pk, p. repeat split; assumption.
  - reflexivity.
  - apply round2_finite.
  - intros [s | s | | s m e] H; [reflexivity .. | contradiction].
  - intros pack t w. eexists. split; [reflexivity|].
    split; vm_compute; reflexivity.
Qed.

(** The decimal literals of these numbers, as [float()] reads them. *)
Example literals_of_the_sample :
  [literal "55.999"; literal "2.333"; literal "56.00"; literal "2.33"]
  = [S754_finite false 7881158610410013 (-47); S754_finite false 5253448965327684 (-51);
     S754_finite false 7881299347898368 (-47); S754_finite false 5246693565886628 (-51)].
Proof. vm_compute. reflexivity. Qed.

(** Rounding in a tie and around zero, as CPython does it. *)
Example round2_samples :
  map Float.round2 [literal "0.125"; literal "2.675"; literal "-0.001"; literal "1e300";
                    S754_nan; S754_infinity true]
  = [literal "0.12"; literal "2.67"; literal "-0.0"; literal "1e300";
     S754_nan; S754_infinity true].
Proof. vm_compute. reflexivity. Qed.

(* ===================================================================== *)
(** ** More on the path extractor *)
(* ===================================================================== *)

Lemma split_dot_nonempty (s : string) : Str.split_dot s <> [].
Proof.
  destruct s as [|c s]; simpl; [discriminate|].
  destruct (Ascii.eqb c "."); [discriminate|].
  destruct (Str.split_dot s); discriminate.
Qed.

(** Splitting at a dot that joins two strings splits both. *)
Lemma split_dot_app (p q : string) :
  Str.split_dot (p ++ "." ++ q) = (Str.split_dot p ++ Str.split_dot q)%list.
Proof.
  induction p as [|c p IH]; simpl.
  - reflexivity.
  - destruct (Ascii.eqb c ".").
    + simpl in IH. rewrite IH. reflexivity.
    + simpl in IH. rewrite IH.
      pose proof (split_dot_nonempty p) as Hne.
      destruct (Str.split_dot p); [congruence | reflexivity].
Qed.

Lemma walk_none (parts : list string) : walk VNone parts = Ok VNone.
Proof. destruct parts; reflexivity. Qed.

(** Walking a path in two stretches. *)
Lemma walk_app (front back : list string) :
  forall current,
    walk current (front ++ back) = obind (walk current front) (fun v => walk v back).
Proof.
  induction front as [|part rest IH]; intros current; simpl.
  - reflexivity.
  - destruct current as [| | | | | l | d]; simpl;
      try (rewrite walk_none; reflexivity).
    + destruct (Str.to_int part) as [idx|]; simpl; [|rewrite walk_none; reflexivity].
      destruct (Z.of_nat (length l) <=? idx); simpl; [rewrite walk_none; reflexivity|].
      destruct (list_index l idx) as [v|e]; simpl; [apply IH | reflexivity].
    + apply IH.
Qed.

(** X1.  Whatever the data and the path, [IndexError] is the only
    exception the extractor lets out. *)
Theorem extractor_raises_only_index_error :
  forall (data : value) (dotted_path : option string) (e : exn),
    extract_path data dotted_path = Raise e -> e = IndexError.
Proof.
  intros data [[|c s]|] e; simpl; try discriminate.
  apply walk_raises.
Qed.

Lemma extractor_raises_only_index_error_witness :
  extract_path (VList [VInt 1; VInt 2]) (Some "-3") = Raise IndexError /\
  IndexError = IndexError.
Proof.
  split; [reflexivity|].
  apply (extractor_raises_only_index_error (VList [VInt 1; VInt 2]) (Some "-3")).
  reflexivity.
Defined.

(** X2.  A path none of whose segments reads as a negative integer is
    extracted without an exception, on any data. *)
Theorem extractor_total_without_negative_segment :
  forall (data : value) (p : string),
    forallb nonnegative_segment (Str.split_dot p) = true ->
    exists v, extract_path data (Some p) = Ok v.
Proof.
  intros data p Hsegs.
  assert (Hwalk : exists v, walk data (Str.split_dot p) = Ok v).
  { apply walk_total. apply Forall_forall. intros part Hin idx Hidx.
    rewrite forallb_forall in Hsegs. specialize (Hsegs part Hin).
    unfold nonnegative_segment in Hsegs. rewrite Hidx in Hsegs.
    apply Z.leb_le. exact Hsegs. }
  destruct p; [eexists; reflexivity | exact Hwalk].
Qed.

Lemma extractor_total_without_negative_segment_witness :
  exists v, extract_path (VList [VDict [("b", VInt 5)]]) (Some " 0 .b.7") = Ok v.
Proof.
  apply extractor_total_without_negative_segment. reflexivity.
Defined.

(** X3.  A path made of two non-empty paths joined by a dot is extracted
    by extracting the first and, from what it gives, the second. *)
Theorem extractor_composes :
  forall (data : value) (p q : string),
    p <> "" -> q <> "" ->
    extract_path data (Some (p ++ "." ++ q)) =
    obind (extract_path data (Some p)) (fun v => extract_path v (Some q)).
Proof.
  intros data p q Hp Hq.
  destruct p as [|c p]; [congruence|].
  destruct q as [|c' q]; [congruence|].
  unfold extract_path.
  change (String c p ++ "." ++ String c' q) with (String c (p ++ "." ++ String c' q)).
  cbv iota.
  change (String c (p ++ "." ++ String c' q)) with (String c p ++ "." ++ String c' q).
  rewrite split_dot_app. apply walk_app.
Qed.

Lemma extractor_composes_witness :
  extract_path (liquorland_data (VInt 48)) (Some ("data.product" ++ "." ++ "pricing.current"))
  = obind (extract_path (liquorland_data (VInt 48)) (Some "data.product"))
          (fun v => extract_path v (Some "pricing.current")).
Proof. apply extractor_composes; discriminate. Defined.

Lemma dict_get_absent (d : dict) (key : string) :
  Dict.mem d key = false -> Dict.get d key = VNone.
Proof.
  induction d as [|[k v] d' IH]; simpl; [reflexivity|].
  destruct (String.eqb k key); simpl; [discriminate | exact IH].
Qed.

(** X4.  One step into a list, for a dotless segment that reads as the
    integer [idx]: absent from [len] on, [IndexError] below [-len], and
    otherwise the element at [idx], counted from the end when [idx] is
    negative. *)
Theorem extractor_list_step :
  forall (l : list value) (p : string) (idx : Z),
    Str.split_dot p = [p] ->
    Str.to_int p = Some idx ->
    extract_path (VList l) (Some p) =
    if Z.of_nat (length l) <=? idx then Ok VNone
    else if idx <? - Z.of_nat (length l) then Raise IndexError
    else Ok (nth (Z.to_nat (idx mod Z.of_nat (length l))) l VNone).
Proof.
  intros l p idx Hsplit Hidx.
  destruct p as [|c p]; [discriminate Hidx|].
  change (extract_path (VList l) (Some (String c p)))
    with (walk (VList l) (Str.split_dot (String c p))).
  rewrite Hsplit. cbn [walk]. rewrite Hidx.
  destruct (Z.leb_spec (Z.of_nat (length l)) idx) as [Hge | Hlt]; [reflexivity|].
  unfold list_index. cbv zeta.
  destruct (Z.ltb_spec idx 0) as [Hneg | Hpos]; cbv iota.
  - destruct (Z.ltb_spec (idx + Z.of_nat (length l)) 0) as [Hlow | Hlow].
    + cbn [orb obind].
      destruct (Z.ltb_spec idx (- Z.of_nat (length l))); [reflexivity | lia].
    + destruct (Z.leb_spec (Z.of_nat (length l)) (idx + Z.of_nat (length l))); [lia|].
      cbn [orb].
      destruct (Z.ltb_spec idx (- Z.of_nat (length l))); [lia|].
      replace (idx mod Z.of_nat (length l)) with (idx + Z.of_nat (length l)).
      * destruct (nth_error l (Z.to_nat (idx + Z.of_nat (length l)))) as [v|] eqn:Hnth.
        -- cbn [obind]. f_equal. symmetry. apply nth_error_nth. exact Hnth.
        -- apply nth_error_None in Hnth. lia.
      * rewrite <- (Z_mod_plus_full idx 1 (Z.of_nat (length l))).
        rewrite Z.mul_1_l. symmetry. apply Z.mod_small. lia.
  - destruct (Z.ltb_spec idx 0); [lia|].
    destruct (Z.leb_spec (Z.of_nat (length l)) idx); [lia|].
    cbn [orb].
    destruct (Z.ltb_spec idx (- Z.of_nat (length l))); [lia|].
    rewrite Z.mod_small by lia.
    destruct (nth_error l (Z.to_nat idx)) as [v|] eqn:Hnth.
    + cbn [obind]. f_equal. symmetry. apply nth_error_nth. exact Hnth.
    + apply nth_error_None in Hnth. lia.
Qed.

Lemma extractor_list_step_witness :
  extract_path (VList [VInt 10; VInt 20; VInt 30]) (Some " +1 ") = Ok (VInt 20) /\
  extract_path (VList [VInt 10; VInt 20; VInt 30]) (Some "-1") = Ok (VInt 30) /\
  extract_path (VList [VInt 10; VInt 20; VInt 30]) (Some "3") = Ok VNone /\
  extract_path (VList [VInt 10; VInt 20; VInt 30]) (Some "-4") = Raise IndexError.
Proof.
  split; [|split; [|split]].
  - apply (extractor_list_step [VInt 10; VInt 20; VInt 30] " +1 " 1); reflexivity.
  - apply (extractor_list_step [VInt 10; VInt 20; VInt 30] "-1" (-1)); reflexivity.
  - apply (extractor_list_step [VInt 10; VInt 20; VInt 30] "3" 3); reflexivity.
  - apply (extractor_list_step [VInt 10; VInt 20; VInt 30] "-4" (-4)); reflexivity.
Defined.

(** X5.  On [None] and on a scalar (a boolean, a number, a string) every
    path gives absent. *)
Theorem extractor_stops_at_leaf :
  forall (data : value) (dotted_path : option string),
    is_leaf data = true -> extract_path data dotted_path = Ok VNone.
Proof.
  intros data [[|c s]|] Hleaf; try reflexivity.
  change (extract_path data (Some (String c s)))
    with (walk data (Str.split_dot (String c s))).
  pose proof (split_dot_nonempty (String c s)) as Hne.
  destruct (Str.split_dot (String c s)) as [|part rest]; [congruence|].
  destruct data; try reflexivity; discriminate Hleaf.
Qed.

Lemma extractor_stops_at_leaf_witness :
  extract_path (VStr "12.50") (Some "0") = Ok VNone.
Proof. apply extractor_stops_at_leaf. reflexivity. Defined.

(** X6.  On a dict, a path whose first segment is not a key gives absent,
    however long the path. *)
Theorem extractor_missing_key :
  forall (d : dict) (p first : string) (rest : list string),
    p <> "" ->
    Str.split_dot p = first :: rest ->
    Dict.mem d first = false ->
    extract_path (VDict d) (Some p) = Ok VNone.
Proof.
  intros d p first rest Hp Hsplit Hmem.
  destruct p as [|c p]; [congruence|].
  change (extract_path (VDict d) (Some (String c p)))
    with (walk (VDict d) (Str.split_dot (String c p))).
  rewrite Hsplit. cbn [walk]. rewrite (dict_get_absent d first Hmem).
  apply walk_none.
Qed.

Lemma extractor_missing_key_witness :
  extract_path (VDict [("data", VDict [("product", VInt 1)])]) (Some "Data.product.-9")
  = Ok VNone.
Proof.
  apply (extractor_missing_key _ "Data.product.-9" "Data" ["product"; "-9"]);
    [discriminate | reflexivity | reflexivity].
Defined.

(* ===================================================================== *)
(** ** Request headers *)
(* ===================================================================== *)

Lemma dict_get_set_cases (d : dict) (key key' : string) (v : value) :
  Dict.get (Dict.set d key v) key' = if String.eqb key key' then v else Dict.get d key'.
Proof.
  destruct (String.eqb_spec key key') as [<- | Hne].
  - apply dict_get_set.
  - apply dict_get_set_other. exact Hne.
Qed.

Lemma dict_get_update (hs : list (string * string)) (key : string) :
  forall d : dict,
    Dict.get (Dict.update d (map (fun kv => (fst kv, VStr (snd kv))) hs)) key =
    match custom_header hs key with
    | Some v => VStr v
    | None => Dict.get d key
    end.
Proof.
  unfold Dict.update.
  induction hs as [|[k v] hs' IH]; intros d; simpl.
  - reflexivity.
  - rewrite IH. destruct (custom_header hs' key); [reflexivity|].
    rewrite dict_get_set_cases. destruct (String.eqb k key); reflexivity.
Qed.

(** X7.  In the normalised headers a name has the value the pack's own
    headers give it, and otherwise its default: the fixed user agent for
    ["User-Agent"], ["application/json"] for ["Accept"], nothing for any
    other name. *)
Theorem normalise_headers_lookup :
  forall (h : option (list (string * string))) (key : string),
    Dict.get (normalise_headers h) key =
    match match h with Some hs => custom_header hs key | None => None end with
    | Some v => VStr v
    | None => Dict.get default_headers key
    end.
Proof.
  intros [[|kv hs]|] key; try reflexivity.
  unfold normalise_headers. apply dict_get_update.
Qed.

(** The names of a dict after an assignment. *)
Lemma dict_keys_set (d : dict) (key : string) (v : value) :
  map fst (Dict.set d key v) =
  if Dict.mem d key then map fst d else (map fst d ++ [key])%list.
Proof.
  induction d as [|[k v'] d' IH]; simpl.
  - reflexivity.
  - destruct (String.eqb k key) eqn:E; simpl.
    + reflexivity.
    + rewrite IH. destruct (Dict.mem d' key); reflexivity.
Qed.

Lemma dict_mem_in (d : dict) (key : string) :
  Dict.mem d key = true <-> In key (map fst d).
Proof.
  induction d as [|[k v] d' IH]; simpl.
  - split; [discriminate | contradiction].
  - rewrite orb_true_iff, IH. rewrite String.eqb_eq. tauto.
Qed.

Lemma dict_set_nodup (d : dict) (key : string) (v : value) :
  NoDup (map fst d) -> NoDup (map fst (Dict.set d key v)).
Proof.
  intros Hnd. rewrite dict_keys_set.
  destruct (Dict.mem d key) eqn:Hmem; [exact Hnd|].
  apply NoDup_app; [exact Hnd | repeat constructor; simpl; tauto |].
  intros k Hin [<- | []].
  apply dict_mem_in in Hin. congruence.
Qed.

Lemma dict_set_mem (d : dict) (key key' : string) (v : value) :
  Dict.mem d key' = true -> Dict.mem (Dict.set d key v) key' = true.
Proof.
  intros Hmem. apply dict_mem_in. rewrite dict_keys_set.
  apply dict_mem_in in Hmem.
  destruct (Dict.mem d key); [exact Hmem | apply in_or_app; auto].
Qed.

Lemma well_formed_set (d : dict) (key : string) (v : value) :
  well_formed_headers d -> well_formed_headers (Dict.set d key v).
Proof.
  intros (Hnd & Hua & Hacc).
  repeat split; [apply dict_set_nodup, Hnd | apply dict_set_mem, Hua | apply dict_set_mem, Hacc].
Qed.

Lemma well_formed_setdefault (d : dict) (key : string) (v : value) :
  well_formed_headers d -> well_formed_headers (Dict.setdefault d key v).
Proof.
  intros H. unfold Dict.setdefault.
  destruct (Dict.mem d key); [exact H | apply well_formed_set, H].
Qed.

Lemma well_formed_update (other d : dict) :
  well_formed_headers d -> well_formed_headers (Dict.update d other).
Proof.
  unfold Dict.update. revert d.
  induction other as [|[k v] other' IH]; intros d H; simpl.
  - exact H.
  - apply IH, well_formed_set, H.
Qed.

Lemma well_formed_normalise (h : option (list (string * string))) :
  well_formed_headers (normalise_headers h).
Proof.
  assert (Hbase : well_formed_headers default_headers).
  { split; [|split; reflexivity].
    repeat constructor; simpl; intuition discriminate. }
  unfold normalise_headers. destruct h as [[|kv hs]|]; try exact Hbase.
  apply well_formed_update. exact Hbase.
Qed.

(** X8.  The headers of a request an adapter builds have pairwise
    distinct names, and ["User-Agent"] and ["Accept"] are among them. *)
Theorem request_headers_well_formed :
  forall (f : fetcher) (pack : PackConfig) (credentials : dict) (w : world)
         (r : request) (hs : dict),
    fst (adapter_request f pack credentials w) = Ok r ->
    req_headers r = Some hs ->
    NoDup (map fst hs) /\ Dict.mem hs "User-Agent" = true /\ Dict.mem hs "Accept" = true.
Proof.
  intros f pack credentials w r hs Hreq Hhs.
  change (well_formed_headers hs).
  pose proof (well_formed_normalise (headers pack)) as Hn.
  destruct f; simpl in Hreq.
  - unfold dan_murphys_request in Hreq.
    destruct (nonempty (product_id pack)); [|discriminate].
    injection Hreq as <-. discriminate Hhs.
  - unfold bws_request in Hreq.
    destruct (nonempty (product_id pack)); [|discriminate].
    injection Hreq as <-. injection Hhs as <-.
    apply well_formed_setdefault, well_formed_setdefault, Hn.
  - unfold liquorland_like_request in Hreq.
    destruct (nonempty (product_id pack)); [|discriminate].
    injection Hreq as <-. injection Hhs as <-.
    apply well_formed_setdefault, well_formed_setdefault, Hn.
  - unfold coles_request, bind in Hreq.
    destruct (coles_api_key credentials w) as [[key|e] w1]; [|discriminate].
    destruct (truthy key); [|discriminate]. cbn [negb] in Hreq.
    destruct (nonempty (product_id pack)); [|discriminate].
    injection Hreq as <-. injection Hhs as <-.
    apply well_formed_set, Hn.
  - unfold woolworths_request in Hreq.
    destruct (nonempty (product_id pack)); [|discriminate].
    injection Hreq as <-. injection Hhs as <-. exact Hn.
Qed.

Lemma request_headers_well_formed_witness :
  let pack :=
    {| retailer := "BWS"; suburb := ""; pack_size := 10; url := ""; source := "bws";
       product_id := Some "123"; store_id := None;
       headers := Some [("Accept", "text/html"); ("Origin", "https://example.com");
                        ("Accept", "*/*")];
       extra := None |} in
  exists hs,
    option_map req_headers
      (match bws_request pack with Ok r => Some r | Raise _ => None end) = Some (Some hs) /\
    NoDup (map fst hs) /\ Dict.mem hs "User-Agent" = true /\ Dict.mem hs "Accept" = true.
Proof.
  intros pack. eexists. split; [reflexivity|].
  eapply (request_headers_well_formed Fetch_bws pack [] (sample_world (always VNone)));
    reflexivity.
Defined.

(* ===================================================================== *)
(** ** What an adapter does to the world *)
(* ===================================================================== *)

(** The exchange sends the request and does nothing else, whatever its
    outcome. *)
Lemma fetch_json_world (r : request) (w : world) :
  snd (fetch_json r w) = add_sent r w.
Proof.
  unfold fetch_json, bind, send, lift.
  destruct (w_http w r) as [|st body]; simpl; [reflexivity|].
  destruct (raise_for_status _); simpl; [|reflexivity].
  destruct body; reflexivity.
Qed.

(** The closing statements read the clock once when they return a
    payload, stamp the payload with the reading, and otherwise leave the
    world as it was. *)
Lemma price_payload_clock (msg : string) (pack : PackConfig) (total unit : value)
    (w : world) :
  match price_payload msg pack total unit w with
  | (Ok p, w') => checked_at p = w_clock w (w_ticks w) /\ w' = tick w
  | (Raise _, w') => w' = w
  end.
Proof.
  unfold price_payload, bind, lift, raise, ret, time_now.
  destruct (is_none total); simpl; [reflexivity|].
  destruct (if is_none unit && negb (pack_size pack =? 0) then _ else _) as [u|e];
    simpl; [|reflexivity].
  destruct (py_float total); simpl; [|reflexivity].
  destruct (py_float u); simpl; [split; reflexivity | reflexivity].
Qed.

(** The three ways a fetch can go. *)
Lemma fetch_run (f : fetcher) (pack : PackConfig) (credentials : dict) (w : world) :
  (exists e, fetch f pack credentials w = (Raise e, w)) \/
  (exists r e, fetch f pack credentials w = (Raise e, add_sent r w)) \/
  (exists r p, fetch f pack credentials w = (Ok p, tick (add_sent r w)) /\
               checked_at p = w_clock w (w_ticks w)).
Proof.
  rewrite fetch_steps.
  pose proof (adapter_request_world f pack credentials w) as Hw.
  destruct (adapter_request f pack credentials w) as [[r|e] w1] eqn:Hrun;
    simpl in Hw; subst w1.
  - erewrite bind_ok by exact Hrun. right.
    pose proof (fetch_json_world r w) as Hj.
    destruct (fetch_json r w) as [[data|e] w2] eqn:Hjson; simpl in Hj; subst w2.
    + erewrite bind_ok by exact Hjson.
      destruct (adapter_prices f data) as [prices|e].
      * rewrite bind_lift_ok.
        pose proof (price_payload_clock (missing_price f) pack (fst prices)
                      (snd prices) (add_sent r w)) as Hp.
        destruct (price_payload _ _ _ _ _) as [[p|e] w3].
        -- destruct Hp as [Hstamp ->]. right. exists r, p. split; [reflexivity|].
           exact Hstamp.
        -- subst w3. left. eauto.
      * rewrite bind_lift_raise. left. eauto.
    + erewrite bind_raise by exact Hjson. left. eauto.
  - erewrite bind_raise by exact Hrun. left. eauto.
Qed.

(** X9.  An adapter sends at most one request; it reads the clock once
    if it returns a payload, whose time stamp is that reading, and not at
    all if it fails; it never logs and never writes the data file. *)
Theorem adapter_footprint :
  forall (f : fetcher) (pack : PackConfig) (credentials : dict) (w : world),
    let w' := snd (fetch f pack credentials w) in
    (w_sent w' = w_sent w \/ exists r, w_sent w' = (w_sent w ++ [r])%list) /\
    match fst (fetch f pack credentials w) with
    | Ok p => checked_at p = w_clock w (w_ticks w) /\ w_ticks w' = S (w_ticks w)
    | Raise _ => w_ticks w' = w_ticks w
    end /\
    w_log w' = w_log w /\
    w_written w' = w_written w.
Proof.
  intros f pack credentials w. cbv zeta.
  destruct (fetch_run f pack credentials w)
    as [[e ->] | [(r & e & ->) | (r & p & -> & Hstamp)]]; simpl.
  - repeat split; auto.
  - repeat split; eauto.
  - repeat split; eauto.
Qed.

(* ===================================================================== *)
(** ** How an adapter fails *)
(* ===================================================================== *)

(** X10.  Without a product identifier an adapter raises its
    "product_id required" error, and the world is as it was: nothing has
    been sent.  (For Coles, whose API key is checked first, the key must
    be there.) *)
Theorem missing_product_id_sends_nothing :
  forall (f : fetcher) (pack : PackConfig) (credentials : dict) (w : world),
    nonempty (product_id pack) = None ->
    (f = Fetch_coles ->
     exists key, fst (coles_api_key credentials w) = Ok key /\ truthy key = true) ->
    fetch f pack credentials w = (Raise (ValueError (product_required f)), w).
Proof.
  intros f pack credentials w Hpid Hkey.
  apply fetch_not_sent.
  destruct f; simpl;
    try (unfold dan_murphys_request, bws_request, liquorland_like_request,
           woolworths_request; rewrite Hpid; reflexivity).
  destruct (Hkey eq_refl) as (key & Hrun & Htruthy).
  unfold coles_request, bind.
  assert (Hw : snd (coles_api_key credentials w) = w).
  { unfold coles_api_key.
    destruct (truthy (Dict.get credentials "coles_api_key")); reflexivity. }
  destruct (coles_api_key credentials w) as [o w1]. simpl in Hrun, Hw. subst o w1.
  rewrite Htruthy. cbn [negb]. rewrite Hpid. reflexivity.
Qed.

Lemma missing_product_id_sends_nothing_witness :
  let pack src :=
    {| retailer := "Retailer"; suburb := ""; pack_size := 10; url := ""; source := src;
       product_id := Some ""; store_id := None; headers := None; extra := None |} in
  fetch_woolworths (pack "woolworths") (sample_world (always VNone))
  = (Raise (ValueError "product_id required for Woolworths"), sample_world (always VNone))
  /\
  fetch_coles (pack "coles") [("coles_api_key", VStr "key")] (sample_world (always VNone))
  = (Raise (ValueError "product_id required for Coles"), sample_world (always VNone)).
Proof.
  intros pack. split.
  - apply (missing_product_id_sends_nothing Fetch_woolworths (pack "woolworths") []);
      [reflexivity | discriminate].
  - apply (missing_product_id_sends_nothing Fetch_coles (pack "coles")
             [("coles_api_key", VStr "key")]); [reflexivity|].
    intros _. exists (VStr "key"). split; reflexivity.
Defined.

(** X11.  Once the request is built, a failed exchange is the adapter's
    failure, with the request sent and nothing else done: no reply is a
    [ConnectionError], a status from 400 to 599 an [HTTPError] with that
    status (whatever the body), and a body that is not JSON a
    [JSONDecodeError]. *)
Theorem failed_exchange_is_raised :
  forall (f : fetcher) (pack : PackConfig) (credentials : dict) (w : world)
         (r : request),
    fst (adapter_request f pack credentials w) = Ok r ->
    (w_http w r = NoReply ->
     fetch f pack credentials w = (Raise ConnectionError, add_sent r w)) /\
    (forall st body,
        w_http w r = Reply st body -> 400 <= st < 600 ->
        fetch f pack credentials w = (Raise (HTTPError st), add_sent r w)) /\
    (forall st,
        w_http w r = Reply st None -> st < 400 \/ 600 <= st ->
        fetch f pack credentials w = (Raise JSONDecodeError, add_sent r w)).
Proof.
  intros f pack credentials w r Hreq.
  assert (Hstep : forall e, fetch_json r w = (Raise e, add_sent r w) ->
                            fetch f pack credentials w = (Raise e, add_sent r w)).
  { intros e Hj. rewrite fetch_steps.
    pose proof (adapter_request_world f pack credentials w) as Hw.
    destruct (adapter_request f pack credentials w) as [o w1] eqn:Hrun.
    simpl in Hreq, Hw. subst o w1.
    erewrite bind_ok by exact Hrun.
    erewrite bind_raise by exact Hj. reflexivity. }
  split; [|split].
  - intros Hr. apply Hstep. unfold fetch_json, bind, send. rewrite Hr. reflexivity.
  - intros st body Hr [Hlo Hhi]. apply Hstep.
    unfold fetch_json, bind, send. rewrite Hr. unfold lift, raise_for_status. simpl.
    destruct (Z.leb_spec 400 st); [|lia]. destruct (Z.ltb_spec st 600); [|lia].
    reflexivity.
  - intros st Hr Hst. apply Hstep.
    unfold fetch_json, bind, send. rewrite Hr. unfold lift, raise_for_status. simpl.
    destruct (Z.leb_spec 400 st); destruct (Z.ltb_spec st 600); simpl;
      try reflexivity; lia.
Qed.

Lemma failed_exchange_is_raised_witness :
  fst (fetch_bws (sample_pack "bws" 24) (sample_world (fun _ => NoReply)))
    = Raise ConnectionError /\
  fst (fetch_bws (sample_pack "bws" 24)
         (sample_world (fun _ => Reply 503 (Some (nested "price" "current" (VInt 48))))))
    = Raise (HTTPError 503) /\
  fst (fetch_bws (sample_pack "bws" 24) (sample_world (fun _ => Reply 200 None)))
    = Raise JSONDecodeError.
Proof.
  assert (T : forall reply,
             exists r,
               fst (adapter_request Fetch_bws (sample_pack "bws" 24) []
                      (sample_world reply)) = Ok r)
    by (intros reply; eexists; reflexivity).
  split; [|split].
  - destruct (T (fun _ => NoReply)) as [r Hr].
    destruct (failed_exchange_is_raised Fetch_bws _ _ _ r Hr) as (H & _ & _).
    change (fetch_bws (sample_pack "bws" 24))
      with (fetch Fetch_bws (sample_pack "bws" 24) []).
    rewrite H; reflexivity.
  - destruct (T (fun _ => Reply 503 (Some (nested "price" "current" (VInt 48)))))
      as [r Hr].
    destruct (failed_exchange_is_raised Fetch_bws _ _ _ r Hr) as (_ & H & _).
    change (fetch_bws (sample_pack "bws" 24))
      with (fetch Fetch_bws (sample_pack "bws" 24) []).
    rewrite (H 503 (Some (nested "price" "current" (VInt 48)))); [reflexivity.. | lia].
  - destruct (T (fun _ => Reply 200 None)) as [r Hr].
    destruct (failed_exchange_is_raised Fetch_bws _ _ _ r Hr) as (_ & _ & H).
    change (fetch_bws (sample_pack "bws" 24))
      with (fetch Fetch_bws (sample_pack "bws" 24) []).
    rewrite (H 200); [reflexivity | reflexivity | lia].
Defined.

(** X12.  A unit price found in the response is the unit price of the
    payload, whatever the pack size: the quotient is computed only when
    the response has none. *)
Theorem explicit_unit_price_is_kept :
  forall (f : fetcher) (pack : PackConfig) (credentials : dict) (w : world)
         (r : request) (data total unit : value) (t u : Float.float),
    answered f pack credentials w r data ->
    adapter_prices f data = Ok (total, unit) ->
    py_float total = Ok t ->
    py_float unit = Ok u ->
    exists (p : payload) (w' : world),
      fetch f pack credentials w = (Ok p, w') /\
      price_total p = t /\
      price_unit p = u.
Proof.
  intros f pack credentials w r data total unit t u [Hreq Hans] Hprices Ht Hu.
  rewrite (fetch_answered f pack credentials w r data total unit Hreq Hans Hprices).
  rewrite (price_payload_explicit _ pack total unit t u _ Ht Hu).
  eexists _, _. split; [reflexivity | split; reflexivity].
Qed.

Lemma explicit_unit_price_is_kept_witness :
  exists p w',
    fetch Fetch_bws (sample_pack "bws" 0) []
      (sample_world (always (VDict [("price", VDict [("current", VInt 48);
                                                     ("perItem", VStr "2.5")])])))
    = (Ok p, w') /\
    price_total p = Float.of_Z 48 /\
    price_unit p = literal "2.5".
Proof.
  eapply (explicit_unit_price_is_kept Fetch_bws (sample_pack "bws" 0) []
            _ _ _ (VInt 48) (VStr "2.5")).
  - split; [reflexivity | exists 200; split; [reflexivity | lia]].
  - reflexivity.
  - reflexivity.
  - reflexivity.
Defined.

(* ===================================================================== *)
(** ** The "missing price" error *)
(* ===================================================================== *)

Lemma py_get_raises (v : value) (key : string) (e : exn) :
  py_get v key = Raise e -> e = AttributeError.
Proof. destruct v; simpl; congruence. Qed.

Lemma or_else_raises (a : value) (b : outcome value) (e : exn) :
  or_else a b = Raise e -> b = Raise e.
Proof. unfold or_else. destruct (truthy a); [discriminate | auto]. Qed.

(** Takes a failed computation apart along its binds and tests. *)
Ltac raise_inv H :=
  repeat match type of H with
         | obind ?c _ = Raise _ =>
             let E := fresh "E" in destruct c eqn:E; cbn [obind] in H
         | or_else _ _ = Raise _ => apply or_else_raises in H
         | (if ?b then _ else _) = Raise _ => destruct b
         | Ok _ = Raise _ => discriminate H
         end.

(** Closes a goal about the exception of a failed lookup. *)
Ltac raise_close :=
  repeat match goal with
         | H : or_else _ _ = Raise _ |- _ => apply or_else_raises in H
         | H : Ok _ = Raise _ |- _ => discriminate H
         | H : py_get _ _ = Raise _ |- _ => left; exact (py_get_raises _ _ _ H)
         | H : extract_path _ _ = Raise _ |- _ =>
             right; left; exact (extract_path_raises _ _ _ H)
         end.

(** The exceptions of the price lookups: a method call on something that
    is no dict, and the two "nothing found" errors. *)
Lemma adapter_prices_raises (f : fetcher) (data : value) (e : exn) :
  adapter_prices f data = Raise e ->
  e = AttributeError \/ e = IndexError \/
  e = ValueError "Unable to locate price data for Dan Murphy's response" \/
  e = ValueError "Liquorland API missing product node".
Proof.
  destruct f; simpl; intros H.
  - unfold dan_murphys_prices in H.
    destruct (dan_murphys_price_info data) as [price_info|e0] eqn:E; cbn [obind] in H.
    + raise_inv H; try (injection H as <-); raise_close; auto 6.
    + injection H as <-. unfold dan_murphys_price_info in E.
      destruct data as [| | | | | |d]; try discriminate.
      destruct (_ && _); [|discriminate].
      destruct (py_or _ _) as [| | | | | [|first rest] |]; try discriminate.
      raise_inv E; try (injection E as <-); raise_close; auto 6.
  - unfold bws_prices in H. raise_inv H; try (injection H as <-); raise_close; auto 6.
  - unfold liquorland_like_prices in H.
    raise_inv H; try (injection H as <-); raise_close; auto 6.
  - unfold coles_prices in H. raise_inv H; try (injection H as <-); raise_close; auto 6.
  - unfold woolworths_prices in H.
    raise_inv H; try (injection H as <-); raise_close; auto 6.
Qed.

Lemma py_float_raises (v : value) (e : exn) :
  py_float v = Raise e ->
  e = ValueError "could not convert string to float" \/ e = TypeError \/ e = OverflowError.
Proof.
  destruct v as [| b | z | x | s | l | d]; simpl; intros H; try (injection H as <-; auto);
    try discriminate.
  - unfold float_of_int in H. destruct (Float.of_Z z); try discriminate.
    injection H as <-. auto.
  - destruct (Str.to_float s); [discriminate|]. injection H as <-. auto.
Qed.

Lemma float_truediv_raises (x : Float.float) (n : Z) (e : exn) :
  float_truediv x n = Raise e -> e = OverflowError \/ e = ZeroDivisionError.
Proof.
  unfold float_truediv, float_of_int.
  destruct (Float.of_Z n); simpl; intros H; try discriminate;
    try (injection H as <-; auto).
Qed.

(** With a total price, the closing statements fail only in a conversion
    or in the division. *)
Lemma price_payload_raises (msg : string) (pack : PackConfig) (total unit : value)
    (w : world) (e : exn) :
  is_none total = false ->
  fst (price_payload msg pack total unit w) = Raise e ->
  e = ValueError "could not convert string to float" \/ e = TypeError \/
  e = OverflowError \/ e = ZeroDivisionError.
Proof.
  intros Hnone. unfold price_payload. rewrite Hnone.
  unfold bind, lift, ret, time_now.
  destruct (is_none unit && negb (pack_size pack =? 0)).
  - destruct (py_float total) as [t|e1] eqn:Ht; cbn [obind].
    + destruct (float_truediv t (pack_size pack)) as [q|e2] eqn:Hq; cbn [obind fst].
      * simpl. discriminate.
      * intros [= <-]. destruct (float_truediv_raises _ _ _ Hq) as [-> | ->]; auto.
    + simpl. intros [= <-]. destruct (py_float_raises _ _ Ht) as [-> | [-> | ->]]; auto.
  - destruct (py_float total) as [t|e1] eqn:Ht; simpl.
    + destruct (py_float unit) as [u|e2] eqn:Hu; simpl; [discriminate|].
      intros [= <-]. destruct (py_float_raises _ _ Hu) as [-> | [-> | ->]]; auto.
    + intros [= <-]. destruct (py_float_raises _ _ Ht) as [-> | [-> | ->]]; auto.
Qed.

(** X13.  An adapter whose request is answered raises its "missing
    price" error exactly when its lookup finds no total price ([None]):
    no other failure carries that message. *)
Theorem missing_price_iff_no_total :
  forall (f : fetcher) (pack : PackConfig) (credentials : dict) (w : world)
         (r : request) (data : value),
    answered f pack credentials w r data ->
    (fst (fetch f pack credentials w) = Raise (ValueError (missing_price f)) <->
     exists unit, adapter_prices f data = Ok (VNone, unit)).
Proof.
  intros f pack credentials w r data [Hreq Hans]. split.
  - intros Hraise.
    destruct (adapter_prices f data) as [[total unit]|e] eqn:Hprices.
    + rewrite (fetch_answered f pack credentials w r data total unit Hreq Hans Hprices)
        in Hraise.
      destruct total; try (exists unit; reflexivity);
        (apply price_payload_raises in Hraise; [|reflexivity];
         destruct Hraise as [H | [H | [H | H]]]; try discriminate H;
         destruct f; discriminate H).
    + rewrite (fetch_answered_raise f pack credentials w r data e Hreq Hans Hprices)
        in Hraise.
      simpl in Hraise. injection Hraise as ->.
      destruct (adapter_prices_raises f data _ Hprices) as [H | [H | [H | H]]];
        try discriminate H; destruct f; discriminate H.
  - intros [unit Hprices].
    rewrite (fetch_answered f pack credentials w r data VNone unit Hreq Hans Hprices).
    reflexivity.
Qed.

Lemma missing_price_iff_no_total_witness :
  fst (fetch Fetch_woolworths (sample_pack "woolworths" 24) []
         (sample_world (always (VDict [("Name", VStr "Hard Rated")]))))
  = Raise (ValueError "Woolworths response missing price").
Proof.
  apply (missing_price_iff_no_total Fetch_woolworths (sample_pack "woolworths" 24) []
           (sample_world (always (VDict [("Name", VStr "Hard Rated")])))
           {| req_method := GET;
              req_url := "https://www.woolworths.com.au/apis/ui/products/123";
              req_headers := Some default_headers; req_json := None; req_timeout := 20 |}
           (VDict [("Name", VStr "Hard Rated")])).
  - split; [reflexivity | exists 200; split; [reflexivity | lia]].
  - exists VNone. reflexivity.
Defined.

(** X14.  A response that is JSON but not an object makes every adapter
    fail, each in its way: Dan Murphy's and Liquorland / First Choice
    with their "nothing found" errors, Coles and Woolworths with their
    "missing price" errors, BWS with the [AttributeError] of calling
    [.get] on it. *)
Theorem non_object_response_fails :
  forall (f : fetcher) (pack : PackConfig) (credentials : dict) (w : world)
         (r : request) (data : value),
    answered f pack credentials w r data ->
    is_dict data = false ->
    fetch f pack credentials w = (Raise (non_object_error f), add_sent r w).
Proof.
  intros f pack credentials w r data [Hreq Hans] Hdata.
  destruct f.
  - apply (fetch_answered_raise Fetch_dan_murphys pack credentials w r data _ Hreq Hans).
    destruct data; try reflexivity; discriminate Hdata.
  - apply (fetch_answered_raise Fetch_bws pack credentials w r data _ Hreq Hans).
    destruct data; try reflexivity; discriminate Hdata.
  - apply (fetch_answered_raise Fetch_liquorland_like pack credentials w r data _ Hreq Hans).
    destruct data; try reflexivity; discriminate Hdata.
  - rewrite (fetch_answered Fetch_coles pack credentials w r data VNone VNone Hreq Hans).
    + reflexivity.
    + destruct data; try reflexivity; discriminate Hdata.
  - rewrite (fetch_answered Fetch_woolworths pack credentials w r data VNone VNone
               Hreq Hans).
    + reflexivity.
    + destruct data; try reflexivity; discriminate Hdata.
Qed.

Lemma non_object_response_fails_witness :
  Forall
    (fun f => fst (fetch f (sample_pack "any" 24) [("coles_api_key", VStr "key")]
                     (sample_world (always (VList [VInt 1]))))
              = Raise (non_object_error f))
    [Fetch_dan_murphys; Fetch_bws; Fetch_liquorland_like; Fetch_coles; Fetch_woolworths].
Proof.
  repeat apply Forall_cons; try apply Forall_nil;
    (erewrite non_object_response_fails;
     [ reflexivity
     | split; [reflexivity | exists 200; split; [reflexivity | lia]]
     | reflexivity ]).
Defined.

(* ===================================================================== *)
(** ** Where the adapters look for prices *)
(* ===================================================================== *)

(** X15.  Dan Murphy's, the way through ["Products"]: when the response
    has no price object under ["Price"] or ["price"], has the key
    ["Products"], and the first product carries a price object, the
    prices are looked up in that object exactly as they are in a price
    object at the top. *)
Theorem dan_murphys_products_fallback :
  forall (d first pi : dict) (rest : list value),
    truthy (py_or (Dict.get d "Price") (Dict.get d "price")) = false ->
    Dict.mem d "Products" = true ->
    py_or (Dict.get d "Products") (Dict.get d "products") = VList (VDict first :: rest) ->
    py_or (Dict.get first "Price") (Dict.get first "price") = VDict pi ->
    pi <> [] ->
    dan_murphys_prices (VDict d) = dan_murphys_prices (VDict [("Price", VDict pi)]).
Proof.
  intros d first pi rest Htop Hmem Hproducts Hfirst Hpi.
  rewrite (dan_murphys_prices_of_price [("Price", VDict pi)] pi eq_refl Hpi).
  unfold dan_murphys_prices, dan_murphys_price_info.
  rewrite Htop, Hmem. cbn [negb andb]. rewrite Hproducts.
  unfold py_or at 1. cbn [truthy py_get obind].
  rewrite or_else_ok. rewrite Hfirst. cbn [obind].
  rewrite (truthy_dict pi Hpi). cbn [negb py_get obind].
  rewrite or_else_ok. cbn [obind]. rewrite !or_else_ok. reflexivity.
Qed.

Lemma dan_murphys_products_fallback_witness :
  dan_murphys_prices
    (VDict [("Price", VNone);
            ("Products", VList [VDict [("price", VDict [("SalePrice", VInt 48)])]])])
  = Ok (VInt 48, VNone).
Proof.
  rewrite (dan_murphys_products_fallback _ [("price", VDict [("SalePrice", VInt 48)])]
             [("SalePrice", VInt 48)] []); try reflexivity.
  discriminate.
Defined.

(** X16.  Dan Murphy's looks into the products only if the response has
    the key ["Products"] in that spelling: without a price object at the
    top and without that key, the lookup fails with "Unable to locate
    price data", whatever is under ["products"]. *)
Theorem dan_murphys_needs_products_key :
  forall (d : dict),
    truthy (py_or (Dict.get d "Price") (Dict.get d "price")) = false ->
    Dict.mem d "Products" = false ->
    dan_murphys_prices (VDict d)
    = Raise (ValueError "Unable to locate price data for Dan Murphy's response").
Proof.
  intros d Htop Hmem. unfold dan_murphys_prices, dan_murphys_price_info.
  rewrite Htop, Hmem. cbn [negb andb obind]. rewrite Htop. reflexivity.
Qed.

Lemma dan_murphys_needs_products_key_witness :
  dan_murphys_prices
    (VDict [("products", VList [VDict [("Price", VDict [("FinalPrice", VInt 48)])]])])
  = Raise (ValueError "Unable to locate price data for Dan Murphy's response").
Proof. apply dan_murphys_needs_products_key; reflexivity. Defined.

(** X17.  Woolworths with a flat price: when the response is an object
    without a (true) ["ProductDetail"] and its ["Price"] is a number or a
    string rather than an object, that value is the total price and there
    is no unit price. *)
Theorem woolworths_flat_price :
  forall (d : dict) (v : value),
    truthy (Dict.get d "ProductDetail") = false ->
    Dict.get d "Price" = v ->
    is_leaf v = true ->
    woolworths_prices (VDict d) = Ok (v, VNone).
Proof.
  intros d v Hdetail Hprice Hleaf.
  assert (Hunder : forall field, walk v [field] = Ok VNone)
    by (intros field; destruct v; try reflexivity; discriminate Hleaf).
  unfold woolworths_prices.
  change (extract_path (VDict d) (Some "ProductDetail"))
    with (Ok (Dict.get d "ProductDetail")).
  cbn [obind]. rewrite (py_or_falsy _ (VDict d) Hdetail).
  change (extract_path (VDict d) (Some "Price.FinalPrice"))
    with (walk (Dict.get d "Price") ["FinalPrice"]).
  change (extract_path (VDict d) (Some "Price.SalePrice"))
    with (walk (Dict.get d "Price") ["SalePrice"]).
  change (extract_path (VDict d) (Some "Price.CupPrice"))
    with (walk (Dict.get d "Price") ["CupPrice"]).
  rewrite Hprice, !Hunder. reflexivity.
Qed.

Lemma woolworths_flat_price_witness :
  woolworths_prices (VDict [("Name", VStr "Hard Rated"); ("Price", VStr "48.00")])
  = Ok (VStr "48.00", VNone).
Proof. apply woolworths_flat_price; reflexivity. Defined.

(* ===================================================================== *)
(** ** More on the orchestrator *)
(* ===================================================================== *)

(** For a registered source key, the call of the loop is the adapter's
    own call. *)
Lemma invoke_registered (f : fetcher) (credentials : dict) (pack : PackConfig) :
  registry_get FETCHERS (source pack) = Some f ->
  invoke f credentials pack = fetch f pack credentials.
Proof.
  unfold invoke, FETCHERS, registry_get. intros H.
  repeat match type of H with
         | (if String.eqb ?k (source pack) then _ else _) = _ =>
             let Hk := fresh "Hk" in
             destruct (String.eqb_spec k (source pack)) as [Hk | Hk];
               [rewrite <- Hk; injection H as <-; reflexivity|]
         end.
  discriminate H.
Qed.

(** X18.  The loop passes the credentials exactly to the Coles adapter:
    for a pack whose source key is registered, the call it makes is the
    call the adapter expects, never one with a wrong number of arguments. *)
Theorem dispatch_matches_adapter :
  forall (f : fetcher) (credentials : dict) (pack : PackConfig),
    registry_get FETCHERS (source pack) = Some f ->
    invoke f credentials pack = fetch f pack credentials.
Proof. exact invoke_registered. Qed.

Lemma dispatch_matches_adapter_witness :
  invoke Fetch_coles [("coles_api_key", VStr "key")] (sample_pack "coles" 24)
  = fetch_coles (sample_pack "coles" 24) [("coles_api_key", VStr "key")] /\
  invoke Fetch_liquorland_like [("coles_api_key", VStr "key")] (sample_pack "first_choice" 24)
  = fetch_liquorland_like (sample_pack "first_choice" 24).
Proof.
  split.
  - apply (dispatch_matches_adapter Fetch_coles). reflexivity.
  - apply (dispatch_matches_adapter Fetch_liquorland_like
             [("coles_api_key", VStr "key")] (sample_pack "first_choice" 24)).
    reflexivity.
Defined.

(** One turn of the loop, in full: what it returns, logs and sends. *)
Lemma process_pack_run (credentials : dict) (entries : list entry) (pack : PackConfig)
    (w : world) :
  (registry_get FETCHERS (source pack) = None /\
   process_pack credentials entries pack w = (Ok entries, add_log (log_skipping pack) w))
  \/
  (exists f e w1,
      registry_get FETCHERS (source pack) = Some f /\
      fetch f pack credentials (add_log (log_fetching pack) w) = (Raise e, w1) /\
      process_pack credentials entries pack w
      = (Ok entries, add_log (log_failed pack e) w1))
  \/
  (exists f p w1,
      registry_get FETCHERS (source pack) = Some f /\
      fetch f pack credentials (add_log (log_fetching pack) w) = (Ok p, w1) /\
      process_pack credentials entries pack w
      = (Ok (entries ++ [entry_of pack p])%list, tick w1)).
Proof.
  destruct (registry_get FETCHERS (source pack)) as [f|] eqn:Hreg.
  - right.
    rewrite (process_pack_registered credentials entries pack w f Hreg).
    rewrite (invoke_registered f credentials pack Hreg).
    fold (log_fetching pack).
    destruct (fetch f pack credentials (add_log (log_fetching pack) w))
      as [[p|e] w1] eqn:Hrun.
    + right. exists f, p, w1. auto.
    + left. exists f, e, w1. auto.
  - left. split; [reflexivity|].
    apply (process_pack_unregistered credentials entries pack w Hreg).
Qed.

(** The loop adds to its entries records picked from its packs. *)
Lemma pack_loop_picked (credentials : dict) (packs : list PackConfig) :
  forall (entries : list entry) (w : world),
    exists new w',
      pack_loop credentials entries packs w = (Ok (entries ++ new)%list, w') /\
      picked packs new.
Proof.
  induction packs as [|pack rest IH]; intros entries w; simpl.
  - exists [], w. rewrite app_nil_r. split; [reflexivity | constructor].
  - destruct (process_pack_run credentials entries pack w)
      as [[_ Hstep] | [(f & e & w1 & _ & _ & Hstep) | (f & p & w1 & _ & _ & Hstep)]];
      erewrite bind_ok by exact Hstep.
    + destruct (IH entries (add_log (log_skipping pack) w)) as (new & w' & Hloop & Hp).
      exists new, w'. split; [exact Hloop | apply picked_skip; exact Hp].
    + destruct (IH entries (add_log (log_failed pack e) w1)) as (new & w' & Hloop & Hp).
      exists new, w'. split; [exact Hloop | apply picked_skip; exact Hp].
    + destruct (IH (entries ++ [entry_of pack p])%list (tick w1))
        as (new & w' & Hloop & Hp).
      exists (entry_of pack p :: new), w'. split.
      * rewrite Hloop. rewrite <- app_assoc. reflexivity.
      * apply picked_take. exact Hp.
Qed.

(** X19.  What a run writes is nothing or one snapshot, and the records
    of the snapshot are built from some of the configured packs, at most
    one record per pack, in the configured order. *)
Theorem records_follow_configured_order :
  forall (credentials : dict) (packs : list PackConfig) (w : world),
    exists new : list snapshot,
      w_written (snd (main credentials packs w)) = (w_written w ++ new)%list /\
      (length new <= 1)%nat /\
      Forall (fun snap => picked packs (items snap)) new.
Proof.
  intros credentials packs w.
  destruct (pack_loop_picked credentials packs [] w) as (entries & w1 & Hloop & Hpicked).
  simpl in Hloop.
  destruct (quiet_pack_loop credentials packs [] w) as [_ Hwritten].
  rewrite Hloop in Hwritten. simpl in Hwritten.
  rewrite (main_after_loop credentials packs w w1 entries Hloop).
  destruct packs as [|pack rest].
  - exists []. simpl. rewrite app_nil_r. repeat split; [lia | constructor].
  - destruct entries as [|e es].
    + exists []. simpl. rewrite app_nil_r. repeat split; [exact Hwritten | lia | constructor].
    + exists [{| updated_at := w_clock w1 (w_ticks w1); items := e :: es |}].
      simpl. rewrite Hwritten. repeat split; [lia|].
      constructor; [exact Hpicked | constructor].
Qed.

(** What one turn of the loop sends and logs. *)
Lemma process_pack_effects (credentials : dict) (entries : list entry)
    (pack : PackConfig) (w : world) :
  exists (extra : list request) (lines : list log_record),
    w_sent (snd (process_pack credentials entries pack w)) = (w_sent w ++ extra)%list /\
    w_log (snd (process_pack credentials entries pack w)) = (w_log w ++ lines)%list /\
    (length extra <= if registered (source pack) then 1 else 0)%nat /\
    match registry_get FETCHERS (source pack) with
    | None => lines = [log_skipping pack]
    | Some f =>
        match fst (fetch f pack credentials (add_log (log_fetching pack) w)) with
        | Ok _ => lines = [log_fetching pack]
        | Raise e => lines = [log_fetching pack; log_failed pack e]
        end
    end.
Proof.
  unfold registered.
  destruct (process_pack_run credentials entries pack w)
    as [[Hreg Hstep] | [(f & e & w1 & Hreg & Hrun & Hstep)
                       | (f & p & w1 & Hreg & Hrun & Hstep)]];
    rewrite Hstep, Hreg; simpl.
  - exists [], [log_skipping pack]. rewrite app_nil_r. auto.
  - rewrite Hrun. simpl.
    destruct (fetch_run f pack credentials (add_log (log_fetching pack) w))
      as [[e' H] | [(r & e' & H) | (r & p & H & _)]];
      rewrite H in Hrun; [| |discriminate Hrun];
      injection Hrun as He Hw; subst e' w1; simpl.
    + exists [], [log_fetching pack; log_failed pack e].
      rewrite app_nil_r, <- app_assoc. auto.
    + exists [r], [log_fetching pack; log_failed pack e].
      rewrite <- app_assoc. auto.
  - rewrite Hrun. simpl.
    destruct (fetch_run f pack credentials (add_log (log_fetching pack) w))
      as [[e' H] | [(r & e' & H) | (r & p' & H & _)]];
      rewrite H in Hrun; [discriminate Hrun | discriminate Hrun |].
    injection Hrun as Hp Hw. subst p w1. simpl.
    exists [r], [log_fetching pack]. auto.
Qed.


(** X21.  The log of one turn of the loop.  An unregistered source key:
    one warning, and nothing is sent.  A registered one: the "Fetching"
    line, followed, if the adapter fails, by one error line with the
    retailer, the pack size and the exception. *)
Theorem pack_turn_is_logged :
  forall (credentials : dict) (entries : list entry) (pack : PackConfig) (w : world),
    let w' := snd (process_pack credentials entries pack w) in
    (registry_get FETCHERS (source pack) = None ->
     w_log w' = (w_log w ++ [log_skipping pack])%list /\ w_sent w' = w_sent w)
    /\
    (forall f,
        registry_get FETCHERS (source pack) = Some f ->
        match fst (fetch f pack credentials (add_log (log_fetching pack) w)) with
        | Ok _ => w_log w' = (w_log w ++ [log_fetching pack])%list
        | Raise e => w_log w' = (w_log w ++ [log_fetching pack; log_failed pack e])%list
        end).
Proof.
  intros credentials entries pack w. cbv zeta.
  destruct (process_pack_effects credentials entries pack w)
    as (extra & lines & Hsent & Hlog & Hlen & Hlines).
  unfold registered in Hlen. split.
  - intros Hreg. rewrite Hreg in Hlen, Hlines. subst lines.
    split; [exact Hlog|].
    destruct extra; [rewrite app_nil_r in Hsent; exact Hsent | simpl in Hlen; lia].
  - intros f Hreg. rewrite Hreg in Hlines.
    destruct (fst (fetch f pack credentials (add_log (log_fetching pack) w)));
      subst lines; exact Hlog.
Qed.

Lemma pack_turn_is_logged_witness :
  w_log (snd (process_pack [] [] (sample_pack "aldi" 24) quoting_world))
  = [log_skipping (sample_pack "aldi" 24)] /\
  w_log (snd (process_pack [] [] pack_without_product quoting_world))
  = [log_fetching pack_without_product;
     log_failed pack_without_product (ValueError "product_id required for BWS")].
Proof.
  split.
  - apply (proj1 (pack_turn_is_logged [] [] (sample_pack "aldi" 24) quoting_world)).
    reflexivity.
  - apply (proj2 (pack_turn_is_logged [] [] pack_without_product quoting_world)
             Fetch_bws).
    reflexivity.
Defined.

(** X22.  However many packs are configured, if each of them has no
    adapter or an adapter that raises, the run exits with code 1 and
    the data file is not written. *)
Theorem run_without_success_fails :
  forall (credentials : dict) (packs : list PackConfig) (w : world),
    Forall (yields_nothing credentials w) packs ->
    fst (main credentials packs w) = Ok 1 /\
    w_written (snd (main credentials packs w)) = w_written w.
Proof.
  intros credentials packs w Hnothing.
  destruct (pack_loop_nothing credentials w packs Hnothing [] w (same_outside_refl w))
    as (w1 & Hloop & _ & Hwritten).
  rewrite (main_after_loop credentials packs w w1 [] Hloop).
  destruct packs; simpl; auto.
Qed.

Lemma run_without_success_fails_witness :
  fst (main [] [sample_pack "aldi" 24; pack_without_product; sample_pack "custom" 6]
            quoting_world) = Ok 1 /\
  w_written (snd (main [] [sample_pack "aldi" 24; pack_without_product;
                           sample_pack "custom" 6] quoting_world)) = [].
Proof.
  apply (run_without_success_fails [] _ quoting_world).
  apply Forall_cons; [|apply Forall_cons; [|apply Forall_cons; [|apply Forall_nil]]].
  - left. reflexivity.
  - right. exists Fetch_bws. split; [reflexivity|].
    intros w' _. exists (ValueError "product_id required for BWS"). reflexivity.
  - left. reflexivity.
Defined.

(** X23.  No successful pack is dropped: if some configured pack has an
    adapter that returns a payload (in the surroundings of the start world),
    the run exits with code 0 and the snapshot it writes has the record of
    that pack and of a payload [p] its adapter returned in the run; the
    failures of other packs do not matter. *)
Theorem successful_pack_is_recorded :
  forall (credentials : dict) (packs : list PackConfig) (w : world)
         (pack : PackConfig) (f : fetcher),
    In pack packs ->
    registry_get FETCHERS (source pack) = Some f ->
    (forall w', same_outside w w' ->
                exists p, fst (invoke f credentials pack w') = Ok p) ->
    fst (main credentials packs w) = Ok 0 /\
    exists (p : payload) (w1 : world) (ts : Z) (es : list entry),
      same_outside w w1 /\
      fst (invoke f credentials pack w1) = Ok p /\
      w_written (snd (main credentials packs w))
      = (w_written w ++ [{| updated_at := ts; items := es |}])%list /\
      In (entry_of pack p) es.
Proof.
  intros credentials packs w pack f Hin Hreg Hok.
  destruct (in_split pack packs Hin) as (front & back & ->).
  (* the packs before *)
  destruct (pack_loop_entries credentials front [] w) as (es1 & w1 & Hloop1 & _).
  simpl in Hloop1.
  destruct (quiet_pack_loop credentials front [] w) as [Hsame1 Hwr1].
  rewrite Hloop1 in Hsame1, Hwr1. simpl in Hsame1, Hwr1.
  (* the pack itself *)
  set (w2 := add_log (log_fetching pack) w1).
  assert (Hsame2 : same_outside w w2) by exact Hsame1.
  destruct (Hok w2 Hsame2) as [p Hp].
  destruct (quiet_call_fetcher f pack
              (if String.eqb (source pack) "coles" then Some credentials else None) w2)
    as [Hout Hwr2].
  fold (invoke f credentials pack) in Hout, Hwr2.
  destruct (invoke f credentials pack w2) as [o w3] eqn:Hrun.
  simpl in Hp, Hout, Hwr2. subst o.
  assert (Hstep : process_pack credentials es1 pack w1
                  = (Ok (es1 ++ [entry_of pack p])%list, tick w3)).
  { rewrite (process_pack_registered credentials es1 pack w1 f Hreg).
    fold (log_fetching pack). fold w2. rewrite Hrun. reflexivity. }
  (* the packs after *)
  destruct (pack_loop_entries credentials back (es1 ++ [entry_of pack p])%list (tick w3))
    as (es2 & w4 & Hloop2 & _).
  destruct (quiet_pack_loop credentials back (es1 ++ [entry_of pack p])%list (tick w3))
    as [_ Hwr4].
  rewrite Hloop2 in Hwr4. simpl in Hwr4.
  assert (Hloop : pack_loop credentials [] (front ++ pack :: back) w
                  = (Ok ((es1 ++ [entry_of pack p]) ++ es2)%list, w4)).
  { rewrite pack_loop_app. erewrite bind_ok by exact Hloop1.
    simpl. erewrite bind_ok by exact Hstep. exact Hloop2. }
  rewrite (main_after_loop credentials (front ++ pack :: back) w w4 _ Hloop).
  destruct (front ++ pack :: back)%list as [|pk rest] eqn:Hlist;
    [destruct front; discriminate|].
  destruct ((es1 ++ [entry_of pack p]) ++ es2)%list as [|e es] eqn:Hes;
    [destruct es1; discriminate|].
  simpl. split; [reflexivity|].
  exists p, w2, (w_clock w4 (w_ticks w4)), (e :: es).
  split; [exact Hsame2|]. split; [rewrite Hrun; reflexivity|]. split.
  - f_equal. rewrite Hwr4. simpl. rewrite Hwr2. simpl. exact Hwr1.
  - rewrite <- Hes. apply in_or_app. left. apply in_or_app. right. simpl. auto.
Qed.

Lemma successful_pack_is_recorded_witness :
  fst (main [] [pack_without_product; sample_pack "dan_murphys" 24; sample_pack "bws" 6]
            quoting_world) = Ok 0 /\
  exists p w1 ts es,
    same_outside quoting_world w1 /\
    fst (invoke Fetch_dan_murphys [] (sample_pack "dan_murphys" 24) w1) = Ok p /\
    w_written (snd (main [] [pack_without_product; sample_pack "dan_murphys" 24;
                             sample_pack "bws" 6] quoting_world))
    = [{| updated_at := ts; items := es |}] /\
    In (entry_of (sample_pack "dan_murphys" 24) p) es.
Proof.
  apply (successful_pack_is_recorded [] _ quoting_world (sample_pack "dan_murphys" 24)
           Fetch_dan_murphys).
  - simpl. auto.
  - reflexivity.
  - apply dan_murphys_quoted.
Defined.

(* ===================================================================== *)
(** ** Loading the pack definitions *)
(* ===================================================================== *)

Example int_of_values :
  map py_int [VInt (-3); VBool true; VFloat (literal "24.9"); VFloat (literal "-24.9");
              VFloat (literal "1e3"); VStr " 24 "; VStr "24.0"; VNone;
              VFloat S754_nan; VFloat (S754_infinity false)]
  = [Ok (-3); Ok 1; Ok 24; Ok (-24); Ok 1000; Ok 24;
     Raise (ValueError "invalid literal for int() with base 10"); Raise TypeError;
     Raise (ValueError "cannot convert float NaN to integer"); Raise OverflowError].
Proof. vm_compute. reflexivity. Qed.

Lemma load_all_app (front back : list value) :
  load_all (front ++ back) =
  match load_all front with
  | Failed e => Failed e
  | Loaded rs =>
      match load_all back with
      | Failed e => Failed e
      | Loaded rs' => Loaded (rs ++ rs')%list
      end
  end.
Proof.
  induction front as [|raw rest IH]; simpl.
  - destruct (load_all back); reflexivity.
  - destruct (from_dict raw); [|reflexivity].
    rewrite IH. destruct (load_all rest); [|reflexivity].
    destruct (load_all back); reflexivity.
Qed.

Lemma load_all_loaded (raws : list value) :
  Forall (fun raw => exists r, from_dict raw = Loaded r) raws ->
  exists rs, load_all raws = Loaded rs.
Proof.
  induction 1 as [|raw rest [r Hr] _ [rs IH]]; simpl.
  - eauto.
  - rewrite Hr, IH. eauto.
Qed.

(** X24.  One bad pack definition fails the whole load: when the
    definitions before it load and it does not, loading the packs fails
    with its error, whatever comes after it; no partial list is returned. *)
Theorem first_bad_pack_fails_the_load :
  forall (config : dict) (front back : list value) (bad : value) (e : load_error),
    Dict.get config "packs" = VList (front ++ bad :: back) ->
    Forall (fun raw => exists r, from_dict raw = Loaded r) front ->
    from_dict bad = Failed e ->
    load_pack_configs config = Failed e.
Proof.
  intros config front back bad e Hpacks Hfront Hbad.
  unfold load_pack_configs, get_default.
  assert (Hmem : Dict.mem config "packs" = true).
  { destruct (Dict.mem config "packs") eqn:Hmem; [reflexivity|].
    rewrite (dict_get_absent config "packs" Hmem) in Hpacks. discriminate. }
  rewrite Hmem, Hpacks. rewrite load_all_app.
  destruct (load_all_loaded front Hfront) as [rs ->].
  simpl. rewrite Hbad. reflexivity.
Qed.

Lemma first_bad_pack_fails_the_load_witness :
  load_pack_configs
    [("packs",
      VList [VDict [("retailer", VStr "BWS"); ("pack_size", VInt 10)];
             VDict [("pack_size", VInt 24); ("source", VStr "coles")];
             VDict [("retailer", VStr "Coles"); ("pack_size", VStr "six")]])]
  = Failed (KeyError "retailer").
Proof.
  apply (first_bad_pack_fails_the_load _
           [VDict [("retailer", VStr "BWS"); ("pack_size", VInt 10)]]
           [VDict [("retailer", VStr "Coles"); ("pack_size", VStr "six")]]
           (VDict [("pack_size", VInt 24); ("source", VStr "coles")])).
  - reflexivity.
  - apply Forall_cons; [eexists; reflexivity | apply Forall_nil].
  - reflexivity.
Defined.

Lemma load_all_each (raws : list value) :
  forall rs, load_all raws = Loaded rs ->
             Forall2 (fun raw r => from_dict raw = Loaded r) raws rs.
Proof.
  induction raws as [|raw rest IH]; simpl; intros rs H.
  - injection H as <-. constructor.
  - destruct (from_dict raw) as [r|] eqn:Hr; [|discriminate].
    destruct (load_all rest) as [rs'|]; [|discriminate].
    injection H as <-. constructor; [exact Hr | apply IH; reflexivity].
Qed.

(** X25.  When the list under ["packs"] loads, there is one pack for each
    definition, in the order of the definitions, each the result of
    [from_dict] on its definition. *)
Theorem loaded_packs_follow_definitions :
  forall (config : dict) (raws : list value) (rs : list RawPackConfig),
    Dict.get config "packs" = VList raws ->
    load_pack_configs config = Loaded rs ->
    Forall2 (fun raw r => from_dict raw = Loaded r) raws rs.
Proof.
  intros config raws rs Hpacks Hload.
  unfold load_pack_configs, get_default in Hload.
  destruct (Dict.mem config "packs") eqn:Hmem.
  - rewrite Hpacks in Hload. apply load_all_each. exact Hload.
  - rewrite (dict_get_absent config "packs" Hmem) in Hpacks. discriminate.
Qed.

Lemma loaded_packs_follow_definitions_witness :
  Forall2 (fun raw r => from_dict raw = Loaded r)
    [VDict [("retailer", VStr "BWS"); ("pack_size", VFloat (literal "10.0"))];
     VDict [("retailer", VStr "Coles"); ("pack_size", VStr "24"); ("source", VStr "coles")]]
    [{| raw_retailer := VStr "BWS"; raw_suburb := VStr ""; raw_pack_size := 10;
        raw_url := VStr ""; raw_source := VStr "custom"; raw_product_id := VNone;
        raw_store_id := VNone; raw_headers := VNone; raw_extra := VNone |};
     {| raw_retailer := VStr "Coles"; raw_suburb := VStr ""; raw_pack_size := 24;
        raw_url := VStr ""; raw_source := VStr "coles"; raw_product_id := VNone;
        raw_store_id := VNone; raw_headers := VNone; raw_extra := VNone |}].
Proof.
  apply (loaded_packs_follow_definitions
           [("credentials", VDict []);
            ("packs",
             VList [VDict [("retailer", VStr "BWS"); ("pack_size", VFloat (literal "10.0"))];
                    VDict [("retailer", VStr "Coles"); ("pack_size", VStr "24");
                           ("source", VStr "coles")]])]);
    reflexivity.
Defined.

(** X26.  A pack definition without ["source"] is built with the source
    key ["custom"], for which no adapter is registered: the loop skips the
    pack with a warning, sends nothing and adds no record. *)
Theorem pack_without_source_is_skipped :
  forall (d : dict) (r : RawPackConfig) (pack : PackConfig) (credentials : dict)
         (entries : list entry) (w : world),
    from_dict (VDict d) = Loaded r ->
    Dict.mem d "source" = false ->
    annotated r = Some pack ->
    source pack = "custom" /\
    process_pack credentials entries pack w
    = (Ok entries, add_log (log_skipping pack) w).
Proof.
  intros d r pack credentials entries w Hload Hmem Hann.
  assert (Hsource : source pack = "custom").
  { unfold from_dict in Hload.
    destruct (negb (Dict.mem d "retailer")); [discriminate|].
    destruct (negb (Dict.mem d "pack_size")); [discriminate|].
    destruct (py_int (Dict.get d "pack_size")); [|discriminate].
    injection Hload as <-.
    unfold annotated in Hann. cbn [raw_retailer raw_suburb raw_url raw_source
      raw_product_id raw_store_id raw_headers raw_extra raw_pack_size] in Hann.
    unfold get_default at 3 in Hann. rewrite Hmem in Hann. cbn [as_str] in Hann.
    destruct (as_str (Dict.get d "retailer")); [|discriminate].
    destruct (as_str (get_default d "suburb" (VStr ""))); [|discriminate].
    destruct (as_str (get_default d "url" (VStr ""))); [|discriminate].
    destruct (as_optional_str (Dict.get d "product_id")); [|discriminate].
    destruct (as_optional_str (Dict.get d "store_id")); [|discriminate].
    destruct (as_optional_headers (Dict.get d "headers")); [|discriminate].
    destruct (as_optional_dict (Dict.get d "extra")); [|discriminate].
    injection Hann as <-. reflexivity. }
  split; [exact Hsource|].
  apply process_pack_unregistered. rewrite Hsource. reflexivity.
Qed.

Lemma pack_without_source_is_skipped_witness :
  exists r pack,
    from_dict (VDict [("retailer", VStr "Corner shop"); ("pack_size", VInt 10);
                      ("product_id", VStr "123")]) = Loaded r /\
    annotated r = Some pack /\
    source pack = "custom" /\
    process_pack [] [] pack quoting_world
    = (Ok [], add_log (log_skipping pack) quoting_world).
Proof.
  eexists _, _. split; [reflexivity|]. split; [reflexivity|].
  eapply (pack_without_source_is_skipped
            [("retailer", VStr "Corner shop"); ("pack_size", VInt 10);
             ("product_id", VStr "123")]); reflexivity.
Defined.
